(** * gpl.core: PubMed querying, response parsing and record assembly

    A shallow embedding of [src/gpl/core.py] (class [PubMedSearcher]) and
    the properties of its query builder, response parser, date
    normaliser, e-mail selector and of the two remote operations.

    Conventions of the embedding:
    - a Python [str] is a [string]: a character is one value of [ascii]
      and stands for the code point of the same number, from 0 to 255;
      [str.isdigit], [str.strip], [str.capitalize] and the regular
      expression class [\d] are Python's on these code points. The only
      results that leave them are the title cases of the micro sign and
      of the y with diaeresis (see [PyStr.to_title]);
    - a [dict] with string values is a [gmap string string]; a [dict]
      with a fixed set of keys is a record whose fields are options
      ([None] is an absent key, so [d.get(k, v)] is [default v]);
    - the regular expressions of the source are terms of [Re.regex], run
      by a backtracking matcher with the priorities of Python's [re];
    - the network is a function from the history of events and the
      request to its outcome; every effect is logged in a trace. *)

From Stdlib Require Import Ascii String ZArith QArith Lia.
From stdpp Require Import base option list gmap strings pretty.

Local Open Scope stdpp_scope.

(** ** Python strings *)

Module PyStr.

Definition code (c : ascii) : N := N_of_ascii c.

Definition between (lo hi : N) (c : ascii) : bool :=
  ((lo <=? code c) && (code c <=? hi))%N.

(** A decimal digit, the class [\d] of the regular expressions: among
    the code points below 256 these are the ten digits 0 to 9. *)
Definition digit (c : ascii) : bool := between 48 57 c.

(** [c.isdigit()] for one character: a decimal digit, or one of the
    superscript digits two, three (178, 179) and one (185). *)
Definition digit_like (c : ascii) : bool :=
  digit c || between 178 179 c || between 185 185 c.

(** The letters whose other case is a code point below 256: A to Z and
    a to z, and the letters from 192 to 222 and from 224 to 254, without
    the multiplication sign (215) and the division sign (247). *)
Definition upper_case (c : ascii) : bool :=
  between 65 90 c || between 192 214 c || between 216 222 c.
Definition lower_case (c : ascii) : bool :=
  between 97 122 c || between 224 246 c || between 248 254 c.

(** [c.isspace()], the characters that [str.strip] removes: TAB, LF, VT,
    FF, CR, FS, GS, RS, US and the blank, the next-line control (133)
    and the no-break space (160). *)
Definition space (c : ascii) : bool :=
  between 9 13 c || between 28 32 c || between 133 133 c || between 160 160 c.

Definition to_upper (c : ascii) : ascii :=
  if lower_case c then ascii_of_N (code c - 32) else c.

(** [c.lower()]. *)
Definition to_lower (c : ascii) : ascii :=
  if upper_case c then ascii_of_N (code c + 32) else c.

(** The title case of one character, which [str.capitalize] gives to the
    first character of a string (Python 3.8 and later): the upper-case
    letter, and "Ss" for the sharp s (223). The title cases of the micro
    sign (181) and of the y with diaeresis (255) are U+039C and U+0178,
    which no character stands for: these two characters are left as they
    are, and the rule on the capitalisation of a text is stated for the
    texts that start with another character. *)
Definition to_title (c : ascii) : string :=
  if between 223 223 c then "Ss" else String (to_upper c) "".

Fixpoint smap (f : ascii -> ascii) (s : string) : string :=
  match s with
  | "" => ""
  | String c s' => String (f c) (smap f s')
  end.

Fixpoint all (p : ascii -> bool) (s : string) : bool :=
  match s with
  | "" => true
  | String c s' => p c && all p s'
  end.

(** [bool(s)]: a string is true when it is not empty. *)
Definition truthy (s : string) : bool :=
  match s with "" => false | _ => true end.

(** [s.isdigit()]: at least one character, and only digits. *)
Definition isdigit (s : string) : bool := truthy s && all digit_like s.

(** One decimal digit or more: the texts that [\d+] matches. *)
Definition decimal (s : string) : bool := truthy s && all digit s.

(** [s.capitalize()]: the first character in title case, the others in
    lower case. *)
Definition capitalize (s : string) : string :=
  match s with
  | "" => ""
  | String c s' => to_title c +:+ smap to_lower s'
  end.

(** [s[:n]]. *)
Definition slice_to (n : nat) (s : string) : string := String.substring 0 n s.

Fixpoint lstrip (s : string) : string :=
  match s with
  | "" => ""
  | String c s' => if space c then lstrip s' else s
  end.

(** [rstrip] keeps a character when it is not a space or when something
    is kept after it. *)
Fixpoint rstrip (s : string) : string :=
  match s with
  | "" => ""
  | String c s' =>
      match rstrip s' with
      | "" => if space c then "" else String c ""
      | t => String c t
      end
  end.

(** [s.strip()]. *)
Definition strip (s : string) : string := rstrip (lstrip s).

(** [s.startswith(p)], returning the rest of [s]. *)
Fixpoint strip_prefix (p s : string) : option string :=
  match p with
  | "" => Some s
  | String c p' =>
      match s with
      | "" => None
      | String d s' => if Ascii.eqb c d then strip_prefix p' s' else None
      end
  end.

(** [sub in s] for two strings. *)
Fixpoint contains (sub s : string) : bool :=
  match strip_prefix sub s with
  | Some _ => true
  | None => match s with "" => false | String _ s' => contains sub s' end
  end.

(** [sep.join(l)]. *)
Definition join (sep : string) (l : list string) : string := String.concat sep l.

(** The characters of a string, as [for c in s] yields them. *)
Fixpoint chars (s : string) : list string :=
  match s with
  | "" => []
  | String c s' => String c "" :: chars s'
  end.

(** The double quote, as a one-character string. *)
Definition dquote : string := String (ascii_of_N 34) "".

End PyStr.

(** ** Regular expressions *)

Module Re.

(** Character sets of the patterns of the source. *)
Inductive charset :=
| Dot                                  (* [.] under [re.DOTALL] *)
| Digit                                (* [\d] *)
| NoneOf (cs : string)                 (* [[^cs]] *)
| OneOf (ranges : list (ascii * ascii)) (cs : string). (* [[a-z...cs]] *)

Fixpoint elem (c : ascii) (cs : string) : bool :=
  match cs with
  | "" => false
  | String d cs' => Ascii.eqb c d || elem c cs'
  end.

Definition in_range (c : ascii) (r : ascii * ascii) : bool :=
  PyStr.between (PyStr.code r.1) (PyStr.code r.2) c.

Definition charset_mem (cs : charset) (c : ascii) : bool :=
  match cs with
  | Dot => true
  | Digit => PyStr.digit c
  | NoneOf l => negb (elem c l)
  | OneOf rs l => existsb (in_range c) rs || elem c l
  end.

(** The fragment of the syntax of [re] that the source uses: literal
    text, a repeated character set ([*], [+], [{n}], [{n,}], greedy or
    lazy), concatenation, a numbered capturing group and an optional
    non-capturing group [(?:r)?]. *)
Inductive regex :=
| Lit (s : string)
| Rep (cs : charset) (lo : nat) (hi : option nat) (greedy : bool)
| Cat (r1 r2 : regex)
| Group (i : nat) (r : regex)
| Opt (r : regex).

Definition star (cs : charset) : regex := Rep cs 0 None true.
Definition plus (cs : charset) : regex := Rep cs 1 None true.
Definition star_lazy (cs : charset) : regex := Rep cs 0 None false.
Definition exactly (n : nat) (cs : charset) : regex := Rep cs n (Some n) true.
Definition at_least (n : nat) (cs : charset) : regex := Rep cs n None true.

(** The groups of a match: number to captured text. *)
Definition groups := gmap nat string.

(** [m.group(i)]; a group that did not take part reads as [None]. *)
Definition group (g : groups) (i : nat) : option string := g !! i.

(** The text between the start of [s] and the start of its suffix [s']. *)
Definition consumed (s s' : string) : string :=
  String.substring 0 (String.length s - String.length s') s.

Section Matcher.
Context {A : Type}.

(** Greedy repetition: take a character when possible, and give it
    back when the rest of the pattern fails. *)
Fixpoint rep_greedy (cs : charset) (lo : nat) (hi : option nat)
    (s : string) (k : string -> option A) : option A :=
  let stop := match lo with 0 => k s | S _ => None end in
  match hi with
  | Some 0 => stop
  | _ =>
      match s with
      | String c s' =>
          if charset_mem cs c then
            match rep_greedy cs (pred lo) (pred <$> hi) s' k with
            | Some x => Some x
            | None => stop
            end
          else stop
      | "" => stop
      end
  end.

(** Lazy repetition: try the rest of the pattern first. *)
Fixpoint rep_lazy (cs : charset) (lo : nat) (hi : option nat)
    (s : string) (k : string -> option A) : option A :=
  let more :=
    match hi with
    | Some 0 => None
    | _ =>
        match s with
        | String c s' =>
            if charset_mem cs c
            then rep_lazy cs (pred lo) (pred <$> hi) s' k
            else None
        | "" => None
        end
    end in
  match lo with
  | 0 => match k s with Some x => Some x | None => more end
  | S _ => more
  end.

(** The matcher, in continuation-passing style: [k] is the rest of the
    pattern, and a failure of [k] makes the matcher try its next
    alternative, as the backtracking of [re] does. *)
Fixpoint run (r : regex) (s : string) (g : groups)
    (k : string -> groups -> option A) : option A :=
  match r with
  | Lit p =>
      match PyStr.strip_prefix p s with
      | Some s' => k s' g
      | None => None
      end
  | Rep cs lo hi true => rep_greedy cs lo hi s (fun s' => k s' g)
  | Rep cs lo hi false => rep_lazy cs lo hi s (fun s' => k s' g)
  | Cat r1 r2 => run r1 s g (fun s' g' => run r2 s' g' k)
  | Group i r1 => run r1 s g (fun s' g' => k s' (<[i := consumed s s']> g'))
  | Opt r1 =>
      match run r1 s g k with
      | Some x => Some x
      | None => k s g
      end
  end.
End Matcher.

(** A match anchored at the start of [s]: the text left after it and its
    groups. *)
Definition match_at (r : regex) (s : string) : option (string * groups) :=
  run r s ∅ (fun s' g => Some (s', g)).

(** [re.search(r, s)]: the groups of the leftmost match. *)
Fixpoint search (r : regex) (s : string) : option groups :=
  match match_at r s with
  | Some (_, g) => Some g
  | None =>
      match s with
      | "" => None
      | String _ s' => search r s'
      end
  end.

(** The successive matches, left to right and without overlap. [skip]
    counts the characters of the current match still to be passed. *)
Fixpoint finditer (r : regex) (s : string) (skip : nat) : list groups :=
  match skip with
  | S n =>
      match s with
      | "" => []
      | String _ s' => finditer r s' n
      end
  | 0 =>
      match match_at r s with
      | Some (rest, g) =>
          g :: match s with
               | "" => []
               | String _ s' =>
                   finditer r s' (pred (String.length s - String.length rest))
               end
      | None =>
          match s with
          | "" => []
          | String _ s' => finditer r s' 0
          end
      end
  end.

(** [re.findall(r, s)] for a pattern with exactly one group. *)
Definition findall (r : regex) (s : string) : list string :=
  (fun g => default "" (group g 1)) <$> finditer r s 0.

(** [re.split(r, s)] for a pattern without groups whose matches are not
    empty: [cur] is the piece being read, [skip] as in [finditer]. *)
Fixpoint split_go (r : regex) (s : string) (skip : nat) (cur : string)
    : list string :=
  match s with
  | "" => [cur]
  | String c s' =>
      match skip with
      | S n => split_go r s' n cur
      | 0 =>
          match match_at r s with
          | Some (rest, _) =>
              match String.length s - String.length rest with
              | S n => cur :: split_go r s' n ""
              | 0 => split_go r s' 0 (cur +:+ String c "")
              end
          | None => split_go r s' 0 (cur +:+ String c "")
          end
      end
  end.

Definition split (r : regex) (s : string) : list string := split_go r s 0 "".

(** *** What a pattern denotes

    The texts a pattern can match, without reference to the matcher. *)
Inductive lang : regex -> string -> Prop :=
| lang_lit p : lang (Lit p) p
| lang_rep cs lo hi greedy s :
    PyStr.all (charset_mem cs) s = true ->
    lo <= String.length s ->
    (forall h, hi = Some h -> String.length s <= h) ->
    lang (Rep cs lo hi greedy) s
| lang_cat r1 r2 s1 s2 :
    lang r1 s1 -> lang r2 s2 -> lang (Cat r1 r2) (s1 +:+ s2)
| lang_group i r s : lang r s -> lang (Group i r) s
| lang_opt_skip r : lang (Opt r) ""
| lang_opt_take r s : lang r s -> lang (Opt r) s.

(** A text matched by [r] begins [s]. *)
Definition starts_at (r : regex) (s : string) : Prop :=
  exists m post, s = m +:+ post /\ lang r m.

(** A text matched by [r] occurs somewhere in [s]. *)
Definition occurs (r : regex) (s : string) : Prop :=
  exists pre tail, s = pre +:+ tail /\ starts_at r tail.

(** No text matched by [r] begins inside [piece] when [tail] follows. *)
Definition free_of (r : regex) (piece tail : string) : Prop :=
  forall p1 p2, piece = p1 +:+ p2 -> p2 <> "" -> ~ starts_at r (p2 +:+ tail).

(** [pieces] cuts [s] at texts matched by [r], leftmost first: the
    pieces are what lies between the matched texts, in order. *)
Inductive split_on (r : regex) : string -> list string -> Prop :=
| split_on_last s :
    free_of r s "" -> split_on r s [s]
| split_on_cut piece m rest pieces :
    free_of r piece (m +:+ rest) ->
    lang r m ->
    split_on r rest pieces ->
    split_on r (piece +:+ m +:+ rest) (piece :: pieces).

End Re.

Infix "~>" := Re.Cat (at level 60, right associativity).

(** ** Data model *)

(** The dictionaries built by the response parser. *)
Module Raw.

(** [{'name': ..., 'affiliation': ...}] *)
Record author := Author {
  name : option string;
  affiliation : option string
}.

(** The value under ['pub_date']: the empty string the parser starts
    with, or the dictionary of the date components. *)
Inductive date :=
| NoDate
| DateDict (d : gmap string string).

(** [{'pmid': ..., 'title': ..., 'authors': ..., 'pub_date': ...,
    'emails': ...}] *)
Record paper := Paper {
  pmid : option string;
  title : option string;
  authors : option (list author);
  pub_date : option date;
  emails : option (list string)
}.

End Raw.

(** [list(set(...))] has no defined order: the affiliations of a record
    are kept as the set itself. *)
Record PubMedPaper := {
  pubmed_id : string;
  title : string;
  publication_date : string;
  non_academic_authors : list string;
  company_affiliations : gset string;
  corresponding_email : string
}.

(** ** Response parser *)

(** [<PMID[^>]*>(\d+)</PMID>] *)
Definition pmid_pattern : Re.regex :=
  Re.Lit "<PMID" ~> Re.star (Re.NoneOf ">") ~> Re.Lit ">" ~>
  Re.Group 1 (Re.plus Re.Digit) ~> Re.Lit "</PMID>".

(** [<ArticleTitle>([^<]+)</ArticleTitle>] *)
Definition title_pattern : Re.regex :=
  Re.Lit "<ArticleTitle>" ~> Re.Group 1 (Re.plus (Re.NoneOf "<")) ~>
  Re.Lit "</ArticleTitle>".

(** [<PubDate>.*?<Year>(\d{4})</Year>], then the optional
    [(?:.*?<Month>(M)</Month>)?] where [M] is any run of characters other
    than [<], then the optional [(?:.*?<Day>(\d+)</Day>)?], then
    [.*?</PubDate>]. *)
Definition date_pattern : Re.regex :=
  Re.Lit "<PubDate>" ~> Re.star_lazy Re.Dot ~>
  Re.Lit "<Year>" ~> Re.Group 1 (Re.exactly 4 Re.Digit) ~> Re.Lit "</Year>" ~>
  Re.Opt (Re.star_lazy Re.Dot ~> Re.Lit "<Month>" ~>
          Re.Group 2 (Re.star (Re.NoneOf "<")) ~> Re.Lit "</Month>") ~>
  Re.Opt (Re.star_lazy Re.Dot ~> Re.Lit "<Day>" ~>
          Re.Group 3 (Re.plus Re.Digit) ~> Re.Lit "</Day>") ~>
  Re.star_lazy Re.Dot ~> Re.Lit "</PubDate>".

Definition alnum : list (ascii * ascii) :=
  [("a", "z"); ("A", "Z"); ("0", "9")]%char.

(** [([a-zA-Z0-9._%+-]+@[a-zA-Z0-9.-]+\.[a-zA-Z]{2,})] *)
Definition email_pattern : Re.regex :=
  Re.Group 1
    (Re.plus (Re.OneOf alnum "._%+-") ~> Re.Lit "@" ~>
     Re.plus (Re.OneOf alnum ".-") ~> Re.Lit "." ~>
     Re.at_least 2 (Re.OneOf [("a", "z"); ("A", "Z")]%char "")).

(** [<PubmedArticle[^>]*>], the pattern at which the source splits the
    document. It matches the record-start marker, and any other tag
    whose name starts with [PubmedArticle]. *)
Definition article_start : Re.regex :=
  Re.Lit "<PubmedArticle" ~> Re.star (Re.NoneOf ">") ~> Re.Lit ">".

(** [<Author[^>]*>(.*?)</Author>] *)
Definition author_section_pattern : Re.regex :=
  Re.Lit "<Author" ~> Re.star (Re.NoneOf ">") ~> Re.Lit ">" ~>
  Re.Group 1 (Re.star_lazy Re.Dot) ~> Re.Lit "</Author>".

(** [<LastName>([^<]+)</LastName>] *)
Definition last_name_pattern : Re.regex :=
  Re.Lit "<LastName>" ~> Re.Group 1 (Re.plus (Re.NoneOf "<")) ~>
  Re.Lit "</LastName>".

(** [<ForeName>(F)</ForeName>] where [F] is a possibly empty run of
    characters other than [<]. *)
Definition fore_name_pattern : Re.regex :=
  Re.Lit "<ForeName>" ~> Re.Group 1 (Re.star (Re.NoneOf "<")) ~>
  Re.Lit "</ForeName>".

(** [<AffiliationInfo>.*?<Affiliation>(T)</Affiliation>] where [T] is a
    possibly empty run of characters other than [<]. *)
Definition affiliation_pattern : Re.regex :=
  Re.Lit "<AffiliationInfo>" ~> Re.star_lazy Re.Dot ~>
  Re.Lit "<Affiliation>" ~> Re.Group 1 (Re.star (Re.NoneOf "<")) ~>
  Re.Lit "</Affiliation>".

(** [x or ''] for the text of a group. *)
Definition or_empty (o : option string) : string := default "" o.

(** The body of [for author_section in individual_authors]: the author
    list after the section has been handled. *)
Definition author_step (authors : list Raw.author) (author_section : string)
    : list Raw.author :=
  let last_name_match := Re.search last_name_pattern author_section in
  let first_name_match := Re.search fore_name_pattern author_section in
  match last_name_match, first_name_match with
  | Some lm, Some fm =>
      let last_name := or_empty (Re.group lm 1) in
      let first_name := or_empty (Re.group fm 1) in
      let affiliation_match := Re.search affiliation_pattern author_section in
      let affiliation :=
        match affiliation_match with
        | Some am => PyStr.strip (or_empty (Re.group am 1))
        | None => ""
        end in
      authors ++ [Raw.Author
                    (Some (PyStr.strip (first_name +:+ " " +:+ last_name)))
                    (Some affiliation)]
  | _, _ => authors
  end.

Definition parse_authors (article : string) : list Raw.author :=
  let individual_authors := Re.findall author_section_pattern article in
  foldl author_step [] individual_authors.

Definition parse_pub_date (article : string) : Raw.date :=
  match Re.search date_pattern article with
  | Some date_match =>
      Raw.DateDict
        (<["year" := or_empty (Re.group date_match 1)]>
           (<["month" := or_empty (Re.group date_match 2)]>
              (<["day" := or_empty (Re.group date_match 3)]> ∅)))
  | None => Raw.NoDate
  end.

(** The dictionary built for the [i]-th article. *)
Definition parse_article (pmids titles : list string) (i : nat)
    (article : string) : Raw.paper :=
  Raw.Paper
    (Some (default "" (pmids !! i)))
    (Some (default "" (titles !! i)))
    (Some (parse_authors article))
    (Some (parse_pub_date article))
    (Some (Re.findall email_pattern article)).

(** [for i, article in enumerate(articles[1:], 0)], with its [break]. *)
Fixpoint parse_loop (pmids titles : list string) (i : nat)
    (articles : list string) (papers : list Raw.paper) : list Raw.paper :=
  match articles with
  | [] => papers
  | article :: rest =>
      if length pmids <=? i then papers
      else parse_loop pmids titles (S i) rest
             (papers ++ [parse_article pmids titles i article])
  end.

Definition _parse_xml_response (xml_content : string) : list Raw.paper :=
  let pmids := Re.findall pmid_pattern xml_content in
  let titles := Re.findall title_pattern xml_content in
  let articles := Re.split article_start xml_content in
  parse_loop pmids titles 0 (drop 1 articles) [].

(** ** Date normaliser *)

Definition month_names : gmap string string :=
  list_to_map
    [("1", "Jan"); ("2", "Feb"); ("3", "Mar"); ("4", "Apr"); ("5", "May");
     ("6", "Jun"); ("7", "Jul"); ("8", "Aug"); ("9", "Sep"); ("10", "Oct");
     ("11", "Nov"); ("12", "Dec")].

Definition _format_publication_date (pub_date : Raw.date) : string :=
  match pub_date with
  | Raw.NoDate => "Date not available"
  | Raw.DateDict d =>
      if decide (d = ∅) then "Date not available" else
      let year := default "" (d !! "year") in
      let month := default "" (d !! "month") in
      let day := default "" (d !! "day") in
      if negb (PyStr.truthy year) then "Date not available" else
      let month :=
        if PyStr.isdigit month then default month (month_names !! month)
        else if PyStr.truthy month
             then PyStr.capitalize (PyStr.slice_to 3 month)
             else month in
      if PyStr.truthy month && PyStr.truthy day
      then month +:+ " " +:+ day +:+ " " +:+ year
      else if PyStr.truthy month then month +:+ " " +:+ year
      else year
  end.

(** ** Corresponding e-mail selector *)

Definition _extract_corresponding_email (paper : Raw.paper) : string :=
  let emails := default [] (Raw.emails paper) in
  match emails with
  | first :: _ => first
  | [] => "Email Unable to Retrieve"
  end.

(** ** Query builder *)

Definition major_companies : list string :=
  ["pfizer"; "moderna"; "johnson johnson"; "merck"; "novartis"; "roche";
   "bristol myers"; "abbvie"; "gilead"; "amgen"; "biogen"; "regeneron";
   "eli lilly"; "gsk"; "glaxosmithkline"; "astrazeneca"; "sanofi";
   "takeda"; "bayer"; "boehringer ingelheim"; "vertex"; "celgene"].

Definition company_terms : list string :=
  ["pharmaceutical"; "pharmaceuticals"; "pharma"; "biotech"; "biotechnology";
   "therapeutics"; "biopharmaceutical"; "inc[ad]"; "ltd[ad]"; "corp[ad]";
   "corporation[ad]"; "company[ad]"; "laboratories[ad]"; "lab[ad]"].

(** A text between double quotes. *)
Definition quoted (s : string) : string := PyStr.dquote +:+ s +:+ PyStr.dquote.

Definition company_affiliation_parts : list string :=
  ((fun company => quoted company +:+ "[ad]") <$> major_companies) ++
  ((fun term => term +:+ "[ad]") <$> company_terms).

Definition company_filter : string :=
  "(" +:+ PyStr.join " OR " company_affiliation_parts +:+ ")".

Definition academic_exclusions : list string :=
  [quoted "university" +:+ "[ad]"; quoted "college" +:+ "[ad]";
   quoted "institute" +:+ "[ad]"; quoted "hospital" +:+ "[ad]";
   quoted "medical center" +:+ "[ad]"; quoted "department" +:+ "[ad]";
   quoted "school" +:+ "[ad]"].

Definition academic_filter : string :=
  "NOT (" +:+ PyStr.join " OR " academic_exclusions +:+ ")".

Definition _build_company_filtered_query (query : string) : string :=
  "(" +:+ query +:+ ") AND " +:+ company_filter +:+ " " +:+ academic_filter.

(** ** Exceptions, effects and the remote service *)

(** The exception classes that matter to the handlers of the source.
    [KeyboardInterrupt] and [SystemExit] derive from [BaseException] only;
    [ConnectionError], [HTTPError] and [Timeout] derive from
    [RequestException]; all the others derive from [Exception]. *)
Inductive exn_class :=
| KeyboardInterrupt | SystemExit
| Exception | TypeError | AttributeError | KeyError | ValueError
| RequestException | ConnectionError | HTTPError | Timeout
| PubMedAPIError.

Record exn := Exn { class_of : exn_class; str : string }.

(** [isinstance(e, RequestException)] *)
Definition is_RequestException (e : exn) : bool :=
  match class_of e with
  | RequestException | ConnectionError | HTTPError | Timeout => true
  | _ => false
  end.

(** [isinstance(e, Exception)] *)
Definition is_Exception (e : exn) : bool :=
  match class_of e with
  | KeyboardInterrupt | SystemExit => false
  | _ => true
  end.

Inductive result (A : Type) :=
| Ok (a : A)
| Raise (e : exn).
Arguments Ok {A} a.
Arguments Raise {A} e.

(** Values decoded from JSON; the value of a number is never looked at. *)
#[warnings="-register-all"]
Inductive pyval :=
| PyNone
| PyBool (b : bool)
| PyNum (q : Q)
| PyStr (s : string)
| PyList (l : list pyval)
| PyDict (d : list (string * pyval)).

Module Py.

Fixpoint lookup (k : string) (d : list (string * pyval)) : option pyval :=
  match d with
  | [] => None
  | (k', v) :: d' => if String.eqb k k' then Some v else lookup k d'
  end.

Definition is_str (k : string) (v : pyval) : bool :=
  match v with PyStr s => String.eqb k s | _ => false end.

(** [k in v] for a string [k]. *)
Definition contains (k : string) (v : pyval) : result bool :=
  match v with
  | PyDict d => Ok (bool_decide (is_Some (lookup k d)))
  | PyList l => Ok (existsb (is_str k) l)
  | PyStr s => Ok (PyStr.contains k s)
  | _ => Raise (Exn TypeError "argument is not iterable")
  end.

(** [v[k]] for a string [k]. *)
Definition getitem (v : pyval) (k : string) : result pyval :=
  match v with
  | PyDict d =>
      match lookup k d with
      | Some x => Ok x
      | None => Raise (Exn KeyError k)
      end
  | PyList _ => Raise (Exn TypeError "list indices must be integers or slices, not str")
  | PyStr _ => Raise (Exn TypeError "string indices must be integers")
  | _ => Raise (Exn TypeError "object is not subscriptable")
  end.

(** [v.get(k, dflt)] *)
Definition get (v : pyval) (k : string) (dflt : pyval) : result pyval :=
  match v with
  | PyDict d => Ok (default dflt (lookup k d))
  | _ => Raise (Exn AttributeError "object has no attribute 'get'")
  end.

(** [len(v)] *)
Definition len (v : pyval) : result nat :=
  match v with
  | PyStr s => Ok (String.length s)
  | PyList l => Ok (length l)
  | PyDict d => Ok (length d)
  | _ => Raise (Exn TypeError "object has no len()")
  end.

(** [bool(v)] *)
Definition truthy (v : pyval) : bool :=
  match v with
  | PyNone => false
  | PyBool b => b
  | PyNum q => negb (Qeq_bool q 0)
  | PyStr s => PyStr.truthy s
  | PyList l => match l with [] => false | _ => true end
  | PyDict d => match d with [] => false | _ => true end
  end.

(** The strings that [sep.join(v)] joins: every item must be a [str]. *)
Fixpoint strs (l : list pyval) : result (list string) :=
  match l with
  | [] => Ok []
  | PyStr s :: l' =>
      match strs l' with
      | Ok ss => Ok (s :: ss)
      | Raise e => Raise e
      end
  | _ :: _ => Raise (Exn TypeError "sequence item: expected str instance")
  end.

(** [sep.join(v)] *)
Definition join (sep : string) (v : pyval) : result string :=
  match v with
  | PyList l =>
      match strs l with
      | Ok ss => Ok (PyStr.join sep ss)
      | Raise e => Raise e
      end
  | PyStr s => Ok (PyStr.join sep (PyStr.chars s))
  | PyDict d => Ok (PyStr.join sep (fst <$> d))
  | _ => Raise (Exn TypeError "can only join an iterable")
  end.

(** A list of identifiers as a Python list of strings. *)
Definition of_ids (ids : list string) : pyval := PyList (PyStr <$> ids).

End Py.

(** What [requests] gives back: the status, the body, and what
    [response.json()] does (raise, or return the decoded value). *)
Record Response := {
  status_code : Z;
  text : string;
  json : exn + pyval
}.

Definition params := list (string * string).

(** Observable events, in the order in which they happen. [ParseXml] is
    not an effect of the source: it marks the call of
    [_parse_xml_response]. *)
Inductive event :=
| Sleep (seconds : Q)
| Get (url : string) (p : params)
| ParseXml (xml_content : string).

Definition trace := list event.

(** [self.session]: what a request returns, or the exception it raises,
    given everything that happened before. *)
Record Session := {
  get : trace -> string -> params -> exn + Response
}.

Record PubMedSearcher := {
  rate_limit : Q;
  session : Session
}.

(** Computations: a result or an exception, and the events added. *)
Definition M (A : Type) : Type := trace -> result A * trace.

#[global] Instance M_ret : MRet M := fun A a tr => (Ok a, tr).

#[global] Instance M_bind : MBind M := fun A B f m tr =>
  match m tr with
  | (Ok a, tr') => f a tr'
  | (Raise e, tr') => (Raise e, tr')
  end.

Definition raise {A} (e : exn) : M A := fun tr => (Raise e, tr).

Definition lift {A} (r : result A) : M A := fun tr => (r, tr).

Definition emit (ev : event) : M unit := fun tr => (Ok (), tr ++ [ev]).

(** [try: body except ...]: [handler e] is the clause that catches [e],
    if there is one. *)
Definition try_except {A} (body : M A) (handler : exn -> option (M A)) : M A :=
  fun tr =>
    match body tr with
    | (Ok a, tr') => (Ok a, tr')
    | (Raise e, tr') =>
        match handler e with
        | Some h => h tr'
        | None => (Raise e, tr')
        end
    end.

Definition BASE_URL : string := "https://eutils.ncbi.nlm.nih.gov/entrez/eutils".
Definition SEARCH_URL : string := BASE_URL +:+ "/esearch.fcgi".
Definition FETCH_URL : string := BASE_URL +:+ "/efetch.fcgi".

(** [self.session.get(url, params=params, timeout=30)] *)
Definition session_get (self : PubMedSearcher) (url : string) (p : params)
    : M Response :=
  fun tr =>
    (match get (session self) tr url p with
     | inl e => Raise e
     | inr response => Ok response
     end, tr ++ [Get url p]).

(** [response.raise_for_status()]: [HTTPError] for the statuses 400 to
    599. *)
Definition raise_for_status (response : Response) : result unit :=
  if bool_decide (400 ≤ status_code response < 600)%Z
  then Raise (Exn HTTPError ("HTTP error " +:+ pretty (status_code response)))
  else Ok ().

Definition _make_request (self : PubMedSearcher) (url : string) (p : params)
    : M Response :=
  emit (Sleep (rate_limit self));;
  response ← session_get self url p;
  lift (raise_for_status response);;
  mret response.

Definition fetch_params (ids : string) : params :=
  [("db", "pubmed"); ("id", ids); ("retmode", "xml"); ("tool", "gpl");
   ("email", "your.email@example.com")].

Definition fetch_handler (e : exn) : option (M (list Raw.paper)) :=
  if is_RequestException e
  then Some (raise (Exn PubMedAPIError ("Failed to fetch paper details: " +:+ str e)))
  else None.

Definition fetch_paper_details (self : PubMedSearcher) (pmids : pyval)
    : M (list Raw.paper) :=
  if negb (Py.truthy pmids) then mret [] else
  ids ← lift (Py.join "," pmids);
  try_except
    (response ← _make_request self FETCH_URL (fetch_params ids);
     let xml_content := text response in
     emit (ParseXml xml_content);;
     mret (_parse_xml_response xml_content))
    fetch_handler.

Definition search_params (enhanced_query : string) (max_results : Z) : params :=
  [("db", "pubmed"); ("term", enhanced_query); ("retmax", pretty max_results);
   ("retmode", "json"); ("sort", "relevance"); ("tool", "gpl");
   ("email", "your.email@example.com")].

(** The body of [for paper_data in paper_details]. *)
Definition make_paper (paper_data : Raw.paper) : PubMedPaper :=
  let pub_date :=
    _format_publication_date (default Raw.NoDate (Raw.pub_date paper_data)) in
  let email := _extract_corresponding_email paper_data in
  let authors := default [] (Raw.authors paper_data) in
  let author_names :=
    (fun a => default "" (Raw.name a)) <$>
      filter (fun a => PyStr.truthy (default "" (Raw.name a)) = true) authors in
  let affiliations : gset string :=
    list_to_set
      ((fun a => default "" (Raw.affiliation a)) <$>
         filter (fun a => PyStr.truthy (default "" (Raw.affiliation a)) = true)
           authors) in
  {| pubmed_id := default "" (Raw.pmid paper_data);
     title := default "" (Raw.title paper_data);
     publication_date := pub_date;
     non_academic_authors := author_names;
     company_affiliations := affiliations;
     corresponding_email := email |}.

Definition search_handler (e : exn) : option (M (list PubMedPaper)) :=
  if is_RequestException e
  then Some (raise (Exn PubMedAPIError ("Failed to search PubMed: " +:+ str e)))
  else if is_Exception e
  then Some (raise (Exn PubMedAPIError
                      ("Unexpected error during PubMed search: " +:+ str e)))
  else None.

(** The block under [try] in [search_papers]. *)
Definition search_try (self : PubMedSearcher) (enhanced_query : string)
    (max_results : Z) : M (list PubMedPaper) :=
  response ← _make_request self SEARCH_URL
               (search_params enhanced_query max_results);
  data ← lift (match json response with inl e => Raise e | inr v => Ok v end);
  found ← lift (Py.contains "esearchresult" data);
  if negb found
  then raise (Exn PubMedAPIError "Invalid response format from PubMed search")
  else
    esearchresult ← lift (Py.getitem data "esearchresult");
    pmids ← lift (Py.get esearchresult "idlist" (PyList []));
    lift (Py.len pmids);;
    if negb (Py.truthy pmids) then mret [] else
    paper_details ← fetch_paper_details self pmids;
    mret (make_paper <$> paper_details).

Definition search_papers (self : PubMedSearcher) (query : string)
    (max_results : Z) (filter_companies : bool) : M (list PubMedPaper) :=
  let enhanced_query :=
    if filter_companies then _build_company_filtered_query query else query in
  try_except (search_try self enhanced_query max_results) search_handler.

(** ** The specification's reading of the parser and of the normaliser *)

Module Spec.

(** What an author block contributes: nothing when the last name or the
    given name is missing; otherwise the trimmed "given last" and the
    affiliation found under the affiliation-info wrapper, or the empty
    string. *)
Definition author_of_block (block : string) : option Raw.author :=
  lm ← Re.search last_name_pattern block;
  fm ← Re.search fore_name_pattern block;
  let last := or_empty (Re.group lm 1) in
  let given := or_empty (Re.group fm 1) in
  Some (Raw.Author
          (Some (PyStr.strip (given +:+ " " +:+ last)))
          (Some (from_option (fun am => PyStr.strip (or_empty (Re.group am 1)))
                   "" (Re.search affiliation_pattern block)))).

(** The record-start marker: the start tag of the element that holds
    the data of one article, [<PubmedArticle>], with or without
    attributes; after the name of the element comes [>], or a blank, a
    TAB or an end of line and then the attributes. *)
Definition record_start : Re.regex :=
  Re.Lit "<PubmedArticle" ~>
  Re.Opt (Re.Rep (Re.OneOf []
                    (String (ascii_of_N 9)
                       (String (ascii_of_N 10) (String (ascii_of_N 13) " "))))
            1 (Some 1) true ~>
          Re.star (Re.NoneOf ">")) ~>
  Re.Lit ">".

(** White space: the characters TAB, LF, VT, FF and CR (9 to 13), FS,
    GS, RS and US (28 to 31), the blank (32), the next-line control
    (133) and the no-break space (160). *)
Definition whitespace (c : ascii) : Prop :=
  (9 <= PyStr.code c <= 13 \/ 28 <= PyStr.code c <= 32 \/
   PyStr.code c = 133 \/ PyStr.code c = 160)%N.

(** The fixed table of abbreviations, by month number. *)
Definition abbreviations : list string :=
  ["Jan"; "Feb"; "Mar"; "Apr"; "May"; "Jun";
   "Jul"; "Aug"; "Sep"; "Oct"; "Nov"; "Dec"].

(** A numeric text: at least one character, each of them one of the ten
    digits or one of the superscript digits one (185), two (178) and
    three (179). *)
Definition numeric_char (c : ascii) : Prop :=
  (48 <= PyStr.code c <= 57 \/
   PyStr.code c = 178 \/ PyStr.code c = 179 \/ PyStr.code c = 185)%N.

Definition numeric (s : string) : Prop :=
  s <> "" /\ Forall numeric_char (list_ascii_of_string s).

(** [cases u l]: [u] is an upper-case letter and [l] is the same letter
    in lower case. The letters are the 26 letters of the alphabet, from
    65 in upper case, and the 30 accented letters from 192 in upper
    case (215 is the multiplication sign); the lower-case letter comes
    32 places after the upper-case one. *)
Definition cases (u l : ascii) : Prop :=
  (65 <= PyStr.code u <= 90 \/
   (192 <= PyStr.code u <= 222 /\ PyStr.code u <> 215))%N /\
  PyStr.code l = (PyStr.code u + 32)%N.

(** A character in upper case: the upper-case letter of a lower-case
    letter; any other character is left as it is. *)
Definition upper_cased (c u : ascii) : Prop :=
  cases u c \/ ((forall u', ~ cases u' c) /\ u = c).

(** A character in lower case: the lower-case letter of an upper-case
    letter; any other character is left as it is. *)
Definition lower_cased (c l : ascii) : Prop :=
  cases c l \/ ((forall l', ~ cases c l') /\ l = c).

(** A text in lower case, character by character. *)
Inductive lower_text : string -> string -> Prop :=
| lower_text_nil : lower_text "" ""
| lower_text_cons c l s t :
    lower_cased c l -> lower_text s t -> lower_text (String c s) (String l t).

(** The three lower-case letters whose upper case is not one character
    with a code point below 256: the micro sign (181), the sharp s (223)
    and the y with diaeresis (255). The rule for a textual month is
    stated for the other characters. *)
Definition without_upper (c : ascii) : Prop :=
  (PyStr.code c = 181 \/ PyStr.code c = 223 \/ PyStr.code c = 255)%N.

(** The first three characters of a text; the text itself when it has
    less than three. *)
Definition first_three (s pre : string) : Prop :=
  exists rest,
    s = pre +:+ rest /\
    (String.length pre = 3 \/ (rest = "" /\ String.length pre < 3)).

(** The month as it is printed:
    - the decimal numeral of [k], for [k] from 1 to 12, is replaced by
      the [k]-th abbreviation;
    - any other numeric text is left as it is;
    - any other text is cut to its first three characters, the first of
      them in upper case and the others in lower case;
    - an empty month stays empty. *)
Inductive month_text : string -> string -> Prop :=
| month_number (k : nat) abbrev :
    1 <= k <= 12 -> abbreviations !! (k - 1) = Some abbrev ->
    month_text (pretty k) abbrev
| month_other_number month :
    numeric month ->
    (forall k : nat, 1 <= k <= 12 -> month <> pretty k) ->
    month_text month month
| month_textual c rest c1 t u t' :
    ~ numeric (String c rest) -> ~ without_upper c ->
    first_three (String c rest) (String c1 t) ->
    upper_cased c1 u -> lower_text t t' ->
    month_text (String c rest) (String u t')
| month_empty : month_text "" "".

(** The three output formats. *)
Definition date_text (month day year : string) : string :=
  match month, day with
  | String _ _, String _ _ => month +:+ " " +:+ day +:+ " " +:+ year
  | String _ _, "" => month +:+ " " +:+ year
  | "", _ => year
  end.

(** The request fails: the session raises a [RequestException]
    (network failure), or the status of the response is an error
    status. *)
Inductive transport_failure : exn + Response -> Prop :=
| network_failure e :
    is_RequestException e = true -> transport_failure (inl e)
| error_status response :
    (400 <= status_code response < 600)%Z -> transport_failure (inr response).

(** The request of the search fails: the session raises an exception
    that derives from [Exception] (a [RequestException], or the plain
    [Exception] by which the tests simulate a failure), or the status of
    the response is an error status. *)
Inductive search_failure : exn + Response -> Prop :=
| request_raises e :
    is_Exception e = true -> search_failure (inl e)
| request_error_status response :
    (400 <= status_code response < 600)%Z -> search_failure (inr response).

(** The response decodes to an object without the top-level field
    ["esearchresult"]. *)
Inductive missing_field : exn + Response -> Prop :=
| no_esearchresult response d :
    ~ (400 <= status_code response < 600)%Z ->
    json response = inr (PyDict d) ->
    Py.lookup "esearchresult" d = None ->
    missing_field (inr response).

End Spec.

(** ** Sessions and inputs used in the examples *)

Module Examples.

(** Every request fails with a connection error. *)
Definition offline : Session :=
  {| get := fun _ _ _ => inl (Exn ConnectionError "connection refused") |}.

(** The user interrupts the program during the request. *)
Definition interrupted : Session :=
  {| get := fun _ _ _ => inl (Exn KeyboardInterrupt "") |}.

(** Every request is answered with the given status, body and decoded
    value. *)
Definition answers (status : Z) (body : string) (decoded : exn + pyval)
    : Session :=
  {| get := fun _ _ _ =>
       inr {| status_code := status; text := body; json := decoded |} |}.

(** The search finds the given identifiers and the fetch returns the
    given document. *)
Definition service (ids : list string) (document : string) : Session :=
  {| get := fun _ url _ =>
       if String.eqb url SEARCH_URL
       then inr {| status_code := 200; text := "";
                   json := inr (PyDict [("esearchresult",
                                         PyDict [("idlist", Py.of_ids ids)])]) |}
       else inr {| status_code := 200; text := document;
                   json := inl (Exn ValueError "not JSON") |} |}.

Definition searcher (s : Session) : PubMedSearcher :=
  {| rate_limit := 34 # 100; session := s |}.

(** One record, as in the end-to-end scenario of the tests. *)
Definition one_record : string :=
  "<PubmedArticle><PMID Version=1>12345</PMID>" +:+
  "<ArticleTitle>Test Paper</ArticleTitle>" +:+
  "<AuthorList><Author ValidYN=Y><LastName>Doe</LastName>" +:+
  "<ForeName>John</ForeName><AffiliationInfo>" +:+
  "<Affiliation>Pfizer Inc.</Affiliation></AffiliationInfo>" +:+
  "</Author></AuthorList>test@pfizer.com" +:+
  "<PubDate><Year>2023</Year><Month>Jan</Month><Day>15</Day></PubDate>" +:+
  "</PubmedArticle>".

End Examples.

(** ** Notions used in the proofs *)

(** The bounds of a repetition, met by a text of [n] characters. *)
Definition within (lo : nat) (hi : option nat) (n : nat) : Prop :=
  lo <= n /\ forall h, hi = Some h -> n <= h.

(** What a successful repetition has read before handing over to [k]. *)
Definition rep_read {A} (cs : Re.charset) (lo : nat) (hi : option nat)
    (s : string) (k : string -> option A) (x : A) : Prop :=
  exists pre rest,
    s = pre +:+ rest /\ PyStr.all (Re.charset_mem cs) pre = true /\
    within lo hi (String.length pre) /\ k rest = Some x.

(** A computation only adds events, and the events it adds satisfy [P]. *)
Definition adds {A} (P : event -> Prop) (m : M A) : Prop :=
  forall tr, exists later, (m tr).2 = tr ++ later /\ Forall P later.

(** An event other than a request to the search endpoint. *)
Definition not_search (ev : event) : Prop :=
  match ev with
  | Get url _ => url <> SEARCH_URL
  | _ => True
  end.

(** Closes a goal [is_Some o] when [o] is a hypothesis or a [Some]. *)
Ltac some := first [assumption | by (unfold is_Some; eexists)].

(** Decides the comparisons of a code point with the bounds of the
    character classes. *)
Ltac ranges :=
  unfold PyStr.upper_case, PyStr.lower_case, PyStr.digit_like, PyStr.digit,
    PyStr.space, PyStr.between in *;
  repeat match goal with
         | |- context [(?a <=? ?b)%N] => destruct (N.leb_spec a b)
         | H : context [(?a <=? ?b)%N] |- _ => destruct (N.leb_spec a b)
         end;
  simpl in *; try done; try lia.


(** Handles one entry of the table of months. *)
Ltac month_entry H k :=
  apply elem_of_cons in H as [[= -> ->]|H];
  [exists k; split_and!; [lia|lia|reflexivity|reflexivity]|].

(** ** Groups of a match *)

(** The numbers of the groups of a pattern. *)
Fixpoint group_ids (r : Re.regex) : list nat :=
  match r with
  | Re.Lit _ | Re.Rep _ _ _ _ => []
  | Re.Cat r1 r2 => group_ids r1 ++ group_ids r2
  | Re.Group i r1 => i :: group_ids r1
  | Re.Opt r1 => group_ids r1
  end.

(** [captures r s g g']: the pattern [r] matches the text [s] and turns
    the groups [g] into [g']; a group records the text it has matched. *)
Inductive captures : Re.regex -> string -> Re.groups -> Re.groups -> Prop :=
| captures_lit p g : captures (Re.Lit p) p g g
| captures_rep cs lo hi greedy s g :
    PyStr.all (Re.charset_mem cs) s = true ->
    lo <= String.length s ->
    (forall h, hi = Some h -> String.length s <= h) ->
    captures (Re.Rep cs lo hi greedy) s g g
| captures_cat r1 r2 s1 s2 g g1 g2 :
    captures r1 s1 g g1 -> captures r2 s2 g1 g2 ->
    captures (Re.Cat r1 r2) (s1 +:+ s2) g g2
| captures_group i r s g g' :
    captures r s g g' -> captures (Re.Group i r) s g (<[i := s]> g')
| captures_opt_skip r g : captures (Re.Opt r) "" g g
| captures_opt_take r s g g' : captures r s g g' -> captures (Re.Opt r) s g g'.

(** An e-mail shaped text: local part, [@], domain, a dot, and at least
    two letters. *)
Definition email_shaped (x : string) : Prop :=
  exists loc domain tld,
    x = loc +:+ "@" +:+ domain +:+ "." +:+ tld /\
    loc <> "" /\ domain <> "" /\ 2 <= String.length tld /\
    PyStr.all (Re.charset_mem (Re.OneOf alnum "._%+-")) loc = true /\
    PyStr.all (Re.charset_mem (Re.OneOf alnum ".-")) domain = true /\
    PyStr.all (Re.charset_mem (Re.OneOf [("a", "z"); ("A", "Z")]%char "")) tld = true.

(** A text without white space at either end. *)
Definition trimmed (s : string) : Prop :=
  (forall c t, s = String c t -> ~ Spec.whitespace c) /\
  (forall t c, s = t +:+ String c "" -> ~ Spec.whitespace c).

(** [trimmed_of text t]: [t] is [text] without the white space at its
    two ends. *)
Definition trimmed_of (text t : string) : Prop :=
  trimmed t /\
  exists before after,
    text = before +:+ t +:+ after /\
    Forall Spec.whitespace (list_ascii_of_string before) /\
    Forall Spec.whitespace (list_ascii_of_string after).

(** What fetching the details adds to the trace: nothing, or the delay and
    the fetch request, or these and the call of the parser. *)
Definition fetch_events (rate : Q) (later : list event) : Prop :=
  later = [] \/
  (exists p, later = [Sleep rate; Get FETCH_URL p]) \/
  (exists p xml_content,
     later = [Sleep rate; Get FETCH_URL p; ParseXml xml_content]).

(** ** Further sessions used in the examples *)

Module MoreExamples.

(** Every request fails with a plain [Exception], as the simulated
    failure of the tests does. *)
Definition failing : Session :=
  {| get := fun _ _ _ => inl (Exn Exception "API Error") |}.

(** The search answers with the given value under ["idlist"]. *)
Definition listing (idlist : pyval) : Session :=
  {| get := fun _ _ _ =>
       inr {| status_code := 200; text := "";
              json := inr (PyDict [("esearchresult",
                                    PyDict [("idlist", idlist)])]) |} |}.

(** An answer of the fetch with two articles, inside the root element
    [<PubmedArticleSet>] of every answer. *)
Definition first_article : string :=
  "<PMID>11</PMID><ArticleTitle>First</ArticleTitle>" +:+
  "<AuthorList><Author><LastName>Doe</LastName>" +:+
  "<ForeName>John</ForeName></Author></AuthorList>john@pfizer.com" +:+
  "</PubmedArticle>".

Definition second_article : string :=
  "<PMID>22</PMID><ArticleTitle>Second</ArticleTitle>" +:+
  "<AuthorList><Author><LastName>Poe</LastName>" +:+
  "<ForeName>Ann</ForeName></Author></AuthorList>" +:+
  "</PubmedArticle></PubmedArticleSet>".

Definition two_articles : string :=
  "<PubmedArticleSet>" +:+
  "<PubmedArticle>" +:+ first_article +:+
  "<PubmedArticle>" +:+ second_article.

(** An answer of the fetch for the identifier of a book: the root
    element holds a [<PubmedBookArticle>] and no article. *)
Definition book_only : string :=
  "<PubmedArticleSet><PubmedBookArticle><BookDocument>" +:+
  "<PMID>20301295</PMID><ArticleTitle>GeneReviews</ArticleTitle>" +:+
  "</BookDocument></PubmedBookArticle></PubmedArticleSet>".

(** The no-break space, as a one-character string. *)
Definition nbsp : string := String (ascii_of_N 160) "".

End MoreExamples.

(** ** Command line: display of a list ([src/gpl/cli.py]) *)

(** [s[:n]] for an integer [n]: a negative [n] counts from the end. *)
Definition slice_to_int (n : Z) (s : string) : string :=
  if (0 <=? n)%Z then PyStr.slice_to (Z.to_nat n) s
  else PyStr.slice_to (String.length s - Z.to_nat (- n)) s.

(** [len(x)] as an integer. *)
Definition len (s : string) : Z := Z.of_nat (String.length s).

Definition format_list_for_display (items : list string) (max_width : Z) : string :=
  match items with
  | [] => ""
  | first :: _ =>
      if (Z.of_nat (length items) =? 1)%Z then
        if (max_width <? len first)%Z
        then slice_to_int max_width first +:+ "..."
        else first
      else
        let formatted := slice_to_int (max_width / 2) first +:+ "..." in
        if (1 <? Z.of_nat (length items))%Z
        then formatted +:+ " (+" +:+ pretty (Z.of_nat (length items) - 1)%Z +:+ " more)"
        else formatted
  end.

(** ** Command line: the entry point ([src/gpl/cli.py]) *)

(** What the program prints ([click.echo], to the standard output or to
    the standard error), the events of the searcher, and the calls of the
    two output functions. The progress bar and the log records are not
    part of the model. *)
Inductive cli_event :=
| Echo (message : string) (err : bool)
| Net (ev : event)
| SaveCsv (papers : list PubMedPaper) (filename : string)
| DisplayTable (papers : list PubMedPaper).

(** The surroundings of [main]: the help text of the command, and what the
    two output functions do once called ([None]: they return; [Some e]:
    they raise [e], which is [SystemExit] when [save_papers_csv] has
    caught an [IOError] and called [sys.exit(1)]). *)
Record Terminal := {
  get_help : string;
  save_papers_csv : list PubMedPaper -> string -> option exn;
  display_papers_table : list PubMedPaper -> option exn
}.

(** [sys.exit(1)] raises [SystemExit(1)]. *)
Definition sys_exit_1 : exn := Exn SystemExit "1".

Definition newline : string := String (ascii_of_N 10) "".

(** The block under [try] in [main]. *)
Definition main_try (net : Session) (term : Terminal) (query : string)
    (output_file : option string) (no_prefilter : bool)
    : result unit * list cli_event :=
  let searcher := {| rate_limit := 34 # 100; session := net |} in
  let use_prefilter := negb no_prefilter in
  let filter_msg :=
    if use_prefilter then "with pre-filtering" else "without pre-filtering" in
  let log := [Echo ("Searching PubMed for: '" +:+ query +:+ "' (" +:+
                    filter_msg +:+ ")...") false] in
  match search_papers searcher query 200 use_prefilter [] with
  | (Raise e, events) => (Raise e, log ++ (Net <$> events))
  | (Ok papers, events) =>
      let log := log ++ (Net <$> events) in
      match papers with
      | [] => (Ok (), log ++ [Echo "No papers found for the given query." false])
      | _ =>
          if PyStr.truthy (default "" output_file) then
            let filename := default "" output_file in
            (match save_papers_csv term papers filename with
             | None => Ok ()
             | Some e => Raise e
             end, log ++ [SaveCsv papers filename])
          else
            (match display_papers_table term papers with
             | None => Ok ()
             | Some e => Raise e
             end, log ++ [DisplayTable papers])
      end
  end.

Definition main (net : Session) (term : Terminal) (query output_file : option string)
    (debug no_prefilter help : bool) : result unit * list cli_event :=
  if help || negb (PyStr.truthy (default "" query)) then
    (Ok (), [Echo (get_help term) false])
  else
    match main_try net term (default "" query) output_file no_prefilter with
    | (Ok _, log) => (Ok (), log)
    | (Raise e, log) =>
        match class_of e with
        | PubMedAPIError =>
            (Raise sys_exit_1,
             log ++ [Echo ("Error accessing PubMed: " +:+ str e) true])
        | KeyboardInterrupt =>
            (Raise sys_exit_1,
             log ++ [Echo (newline +:+ "Operation cancelled by user.") false])
        | _ =>
            if is_Exception e then
              (if debug then Raise e else Raise sys_exit_1,
               log ++ [Echo ("An unexpected error occurred: " +:+ str e) true])
            else (Raise e, log)
        end
    end.

(** The requests among the events of a run of the program. *)
Definition requests (log : list cli_event) : list (string * params) :=
  omap (fun ev => match ev with Net (Get url p) => Some (url, p) | _ => None end) log.

(** The run has called one of the two output functions. *)
Definition is_output (ev : cli_event) : Prop :=
  match ev with
  | SaveCsv _ _ | DisplayTable _ => True
  | _ => False
  end.

(** An event of the program other than an event of the searcher. *)
Definition not_net (ev : cli_event) : Prop :=
  match ev with
  | Net _ => False
  | _ => True
  end.

(** The requests among the events of the searcher. *)
Definition requests_of (events : list event) : list (string * params) :=
  omap (fun ev => match ev with Get url p => Some (url, p) | _ => None end) events.

(** The searcher that [main] builds. *)
Definition default_searcher (net : Session) : PubMedSearcher :=
  {| rate_limit := 34 # 100; session := net |}.

(** The first line that [main] prints before searching. *)
Definition searching_line (query : string) (no_prefilter : bool) : cli_event :=
  Echo ("Searching PubMed for: '" +:+ query +:+ "' (" +:+
        (if negb no_prefilter then "with pre-filtering" else "without pre-filtering")
        +:+ ")...") false.

(** * Properties *)

(** ** Strings *)

Section StringFacts.
Implicit Types s t u p : string.

Lemma sapp_nil_l s : "" +:+ s = s.
Proof. reflexivity. Qed.

Lemma sapp_cons c s t : String c s +:+ t = String c (s +:+ t).
Proof. reflexivity. Qed.

Lemma sapp_nil_r s : s +:+ "" = s.
Proof. induction s as [|c s IH]; [done|]. by rewrite sapp_cons, IH. Qed.

Lemma sapp_assoc s t u : (s +:+ t) +:+ u = s +:+ (t +:+ u).
Proof. induction s as [|c s IH]; [done|]. by rewrite !sapp_cons, IH. Qed.

Lemma slength_app s t :
  String.length (s +:+ t) = String.length s + String.length t.
Proof. induction s as [|c s IH]; [done|]. rewrite sapp_cons. simpl. by rewrite IH. Qed.

Lemma sapp_eq_nil s t : s +:+ t = "" -> s = "" /\ t = "".
Proof. destruct s; [done|]. by rewrite sapp_cons. Qed.

Lemma substring_prefix s t : String.substring 0 (String.length s) (s +:+ t) = s.
Proof.
  induction s as [|c s IH]; [by destruct t|].
  rewrite sapp_cons. simpl. by rewrite IH.
Qed.

Lemma strip_prefix_app p s : PyStr.strip_prefix p (p +:+ s) = Some s.
Proof.
  induction p as [|c p IH]; [done|].
  rewrite sapp_cons. simpl. by rewrite Ascii.eqb_refl.
Qed.

Lemma strip_prefix_Some p s s' :
  PyStr.strip_prefix p s = Some s' -> s = p +:+ s'.
Proof.
  revert s. induction p as [|c p IH]; intros s H; simpl in H.
  - by injection H as ->.
  - destruct s as [|d s]; [done|].
    destruct (Ascii.eqb c d) eqn:E; [|done].
    apply Ascii.eqb_eq in E as ->. rewrite sapp_cons. f_equal. by apply IH.
Qed.

Lemma strip_prefix_None p s post : PyStr.strip_prefix p s = None -> s <> p +:+ post.
Proof. intros H ->. by rewrite strip_prefix_app in H. Qed.

Lemma contains_unfold sub s :
  PyStr.contains sub s =
    match PyStr.strip_prefix sub s with
    | Some _ => true
    | None => match s with "" => false | String _ s' => PyStr.contains sub s' end
    end.
Proof. by destruct s. Qed.

(** [PyStr.contains] is the substring test. *)
Lemma contains_true sub s :
  PyStr.contains sub s = true <-> exists pre post, s = pre +:+ sub +:+ post.
Proof.
  split.
  - induction s as [|c s IH]; rewrite contains_unfold;
      destruct (PyStr.strip_prefix sub _) as [post|] eqn:E; try done.
    + intros _. exists "", post. rewrite sapp_nil_l. by apply strip_prefix_Some.
    + intros _. exists "", post. rewrite sapp_nil_l. by apply strip_prefix_Some.
    + intros (pre & post & ->)%IH. exists (String c pre), post.
      by rewrite sapp_cons.
  - intros (pre & post & ->). induction pre as [|c pre IH].
    + by rewrite sapp_nil_l, contains_unfold, strip_prefix_app.
    + rewrite sapp_cons, contains_unfold, IH. by destruct (PyStr.strip_prefix _ _).
Qed.

Lemma all_ext (f g : ascii -> bool) s :
  (forall c, f c = g c) -> PyStr.all f s = PyStr.all g s.
Proof. intros E. induction s as [|c s IH]; [done|]. simpl. by rewrite E, IH. Qed.

Lemma rstrip_cons c s :
  PyStr.rstrip (String c s) =
    match PyStr.rstrip s with
    | "" => if PyStr.space c then "" else String c ""
    | t => String c t
    end.
Proof. reflexivity. Qed.

Lemma lstrip_spec s :
  exists blanks, s = blanks +:+ PyStr.lstrip s /\ PyStr.all PyStr.space blanks = true.
Proof.
  induction s as [|c s (blanks & E & H)]; [by exists ""|]. simpl.
  destruct (PyStr.space c) eqn:Hc; [|by exists ""].
  exists (String c blanks). rewrite sapp_cons, <- E. split; [done|].
  simpl. by rewrite Hc.
Qed.

Lemma lstrip_head s c t : PyStr.lstrip s = String c t -> PyStr.space c = false.
Proof.
  induction s as [|d s IH]; [done|]. simpl.
  destruct (PyStr.space d) eqn:Hd; [done|]. by intros [= <- _].
Qed.

Lemma rstrip_spec s :
  exists blanks, s = PyStr.rstrip s +:+ blanks /\ PyStr.all PyStr.space blanks = true.
Proof.
  induction s as [|c s (blanks & E & H)]; [by exists ""|]. rewrite rstrip_cons.
  destruct (PyStr.rstrip s) as [|d t].
  - rewrite sapp_nil_l in E. subst blanks.
    destruct (PyStr.space c) eqn:Hc; [|by exists s].
    exists (String c s). split; [done|]. simpl. by rewrite Hc.
  - exists blanks. split; [|done]. by rewrite sapp_cons, <- E.
Qed.

Lemma rstrip_last s t c :
  PyStr.rstrip s = t +:+ String c "" -> PyStr.space c = false.
Proof.
  revert t. induction s as [|d s IH]; intros t.
  - by destruct t.
  - rewrite rstrip_cons. destruct (PyStr.rstrip s) as [|e r].
    + destruct (PyStr.space d) eqn:Hd; [by destruct t|].
      destruct t as [|x t]; [by intros [= <-]|].
      rewrite sapp_cons. intros [= _ E]. by destruct t.
    + destruct t as [|x t]; [done|]. rewrite sapp_cons. intros [= _ E].
      by apply (IH t).
Qed.

Lemma rstrip_head s c t :
  PyStr.rstrip s = String c t -> exists s', s = String c s'.
Proof.
  destruct s as [|d s]; [done|]. rewrite rstrip_cons.
  destruct (PyStr.rstrip s); [destruct (PyStr.space d); [done|]|];
    intros [= <- _]; by eexists.
Qed.

(** [strip] removes spaces at both ends, and only spaces: what is left
    neither starts nor ends with a space. *)
Lemma strip_spec s :
  (exists before after,
     s = before +:+ PyStr.strip s +:+ after /\
     PyStr.all PyStr.space before = true /\ PyStr.all PyStr.space after = true) /\
  (forall c t, PyStr.strip s = String c t -> PyStr.space c = false) /\
  (forall t c, PyStr.strip s = t +:+ String c "" -> PyStr.space c = false).
Proof.
  unfold PyStr.strip. split; [|split].
  - destruct (lstrip_spec s) as (before & E1 & H1).
    destruct (rstrip_spec (PyStr.lstrip s)) as (after & E2 & H2).
    exists before, after. by rewrite <- E2.
  - intros c t H. destruct (rstrip_head _ _ _ H) as [s' E].
    by apply lstrip_head in E.
  - intros t c. apply rstrip_last.
Qed.

Lemma truthy_true s : PyStr.truthy s = true <-> s <> "".
Proof. by destruct s. Qed.

Lemma truthy_false s : PyStr.truthy s = false <-> s = "".
Proof. by destruct s. Qed.

End StringFacts.

(** ** Characters *)

Section CharFacts.

Lemma code_inj a b : PyStr.code a = PyStr.code b -> a = b.
Proof.
  unfold PyStr.code. intros H.
  rewrite <- (ascii_N_embedding a), <- (ascii_N_embedding b). by rewrite H.
Qed.

Lemma code_lt c : (PyStr.code c < 256)%N.
Proof. apply N_ascii_bounded. Qed.

Lemma code_of_N n : (n < 256)%N -> PyStr.code (ascii_of_N n) = n.
Proof. apply N_ascii_embedding. Qed.

(** The characters that [str.strip] removes are the white space. *)
Lemma whitespace_iff c : Spec.whitespace c <-> PyStr.space c = true.
Proof. unfold Spec.whitespace. ranges; intuition lia. Qed.

Lemma not_whitespace_iff c : ~ Spec.whitespace c <-> PyStr.space c = false.
Proof. rewrite whitespace_iff. by destruct (PyStr.space c). Qed.

Lemma all_whitespace_iff s :
  Forall Spec.whitespace (list_ascii_of_string s) <-> PyStr.all PyStr.space s = true.
Proof.
  induction s as [|c s IH]; simpl; [by split|].
  by rewrite Forall_cons, andb_true_iff, IH, whitespace_iff.
Qed.

(** The digits of [str.isdigit] are the numeric characters. *)
Lemma numeric_char_iff c : Spec.numeric_char c <-> PyStr.digit_like c = true.
Proof. unfold Spec.numeric_char. ranges; intuition lia. Qed.

Lemma numeric_iff s : Spec.numeric s <-> PyStr.isdigit s = true.
Proof.
  unfold Spec.numeric, PyStr.isdigit.
  assert (H : Forall Spec.numeric_char (list_ascii_of_string s) <->
              PyStr.all PyStr.digit_like s = true).
  { induction s as [|c s IH]; simpl; [by split|].
    rewrite Forall_cons, andb_true_iff, IH, numeric_char_iff. done. }
  rewrite H. destruct s as [|c s]; [by split; [intros []|]|].
  change (PyStr.truthy (String c s)) with true. rewrite andb_true_l.
  split; [by intros [_ ?]|by intros ?].
Qed.

(** The two cases of a letter, as the functions of the source give
    them. *)
Lemma cases_lower u l :
  Spec.cases u l <-> PyStr.upper_case u = true /\ l = PyStr.to_lower u.
Proof.
  unfold Spec.cases, PyStr.to_lower. pose proof (code_lt u) as Hu. split.
  - intros [Hr Hl].
    assert (Hc : PyStr.upper_case u = true) by (ranges; lia).
    rewrite Hc. split; [done|]. apply code_inj. rewrite code_of_N; [done|lia].
  - intros [Hc ->]. rewrite Hc. rewrite code_of_N.
    + split; [|done]. ranges.
    + ranges.
Qed.

Lemma cases_upper u l :
  Spec.cases u l <-> PyStr.lower_case l = true /\ u = PyStr.to_upper l.
Proof.
  unfold Spec.cases, PyStr.to_upper.
  pose proof (code_lt u) as Hu. pose proof (code_lt l) as Hl. split.
  - intros [Hr Hc].
    assert (Hlc : PyStr.lower_case l = true) by (ranges; lia).
    rewrite Hlc. split; [done|]. apply code_inj.
    rewrite code_of_N; lia.
  - intros [Hc ->]. rewrite Hc. rewrite code_of_N by lia.
    split; ranges.
Qed.

Lemma lower_cased_iff c l : Spec.lower_cased c l <-> l = PyStr.to_lower c.
Proof.
  unfold Spec.lower_cased. split.
  - intros [H|[Hn ->]]; [by apply cases_lower in H as [_ ->]|].
    unfold PyStr.to_lower. destruct (PyStr.upper_case c) eqn:E; [|done].
    destruct (Hn (PyStr.to_lower c)). by apply cases_lower.
  - intros ->. destruct (PyStr.upper_case c) eqn:E.
    + left. by apply cases_lower.
    + right. split; [|by unfold PyStr.to_lower; rewrite E].
      intros l' [H _]%cases_lower. congruence.
Qed.

Lemma upper_cased_iff c u : Spec.upper_cased c u <-> u = PyStr.to_upper c.
Proof.
  unfold Spec.upper_cased. split.
  - intros [H|[Hn ->]]; [by apply cases_upper in H as [_ ->]|].
    unfold PyStr.to_upper. destruct (PyStr.lower_case c) eqn:E; [|done].
    destruct (Hn (PyStr.to_upper c)). by apply cases_upper.
  - intros ->. destruct (PyStr.lower_case c) eqn:E.
    + left. by apply cases_upper.
    + right. split; [|by unfold PyStr.to_upper; rewrite E].
      intros u' [H _]%cases_upper. congruence.
Qed.

Lemma lower_text_iff s t : Spec.lower_text s t <-> t = PyStr.smap PyStr.to_lower s.
Proof.
  split.
  - induction 1 as [|c l s t Hc _ IH]; [done|].
    apply lower_cased_iff in Hc. simpl. by rewrite Hc, IH.
  - intros ->. induction s as [|c s IH]; simpl; constructor; [|done].
    by apply lower_cased_iff.
Qed.

(** The title case of a character that has an upper case among the
    characters is that upper case. *)
Lemma to_title_upper c :
  ~ Spec.without_upper c -> PyStr.to_title c = String (PyStr.to_upper c) "".
Proof.
  unfold Spec.without_upper, PyStr.to_title. intros H.
  destruct (PyStr.between 223 223 c) eqn:E; [|done]. ranges.
Qed.

Lemma first_three_iff s pre : Spec.first_three s pre <-> pre = PyStr.slice_to 3 s.
Proof.
  unfold Spec.first_three, PyStr.slice_to. split.
  - intros (rest & -> & [H|[-> H]]).
    + by rewrite <- H, substring_prefix.
    + rewrite sapp_nil_r.
      do 3 (destruct pre as [|? pre]; [done|]). simpl in H. lia.
  - intros ->.
    destruct s as [|a [|b [|c s]]].
    + exists "". split; [done|]. right. split; [done|simpl; lia].
    + exists "". split; [done|]. right. split; [done|simpl; lia].
    + exists "". split; [done|]. right. split; [done|simpl; lia].
    + assert (E : String.substring 0 3 (String a (String b (String c s))) =
                  String a (String b (String c ""))) by (by destruct s).
      rewrite E. exists s. split; [|by left].
      by rewrite !sapp_cons, sapp_nil_l.
Qed.

Lemma strip_trimmed s : trimmed (PyStr.strip s).
Proof.
  destruct (strip_spec s) as (_ & H1 & H2).
  split; intros ? ? E; apply not_whitespace_iff; eauto.
Qed.

(** [strip] removes the white space at the two ends, and nothing else. *)
Lemma strip_trimmed_of s : trimmed_of s (PyStr.strip s).
Proof.
  split; [apply strip_trimmed|].
  destruct (strip_spec s) as ((before & after & E & Hb & Ha) & _).
  exists before, after. by rewrite !all_whitespace_iff.
Qed.

Lemma trimmed_empty : trimmed "".
Proof. split; [done|]. intros t c E. symmetry in E. by apply sapp_eq_nil in E as [_ ?]. Qed.

End CharFacts.

(** ** The matcher against the denotation of patterns *)

Section MatcherFacts.
Context {A : Type}.
Implicit Types (s : string) (cs : Re.charset) (r : Re.regex).

Lemma within_zero hi : within 0 hi 0.
Proof. split; [done|]. intros; lia. Qed.

Lemma within_succ lo hi n :
  hi <> Some 0 -> within (pred lo) (pred <$> hi) n -> within lo hi (S n).
Proof.
  intros Hhi [Hlo Hup]. split; [lia|].
  intros h ->. destruct h as [|h]; [done|].
  specialize (Hup h eq_refl). lia.
Qed.

Lemma within_pred lo hi n :
  within lo hi (S n) -> hi <> Some 0 /\ within (pred lo) (pred <$> hi) n.
Proof.
  intros [Hlo Hup]. split.
  - intros ->. specialize (Hup 0 eq_refl). lia.
  - split; [lia|]. intros h Hh. destruct hi as [h'|]; [|done].
    injection Hh as <-. specialize (Hup h' eq_refl). lia.
Qed.

Lemma rep_greedy_unfold cs lo hi s (k : string -> option A) :
  Re.rep_greedy cs lo hi s k =
    let stop := match lo with 0 => k s | S _ => None end in
    match hi with
    | Some 0 => stop
    | _ =>
        match s with
        | String c s' =>
            if Re.charset_mem cs c then
              match Re.rep_greedy cs (pred lo) (pred <$> hi) s' k with
              | Some x => Some x
              | None => stop
              end
            else stop
        | "" => stop
        end
    end.
Proof. by destruct s. Qed.

Lemma rep_lazy_unfold cs lo hi s (k : string -> option A) :
  Re.rep_lazy cs lo hi s k =
    let more :=
      match hi with
      | Some 0 => None
      | _ =>
          match s with
          | String c s' =>
              if Re.charset_mem cs c
              then Re.rep_lazy cs (pred lo) (pred <$> hi) s' k
              else None
          | "" => None
          end
      end in
    match lo with
    | 0 => match k s with Some x => Some x | None => more end
    | S _ => more
    end.
Proof. by destruct s. Qed.

Lemma rep_read_stop cs hi s (k : string -> option A) x :
  k s = Some x -> rep_read cs 0 hi s k x.
Proof. intros H. exists "", s. split_and!; auto using within_zero. Qed.

Lemma rep_read_take cs lo hi c s (k : string -> option A) x :
  Re.charset_mem cs c = true -> hi <> Some 0 ->
  rep_read cs (pred lo) (pred <$> hi) s k x ->
  rep_read cs lo hi (String c s) k x.
Proof.
  intros Hc Hhi (pre & rest & -> & Hall & Hw & Hk).
  exists (String c pre), rest. split_and!; [done| |by apply within_succ|done].
  simpl. by rewrite Hc, Hall.
Qed.

Lemma rep_greedy_sound cs (k : string -> option A) x s : forall lo hi,
  Re.rep_greedy cs lo hi s k = Some x -> rep_read cs lo hi s k x.
Proof.
  induction s as [|c s IH]; intros lo hi; rewrite rep_greedy_unfold; cbv zeta.
  - destruct lo; destruct hi as [[|h]|]; try done; apply rep_read_stop.
  - assert (Hstop : match lo with 0 => k (String c s) | S _ => None end = Some x
                    -> rep_read cs lo hi (String c s) k x).
    { destruct lo; [apply rep_read_stop | done]. }
    assert (Htake : hi <> Some 0 ->
              (if Re.charset_mem cs c
               then match Re.rep_greedy cs (pred lo) (pred <$> hi) s k with
                    | Some y => Some y
                    | None => match lo with 0 => k (String c s) | S _ => None end
                    end
               else match lo with 0 => k (String c s) | S _ => None end) = Some x
              -> rep_read cs lo hi (String c s) k x).
    { intros Hhi. destruct (Re.charset_mem cs c) eqn:Hc; [|done].
      destruct (Re.rep_greedy cs (pred lo) (pred <$> hi) s k) as [y|] eqn:E; [|done].
      intros [= ->]. apply rep_read_take; auto. }
    destruct hi as [[|h]|]; [done|by apply Htake..].
Qed.

Lemma rep_lazy_sound cs (k : string -> option A) x s : forall lo hi,
  Re.rep_lazy cs lo hi s k = Some x -> rep_read cs lo hi s k x.
Proof.
  induction s as [|c s IH]; intros lo hi; rewrite rep_lazy_unfold; cbv zeta.
  - destruct lo; [|by destruct hi as [[|h]|]].
    destruct (k "") eqn:E; [intros [= ->]; by apply rep_read_stop|].
    by destruct hi as [[|h]|].
  - assert (Hmore : match hi with
                    | Some 0 => None
                    | _ => if Re.charset_mem cs c
                           then Re.rep_lazy cs (pred lo) (pred <$> hi) s k
                           else None
                    end = Some x -> rep_read cs lo hi (String c s) k x).
    { destruct (Re.charset_mem cs c) eqn:Hc; [|by destruct hi as [[|h]|]].
      destruct hi as [[|h]|]; [done|..]; intros H; apply rep_read_take; auto. }
    destruct lo; [|done].
    destruct (k (String c s)) eqn:E; [intros [= ->]; by apply rep_read_stop|done].
Qed.

Lemma rep_read_lang cs lo hi greedy s (k : string -> option A) x :
  rep_read cs lo hi s k x ->
  exists pre rest, s = pre +:+ rest /\ Re.lang (Re.Rep cs lo hi greedy) pre /\
                   k rest = Some x.
Proof.
  intros (pre & rest & -> & Hall & [Hlo Hup] & Hk).
  exists pre, rest. split_and!; [done| |done]. by constructor.
Qed.

(** Soundness: when the matcher succeeds, the text it has read before
    handing over to [k] is matched by the pattern. *)
Lemma run_sound r : forall s g (k : string -> Re.groups -> option A) x,
  Re.run r s g k = Some x ->
  exists pre rest g', s = pre +:+ rest /\ Re.lang r pre /\ k rest g' = Some x.
Proof.
  induction r as [p|cs lo hi greedy|r1 IH1 r2 IH2|i r IH|r IH]; intros s g k x; simpl.
  - destruct (PyStr.strip_prefix p s) as [s'|] eqn:E; [|done].
    intros Hk. exists p, s', g. split_and!; [by apply strip_prefix_Some|constructor|done].
  - destruct greedy.
    + intros H%rep_greedy_sound. apply (rep_read_lang _ _ _ true) in H
        as (pre & rest & -> & Hl & Hk). by exists pre, rest, g.
    + intros H%rep_lazy_sound. apply (rep_read_lang _ _ _ false) in H
        as (pre & rest & -> & Hl & Hk). by exists pre, rest, g.
  - intros (p1 & rest1 & g1 & -> & Hl1 & H2)%IH1.
    apply IH2 in H2 as (p2 & rest & g2 & -> & Hl2 & Hk).
    exists (p1 +:+ p2), rest, g2. rewrite sapp_assoc.
    split_and!; [done|by constructor|done].
  - intros (pre & rest & g' & -> & Hl & Hk)%IH.
    eexists pre, rest, _. split_and!; [done|by constructor|exact Hk].
  - destruct (Re.run r s g k) as [y|] eqn:E.
    + intros [= ->]. apply IH in E as (pre & rest & g' & -> & Hl & Hk).
      exists pre, rest, g'. split_and!; [done|by constructor|done].
    + intros Hk. exists "", s, g. split_and!; [done|constructor|done].
Qed.

Lemma rep_greedy_complete cs (k : string -> option A) rest pre : forall lo hi,
  PyStr.all (Re.charset_mem cs) pre = true ->
  within lo hi (String.length pre) ->
  is_Some (k rest) ->
  is_Some (Re.rep_greedy cs lo hi (pre +:+ rest) k).
Proof.
  induction pre as [|c pre IH]; intros lo hi Hall Hw Hk; rewrite rep_greedy_unfold; cbv zeta.
  - rewrite sapp_nil_l. destruct Hw as [Hlo _]. simpl in Hlo.
    assert (lo = 0) as -> by lia.
    destruct hi as [[|h]|]; [done|..]; destruct rest as [|d rest]; try done;
      destruct (Re.charset_mem cs d); try done;
      destruct (Re.rep_greedy _ _ _ _ _); some.
  - simpl in Hall. apply andb_prop in Hall as [Hc Hall].
    simpl in Hw. apply within_pred in Hw as [Hhi Hw].
    rewrite sapp_cons, Hc.
    specialize (IH _ _ Hall Hw Hk). destruct IH as [y ->].
    destruct hi as [[|h]|]; [done|some..].
Qed.

Lemma rep_lazy_complete cs (k : string -> option A) rest pre : forall lo hi,
  PyStr.all (Re.charset_mem cs) pre = true ->
  within lo hi (String.length pre) ->
  is_Some (k rest) ->
  is_Some (Re.rep_lazy cs lo hi (pre +:+ rest) k).
Proof.
  induction pre as [|c pre IH]; intros lo hi Hall Hw Hk; rewrite rep_lazy_unfold; cbv zeta.
  - rewrite sapp_nil_l. destruct Hw as [Hlo _]. simpl in Hlo.
    assert (lo = 0) as -> by lia. destruct Hk as [y ->]. some.
  - simpl in Hall. apply andb_prop in Hall as [Hc Hall].
    simpl in Hw. apply within_pred in Hw as [Hhi Hw].
    rewrite sapp_cons, Hc.
    specialize (IH _ _ Hall Hw Hk).
    destruct hi as [[|h]|]; [done|..];
      (destruct lo; [destruct (k (String c (pre +:+ rest))); some|some]).
Qed.

(** Completeness: when the pattern matches a prefix after which [k]
    succeeds whatever the groups are, the matcher succeeds. *)
Lemma run_complete r pre : Re.lang r pre ->
  forall rest g (k : string -> Re.groups -> option A),
    (forall g', is_Some (k rest g')) -> is_Some (Re.run r (pre +:+ rest) g k).
Proof.
  induction 1 as [p|cs lo hi greedy s Hall Hlo Hup|r1 r2 s1 s2 _ IH1 _ IH2
                 |i r s _ IH|r|r s _ IH]; intros rest g k Hk; simpl.
  - by rewrite strip_prefix_app.
  - destruct greedy; [apply rep_greedy_complete|apply rep_lazy_complete];
      auto; by split.
  - rewrite sapp_assoc. apply IH1. intros g'. by apply IH2.
  - apply IH. intros g'. apply Hk.
  - rewrite sapp_nil_l. destruct (Re.run r rest g k); [some|apply Hk].
  - specialize (IH rest g k Hk). destruct IH as [y ->]. some.
Qed.

End MatcherFacts.

(** ** Searching, finding all matches and splitting *)

Section SearchFacts.
Implicit Types (s : string) (r : Re.regex).

Lemma match_at_sound r s rest g :
  Re.match_at r s = Some (rest, g) ->
  exists m, s = m +:+ rest /\ Re.lang r m.
Proof.
  intros (m & rest' & g' & -> & Hl & [= -> ->])%run_sound. by exists m.
Qed.

Lemma match_at_complete r s : Re.starts_at r s -> is_Some (Re.match_at r s).
Proof.
  intros (m & post & -> & Hl). apply run_complete; [done|]. intros g'. some.
Qed.

Lemma match_at_None r s : Re.match_at r s = None <-> ~ Re.starts_at r s.
Proof.
  split.
  - intros H [x Hx]%match_at_complete. congruence.
  - intros H. destruct (Re.match_at r s) as [[rest g]|] eqn:E; [|done].
    destruct H. apply match_at_sound in E as (m & -> & Hl). by exists m, rest.
Qed.

Lemma search_unfold r s :
  Re.search r s =
    match Re.match_at r s with
    | Some (_, g) => Some g
    | None => match s with "" => None | String _ s' => Re.search r s' end
    end.
Proof. by destruct s. Qed.

Lemma occurs_here r s : Re.starts_at r s -> Re.occurs r s.
Proof. intros H. by exists "", s. Qed.

Lemma occurs_later r c s : Re.occurs r s -> Re.occurs r (String c s).
Proof. intros (pre & tail & -> & H). by exists (String c pre), tail. Qed.

Lemma occurs_cons r c s :
  Re.occurs r (String c s) -> Re.starts_at r (String c s) \/ Re.occurs r s.
Proof.
  intros ([|d pre] & tail & E & H).
  - left. by rewrite E.
  - right. rewrite sapp_cons in E. injection E as _ ->. by exists pre, tail.
Qed.

Lemma occurs_nil r : Re.occurs r "" -> Re.starts_at r "".
Proof.
  intros (pre & tail & E & H). symmetry in E.
  apply sapp_eq_nil in E as [_ ->]. done.
Qed.

Lemma match_at_starts r s x : Re.match_at r s = Some x -> Re.starts_at r s.
Proof.
  destruct x as [rest g]. intros (m & -> & Hl)%match_at_sound. by exists m, rest.
Qed.

(** [re.search] finds nothing exactly when no matched text occurs. *)
Lemma search_None r s : Re.search r s = None <-> ~ Re.occurs r s.
Proof.
  induction s as [|c s IH]; rewrite search_unfold.
  - destruct (Re.match_at r "") as [[rest g]|] eqn:E.
    + split; [done|]. intros []. eapply occurs_here, match_at_starts, E.
    + split; [|done]. intros _ H%occurs_nil. by apply match_at_None in E.
  - destruct (Re.match_at r (String c s)) as [[rest g]|] eqn:E.
    + split; [done|]. intros []. eapply occurs_here, match_at_starts, E.
    + rewrite IH. apply match_at_None in E. split.
      * intros H [|]%occurs_cons; done.
      * intros H Ho. apply H. by apply occurs_later.
Qed.

Lemma search_Some r s : is_Some (Re.search r s) <-> Re.occurs r s.
Proof.
  split.
  - induction s as [|c s IH]; rewrite search_unfold;
      destruct (Re.match_at r _) as [[rest g]|] eqn:E; intros [x Hx]; try done.
    + eapply occurs_here, match_at_starts, E.
    + eapply occurs_here, match_at_starts, E.
    + apply occurs_later, IH. some.
  - intros Ho. destruct (Re.search r s) eqn:E; [some|].
    by apply search_None in E.
Qed.

Lemma finditer_unfold r s :
  Re.finditer r s 0 =
    match Re.match_at r s with
    | Some (rest, g) =>
        g :: match s with
             | "" => []
             | String _ s' =>
                 Re.finditer r s' (pred (String.length s - String.length rest))
             end
    | None => match s with "" => [] | String _ s' => Re.finditer r s' 0 end
    end.
Proof. by destruct s. Qed.

(** [re.findall] returns the empty list exactly when [re.search] finds
    nothing. *)
Lemma finditer_nil r s : Re.finditer r s 0 = [] <-> Re.search r s = None.
Proof.
  induction s as [|c s IH]; rewrite finditer_unfold, search_unfold;
    destruct (Re.match_at r _) as [[rest g]|]; done.
Qed.

Lemma findall_nil r s : Re.findall r s = [] <-> ~ Re.occurs r s.
Proof.
  rewrite <- search_None, <- finditer_nil. unfold Re.findall.
  split; [apply fmap_nil_inv | by intros ->].
Qed.

Lemma split_go_nil r skip cur : Re.split_go r "" skip cur = [cur].
Proof. by destruct skip. Qed.

Lemma split_go_cons r c s cur :
  Re.split_go r (String c s) 0 cur =
    match Re.match_at r (String c s) with
    | Some (rest, _) =>
        match String.length (String c s) - String.length rest with
        | S n => cur :: Re.split_go r s n ""
        | 0 => Re.split_go r s 0 (cur +:+ String c "")
        end
    | None => Re.split_go r s 0 (cur +:+ String c "")
    end.
Proof. reflexivity. Qed.

(** Passing over the rest of the text just matched. *)
Lemma split_go_skip r m rest cur :
  Re.split_go r (m +:+ rest) (String.length m) cur = Re.split_go r rest 0 cur.
Proof. induction m as [|c m IH]; [done|]. rewrite sapp_cons. simpl. apply IH. Qed.

Lemma free_of_nil r tail : Re.free_of r "" tail.
Proof. intros p1 p2 E. symmetry in E. by apply sapp_eq_nil in E as [_ ->]. Qed.

Lemma free_of_cons r c piece tail :
  ~ Re.starts_at r (String c (piece +:+ tail)) ->
  Re.free_of r piece tail -> Re.free_of r (String c piece) tail.
Proof.
  intros Hc Hp [|d p1] p2 E Hne.
  - rewrite sapp_nil_l in E. subst p2. by rewrite sapp_cons.
  - rewrite sapp_cons in E. injection E as _ E. by apply (Hp p1 p2).
Qed.

Lemma split_on_cons r c s piece pieces :
  ~ Re.starts_at r (String c s) ->
  Re.split_on r s (piece :: pieces) ->
  Re.split_on r (String c s) (String c piece :: pieces).
Proof.
  intros Hc H. inversion H as [s0 Hfree|piece0 m rest pieces0 Hfree Hl Hrest]; subst.
  - constructor. apply free_of_cons; [by rewrite sapp_nil_r|done].
  - rewrite <- sapp_cons. constructor; [|done..]. by apply free_of_cons.
Qed.

(** [re.split] cuts the text at the leftmost matches of a pattern that
    matches no empty text. *)
Lemma split_go_spec r (Hne : forall m, Re.lang r m -> m <> "") : forall n s cur,
  String.length s <= n ->
  exists piece pieces,
    Re.split_go r s 0 cur = (cur +:+ piece) :: pieces /\
    Re.split_on r s (piece :: pieces).
Proof.
  induction n as [|n IH]; intros [|c s] cur Hlen; simpl in Hlen; try lia.
  - exists "", []. rewrite sapp_nil_r. split; [done|]. constructor. apply free_of_nil.
  - exists "", []. rewrite sapp_nil_r. split; [done|]. constructor. apply free_of_nil.
  - rewrite split_go_cons.
    destruct (Re.match_at r (String c s)) as [[rest g]|] eqn:E.
    + apply match_at_sound in E as (m & Es & Hl).
      destruct m as [|d m]; [by destruct (Hne _ Hl)|].
      rewrite Es, slength_app, Nat.add_sub. simpl String.length.
      rewrite sapp_cons in Es. injection Es as -> ->.
      rewrite split_go_skip.
      destruct (IH rest "") as (piece & pieces & -> & Hs).
      { rewrite slength_app in Hlen. lia. }
      exists "", (piece :: pieces). rewrite sapp_nil_r, sapp_nil_l. split; [done|].
      apply (Re.split_on_cut r "" (String d m) rest); [|done..].
      apply free_of_nil.
    + destruct (IH s (cur +:+ String c "")) as (piece & pieces & -> & Hs); [lia|].
      exists (String c piece), pieces. split.
      * by rewrite sapp_assoc.
      * apply split_on_cons; [|done]. by apply match_at_None.
Qed.

Lemma split_spec r s :
  (forall m, Re.lang r m -> m <> "") -> Re.split_on r s (Re.split r s).
Proof.
  intros Hne. destruct (split_go_spec r Hne (String.length s) s "") as
    (piece & pieces & E & H); [done|].
  unfold Re.split. by rewrite E.
Qed.

(** Without any occurrence of the pattern the text is a single piece. *)
Lemma split_search_None r s : Re.search r s = None -> forall cur,
  Re.split_go r s 0 cur = [cur +:+ s].
Proof.
  induction s as [|c s IH]; intros H cur.
  - by rewrite sapp_nil_r.
  - rewrite search_unfold in H. rewrite split_go_cons.
    destruct (Re.match_at r (String c s)) as [[rest g]|]; [done|].
    rewrite IH by done. by rewrite sapp_assoc.
Qed.

Lemma split_not_occurs r s : ~ Re.occurs r s -> Re.split r s = [s].
Proof. intros H%search_None. unfold Re.split. by rewrite split_search_None. Qed.

End SearchFacts.

(** ** The response parser *)

Section ParserFacts.

(** A record-start marker is the text [<PubmedArticle], any characters
    other than [>], and [>]. *)
Lemma none_of_gt c : Re.charset_mem (Re.NoneOf ">") c = negb (Ascii.eqb c ">").
Proof. simpl. by rewrite orb_false_r. Qed.

Lemma article_start_lang m :
  Re.lang article_start m <->
  exists attrs, m = "<PubmedArticle" +:+ attrs +:+ ">" /\
                PyStr.all (fun c => negb (Ascii.eqb c ">")) attrs = true.
Proof.
  unfold article_start, Re.star. split.
  - intros H. inversion H as [| |r1 r2 s1 s23 H1 H23| | |]; subst.
    inversion H1; subst.
    inversion H23 as [| |r2' r3 s2 s3 H2 H3| | |]; subst.
    inversion H3; subst.
    inversion H2 as [|cs lo hi gr s Hall _ _| | | |]; subst.
    exists s2. split; [done|].
    by rewrite <- (all_ext _ _ s2 none_of_gt).
  - intros (attrs & -> & Hall). repeat constructor; try (simpl; lia); [|done].
    by rewrite (all_ext _ _ attrs none_of_gt).
Qed.

(** An identifier tag is the text [<PMID], any characters other than [>],
    [>], one digit or more, and [</PMID>]. *)
Lemma pmid_pattern_lang m :
  Re.lang pmid_pattern m <->
  exists attrs digits,
    m = "<PMID" +:+ attrs +:+ ">" +:+ digits +:+ "</PMID>" /\
    PyStr.all (fun c => negb (Ascii.eqb c ">")) attrs = true /\
    PyStr.decimal digits = true.
Proof.
  unfold pmid_pattern, Re.star, Re.plus. split.
  - intros H. inversion H as [| |? ? s1 t1 H1 T1| | |]; subst.
    inversion H1; subst.
    inversion T1 as [| |? ? s2 t2 H2 T2| | |]; subst.
    inversion T2 as [| |? ? s3 t3 H3 T3| | |]; subst.
    inversion H3; subst.
    inversion T3 as [| |? ? s4 t4 H4 T4| | |]; subst.
    inversion T4; subst.
    inversion H2 as [|? ? ? ? ? Hall2 _ _| | | |]; subst.
    inversion H4 as [| | |? ? ? H4'| |]; subst.
    inversion H4' as [|? ? ? ? ? Hall4 Hlo4 _| | | |]; subst.
    exists s2, s4. split; [done|]. split.
    + by rewrite <- (all_ext _ _ s2 none_of_gt).
    + unfold PyStr.decimal.
      change (PyStr.all PyStr.digit s4) with (PyStr.all (Re.charset_mem Re.Digit) s4).
      rewrite Hall4. destruct s4; [simpl in Hlo4; lia|done].
  - intros (attrs & digits & -> & Ha & Hd).
    unfold PyStr.decimal in Hd. apply andb_prop in Hd as [Ht Hd].
    repeat constructor; try done; try (simpl; lia).
    + by rewrite (all_ext _ _ attrs none_of_gt).
    + destruct digits; [done|simpl; lia].
Qed.

Lemma article_start_not_empty m : Re.lang article_start m -> m <> "".
Proof. by intros (attrs & -> & _)%article_start_lang. Qed.

Lemma parse_loop_spec pmids titles : forall articles i papers,
  parse_loop pmids titles i articles papers =
    papers ++ imap (fun j article => parse_article pmids titles (i + j) article)
                (take (length pmids - i) articles).
Proof.
  induction articles as [|article rest IH]; intros i papers; simpl.
  - by rewrite take_nil, app_nil_r.
  - destruct (length pmids <=? i) eqn:E.
    + apply Nat.leb_le in E.
      replace (length pmids - i) with 0 by lia. by rewrite app_nil_r.
    + apply Nat.leb_gt in E. rewrite IH.
      replace (length pmids - i) with (S (length pmids - S i)) by lia.
      rewrite firstn_cons, imap_cons, <- app_assoc. simpl.
      rewrite Nat.add_0_r. do 2 f_equal.
      apply imap_ext. intros j x _. simpl. f_equal. lia.
Qed.

Lemma parse_xml_response_spec xml_content :
  _parse_xml_response xml_content =
    let pmids := Re.findall pmid_pattern xml_content in
    let titles := Re.findall title_pattern xml_content in
    imap (parse_article pmids titles)
      (take (length pmids) (drop 1 (Re.split article_start xml_content))).
Proof.
  unfold _parse_xml_response. cbv zeta. rewrite parse_loop_spec.
  by rewrite Nat.sub_0_r.
Qed.

Lemma author_step_spec authors block :
  author_step authors block = authors ++ option_list (Spec.author_of_block block).
Proof.
  unfold author_step, Spec.author_of_block.
  destruct (Re.search last_name_pattern block) as [lm|]; simpl;
    [|by rewrite app_nil_r].
  destruct (Re.search fore_name_pattern block) as [fm|]; simpl;
    [|by rewrite app_nil_r].
  by destruct (Re.search affiliation_pattern block).
Qed.

Lemma foldl_author_step blocks : forall authors,
  foldl author_step authors blocks = authors ++ omap Spec.author_of_block blocks.
Proof.
  induction blocks as [|block blocks IH]; intros authors; simpl.
  - by rewrite app_nil_r.
  - rewrite IH, author_step_spec, <- app_assoc. f_equal.
    by destruct (Spec.author_of_block block).
Qed.

End ParserFacts.

(** X22. The parser by position. The document is split at the matches
    of the pattern of the source; the piece before the first match is
    dropped; the number of records is the smaller of the number of
    remaining pieces and of the number of identifiers found in the whole
    document; and the [i]-th record has the [i]-th identifier and the
    [i]-th title of the document (the empty title when the document has
    no [i]-th title) together with what is read in the [i]-th remaining
    piece. *)
Theorem parse_xml_response_by_position (xml_content : string) :
  let pmids := Re.findall pmid_pattern xml_content in
  let titles := Re.findall title_pattern xml_content in
  let pieces := Re.split article_start xml_content in
  let segments := drop 1 pieces in
  let papers := _parse_xml_response xml_content in
  Re.split_on article_start xml_content pieces /\
  length papers = length segments `min` length pmids /\
  forall i, i < length segments `min` length pmids ->
    exists article pmid,
      segments !! i = Some article /\
      pmids !! i = Some pmid /\
      papers !! i =
        Some (Raw.Paper (Some pmid) (Some (default "" (titles !! i)))
                (Some (parse_authors article)) (Some (parse_pub_date article))
                (Some (Re.findall email_pattern article))).
Proof.
  cbv zeta. rewrite parse_xml_response_spec. cbv zeta.
  set (pmids := Re.findall pmid_pattern xml_content).
  set (titles := Re.findall title_pattern xml_content).
  set (segments := drop 1 (Re.split article_start xml_content)).
  split; [apply split_spec, article_start_not_empty|].
  split; [by rewrite length_imap, length_take, Nat.min_comm|].
  intros i Hi.
  destruct (lookup_lt_is_Some_2 segments i) as [article Ha]; [lia|].
  destruct (lookup_lt_is_Some_2 pmids i) as [pmid Hp]; [lia|].
  exists article, pmid. split_and!; [done..|].
  rewrite list_lookup_imap, lookup_take_lt, Ha by lia. simpl.
  unfold parse_article. by rewrite Hp.
Qed.

(** X22 at a document with two matches of the pattern and a single
    identifier: one record, read in the piece after the first match. *)
Lemma parse_xml_response_by_position_witness :
  let doc := "junk<PubmedArticle><PMID>7</PMID>a<PubmedArticle x=1>b" in
  0 < length (drop 1 (Re.split article_start doc))
        `min` length (Re.findall pmid_pattern doc) /\
  _parse_xml_response doc !! 0 =
    Some (Raw.Paper (Some "7") (Some "") (Some []) (Some Raw.NoDate) (Some [])).
Proof.
  cbv zeta.
  assert (H : 0 < length (drop 1 (Re.split article_start
                 "junk<PubmedArticle><PMID>7</PMID>a<PubmedArticle x=1>b"))
                `min` length (Re.findall pmid_pattern
                 "junk<PubmedArticle><PMID>7</PMID>a<PubmedArticle x=1>b")).
  { vm_compute. lia. }
  split; [exact H|].
  destruct (parse_xml_response_by_position
              "junk<PubmedArticle><PMID>7</PMID>a<PubmedArticle x=1>b")
    as (_ & _ & Hrec).
  destruct (Hrec 0 H) as (article & pmid & Ha & Hp & ->).
  vm_compute in Ha. vm_compute in Hp.
  injection Ha as <-. injection Hp as <-. reflexivity.
Defined.

(** The marker pattern also matches a tag whose name only starts with
    [PubmedArticle]. In a document wrapped in [<PubmedArticleSet>] the
    first segment is the text between that tag and the first article:
    the first identifier goes with it, and the authors of the article are
    not read. *)
Lemma parse_xml_response_set_wrapper :
  let doc :=
    "<PubmedArticleSet> <PubmedArticle><PMID>7</PMID>" +:+
    "<Author><LastName>Doe</LastName><ForeName>John</ForeName></Author>" +:+
    "</PubmedArticle></PubmedArticleSet>" in
  drop 1 (Re.split article_start doc) =
    [" ";
     "<PMID>7</PMID>" +:+
     "<Author><LastName>Doe</LastName><ForeName>John</ForeName></Author>" +:+
     "</PubmedArticle></PubmedArticleSet>"] /\
  _parse_xml_response doc =
    [Raw.Paper (Some "7") (Some "") (Some []) (Some Raw.NoDate) (Some [])].
Proof. cbv zeta. split; reflexivity. Qed.

(** C1 fails on an answer of the fetch with two articles. The
    record-start markers are the two [<PubmedArticle>] tags and the
    record segments are the two articles; the pattern of the source
    matches the root tag [<PubmedArticleSet>] as well, so that the
    parser reads one more segment, the empty text between the root tag
    and the first article. The first identifier and the first title go
    with that empty segment, the second identifier and the second title
    go with the first article, and the second article is not read: the
    [i]-th record segment is not associated with the [i]-th
    identifier. *)
Theorem parse_xml_response_set_root :
  let doc := MoreExamples.two_articles in
  drop 1 (Re.split Spec.record_start doc) =
    [MoreExamples.first_article; MoreExamples.second_article] /\
  drop 1 (Re.split article_start doc) =
    [""; MoreExamples.first_article; MoreExamples.second_article] /\
  Re.findall pmid_pattern doc = ["11"; "22"] /\
  Re.findall title_pattern doc = ["First"; "Second"] /\
  parse_authors MoreExamples.first_article =
    [Raw.Author (Some "John Doe") (Some "")] /\
  parse_authors MoreExamples.second_article =
    [Raw.Author (Some "Ann Poe") (Some "")] /\
  _parse_xml_response doc =
    [Raw.Paper (Some "11") (Some "First") (Some []) (Some Raw.NoDate) (Some []);
     Raw.Paper (Some "22") (Some "Second")
       (Some [Raw.Author (Some "John Doe") (Some "")])
       (Some Raw.NoDate) (Some ["john@pfizer.com"])].
Proof. cbv zeta. split_and!; reflexivity. Qed.

(** X23. A document in which the pattern of the source does not match
    (the empty document is one), or in which no identifier tag occurs,
    yields no record. *)
Theorem parse_xml_response_nothing (xml_content : string) :
  ~ Re.occurs article_start xml_content \/ ~ Re.occurs pmid_pattern xml_content ->
  _parse_xml_response xml_content = [].
Proof.
  intros H. rewrite parse_xml_response_spec. cbv zeta.
  destruct H as [H|H].
  - rewrite (split_not_occurs _ _ H). simpl. by rewrite take_nil.
  - apply findall_nil in H. by rewrite H.
Qed.

(** X23 at an identifier outside any article, and at an article without
    identifier. *)
Lemma parse_xml_response_nothing_witness :
  _parse_xml_response "<PMID>7</PMID><ArticleTitle>Alone</ArticleTitle>" = [] /\
  _parse_xml_response
    "<PubmedArticle><ArticleTitle>Test Paper</ArticleTitle></PubmedArticle>" = [].
Proof.
  split.
  - apply parse_xml_response_nothing. left. apply search_None. reflexivity.
  - apply parse_xml_response_nothing. right. apply search_None. reflexivity.
Defined.

(** C10 fails on the answer of the fetch for the identifier of a book.
    The document has no record-start marker, since it holds no
    [<PubmedArticle>] tag; the pattern of the source matches its root tag
    [<PubmedArticleSet>], and the parser returns one record, made of the
    identifier and the title of the book. *)
Theorem parse_xml_response_book_only :
  let doc := MoreExamples.book_only in
  ~ Re.occurs Spec.record_start doc /\
  Re.findall Spec.record_start doc = [] /\
  Re.occurs article_start doc /\
  _parse_xml_response doc =
    [Raw.Paper (Some "20301295") (Some "GeneReviews") (Some [])
       (Some Raw.NoDate) (Some [])].
Proof.
  cbv zeta. split_and!.
  - apply search_None. reflexivity.
  - reflexivity.
  - apply search_Some. vm_compute. by eexists.
  - reflexivity.
Qed.

(** C4. The authors of a segment are read block by block, in order:
    a block without a last-name field or without a first-name field
    gives no author; any other block gives one author, named by the
    given name, a blank and the last name, without the white space at
    the two ends, and whose affiliation is the text found under an
    affiliation-info wrapper, without the white space at its two ends,
    or the empty string when there is none. *)
Theorem parse_authors_by_block (article : string) :
  let blocks := Re.findall author_section_pattern article in
  parse_authors article = omap Spec.author_of_block blocks /\
  forall block,
    (Re.search last_name_pattern block = None \/
     Re.search fore_name_pattern block = None ->
     Spec.author_of_block block = None) /\
    (forall lm fm,
       Re.search last_name_pattern block = Some lm ->
       Re.search fore_name_pattern block = Some fm ->
       let joined := or_empty (Re.group fm 1) +:+ " " +:+ or_empty (Re.group lm 1) in
       exists name affiliation,
         Spec.author_of_block block =
           Some (Raw.Author (Some name) (Some affiliation)) /\
         name = PyStr.strip joined /\
         trimmed_of joined name /\
         (Re.search affiliation_pattern block = None -> affiliation = "") /\
         (forall am, Re.search affiliation_pattern block = Some am ->
                     affiliation = PyStr.strip (or_empty (Re.group am 1)) /\
                     trimmed_of (or_empty (Re.group am 1)) affiliation)).
Proof.
  cbv zeta. split.
  - unfold parse_authors. cbv zeta. by rewrite foldl_author_step.
  - intros block. unfold Spec.author_of_block. split.
    + intros [-> | ->]; [done|]. by destruct (Re.search last_name_pattern block).
    + intros lm fm -> ->. simpl. eexists _, _. split; [reflexivity|].
      split; [reflexivity|]. split; [apply strip_trimmed_of|].
      split; [by intros ->|]. intros am ->. split; [done|apply strip_trimmed_of].
Qed.

(** C4 at a segment with three blocks: the affiliation of the first is
    followed by a no-break space, which is removed; the second has no
    first-name field and is dropped; the third has no affiliation and is
    kept. *)
Lemma parse_authors_by_block_witness :
  let block1 :=
    "<LastName>Doe</LastName><ForeName>John</ForeName>" +:+
    "<AffiliationInfo><Affiliation> Pfizer Inc." +:+ MoreExamples.nbsp +:+
    "</Affiliation></AffiliationInfo>" in
  let article :=
    "<Author>" +:+ block1 +:+
    "</Author><Author><LastName>Roe</LastName></Author>" +:+
    "<Author><LastName>Poe</LastName><ForeName>Ann</ForeName></Author>" in
  Re.search fore_name_pattern "<LastName>Roe</LastName>" = None /\
  Spec.author_of_block "<LastName>Roe</LastName>" = None /\
  (exists name affiliation,
     Spec.author_of_block block1 =
       Some (Raw.Author (Some name) (Some affiliation)) /\
     trimmed_of "John Doe" name /\
     trimmed_of (" Pfizer Inc." +:+ MoreExamples.nbsp) affiliation) /\
  parse_authors article =
    [Raw.Author (Some "John Doe") (Some "Pfizer Inc.");
     Raw.Author (Some "Ann Poe") (Some "")].
Proof.
  cbv zeta.
  set (block1 :=
    "<LastName>Doe</LastName><ForeName>John</ForeName>" +:+
    "<AffiliationInfo><Affiliation> Pfizer Inc." +:+ MoreExamples.nbsp +:+
    "</Affiliation></AffiliationInfo>").
  assert (H : Re.search fore_name_pattern "<LastName>Roe</LastName>" = None)
    by reflexivity.
  split; [exact H|]. split; [|split].
  - exact (proj1 (proj2 (parse_authors_by_block "") "<LastName>Roe</LastName>")
             (or_intror H)).
  - destruct (Re.search last_name_pattern block1) as [lm|] eqn:El;
      [|by vm_compute in El].
    destruct (Re.search fore_name_pattern block1) as [fm|] eqn:Ef;
      [|by vm_compute in Ef].
    destruct (Re.search affiliation_pattern block1) as [am|] eqn:Ea;
      [|by vm_compute in Ea].
    destruct (proj2 (proj2 (parse_authors_by_block "") block1) lm fm El Ef)
      as (name & affiliation & E & _ & Hn & _ & Haff).
    destruct (Haff am Ea) as [_ Ha].
    vm_compute in El. vm_compute in Ef. vm_compute in Ea.
    injection El as <-. injection Ef as <-. injection Ea as <-.
    by exists name, affiliation.
  - rewrite (proj1 (parse_authors_by_block _)). reflexivity.
Defined.

(** ** The date normaliser *)

Section DateFacts.

Lemma month_number_cases (k : nat) (P : nat -> Prop) :
  1 <= k <= 12 ->
  P 1 -> P 2 -> P 3 -> P 4 -> P 5 -> P 6 ->
  P 7 -> P 8 -> P 9 -> P 10 -> P 11 -> P 12 -> P k.
Proof.
  intros [H1 H12].
  do 13 (destruct k as [|k]; [done || lia|]). lia.
Qed.

(** The table of the source is the table of abbreviations by number. *)
Lemma month_names_number (k : nat) :
  1 <= k <= 12 -> month_names !! pretty k = Spec.abbreviations !! (k - 1).
Proof. intros H. by apply (month_number_cases k). Qed.

Lemma month_number_isdigit (k : nat) :
  1 <= k <= 12 -> PyStr.isdigit (pretty k) = true.
Proof. intros H. by apply (month_number_cases k). Qed.

Lemma month_names_Some month abbrev :
  month_names !! month = Some abbrev ->
  exists k : nat, 1 <= k <= 12 /\ month = pretty k /\
                  Spec.abbreviations !! (k - 1) = Some abbrev.
Proof.
  intros H. apply elem_of_list_to_map_2 in H.
  month_entry H 1. month_entry H 2. month_entry H 3. month_entry H 4.
  month_entry H 5. month_entry H 6. month_entry H 7. month_entry H 8.
  month_entry H 9. month_entry H 10. month_entry H 11. month_entry H 12.
  by apply elem_of_nil in H.
Qed.


Lemma slice_to_cons n c s :
  PyStr.slice_to (S n) (String c s) = String c (PyStr.slice_to n s).
Proof. reflexivity. Qed.

Lemma capitalize_slice c rest :
  ~ Spec.without_upper c ->
  PyStr.capitalize (PyStr.slice_to 3 (String c rest)) =
    String (PyStr.to_upper c) (PyStr.smap PyStr.to_lower (PyStr.slice_to 2 rest)).
Proof.
  intros H. rewrite slice_to_cons. unfold PyStr.capitalize.
  by rewrite (to_title_upper c H), sapp_cons, sapp_nil_l.
Qed.

Lemma date_text_spec month day year :
  (if PyStr.truthy month && PyStr.truthy day
   then month +:+ " " +:+ day +:+ " " +:+ year
   else if PyStr.truthy month then month +:+ " " +:+ year else year) =
  Spec.date_text month day year.
Proof. by destruct month, day. Qed.


(** The rules give no other text. *)
Lemma month_text_source month shown :
  Spec.month_text month shown ->
  shown = (if PyStr.isdigit month then default month (month_names !! month)
           else if PyStr.truthy month
                then PyStr.capitalize (PyStr.slice_to 3 month)
                else month).
Proof.
  intros [k abbrev Hk Ha|m Hd Hn|c rest c1 t u t' Hd Hu Hf Hc Hl|].
  - by rewrite month_number_isdigit, month_names_number, Ha.
  - apply numeric_iff in Hd. rewrite Hd.
    destruct (month_names !! m) as [abbrev|] eqn:E; [|done].
    apply month_names_Some in E as (k & Hk & -> & _). by destruct (Hn k Hk).
  - rewrite numeric_iff in Hd. apply not_true_is_false in Hd. rewrite Hd.
    simpl PyStr.truthy. cbv iota. rewrite (capitalize_slice c rest Hu).
    apply first_three_iff in Hf. rewrite slice_to_cons in Hf.
    injection Hf as -> ->.
    apply upper_cased_iff in Hc as ->. by apply lower_text_iff in Hl as ->.
  - done.
Qed.


Lemma month_text_unique month a b :
  Spec.month_text month a -> Spec.month_text month b -> a = b.
Proof. intros Ha%month_text_source Hb%month_text_source. congruence. Qed.

End DateFacts.



(** ** The e-mail selector *)

(** C7. The selector returns the first of the extracted e-mails when
    there is one and "Email Unable to Retrieve" when the list is empty;
    for a record built by the parser, the list is the list of e-mail
    shaped texts of its segment. *)
Theorem extract_corresponding_email_first (paper : Raw.paper) (emails : list string) :
  Raw.emails paper = Some emails ->
  (forall first rest, emails = first :: rest ->
     _extract_corresponding_email paper = first) /\
  (emails = [] -> _extract_corresponding_email paper = "Email Unable to Retrieve") /\
  (forall pmids titles i article,
     paper = parse_article pmids titles i article ->
     emails = Re.findall email_pattern article).
Proof.
  intros He. unfold _extract_corresponding_email. rewrite He. simpl.
  split; [by intros first rest ->|]. split; [by intros ->|].
  intros pmids titles i article ->. simpl in He. congruence.
Qed.

(** C7 at the two e-mails of the test of the source. *)
Lemma extract_corresponding_email_first_witness :
  let paper := Raw.Paper None None None None
                 (Some ["test@example.com"; "other@example.com"]) in
  Raw.emails paper = Some ["test@example.com"; "other@example.com"] /\
  _extract_corresponding_email paper = "test@example.com".
Proof.
  cbv zeta. split; [reflexivity|].
  exact (proj1 (extract_corresponding_email_first
                  (Raw.Paper None None None None
                     (Some ["test@example.com"; "other@example.com"]))
                  _ eq_refl) _ _ eq_refl).
Defined.

(** ** The query builder *)

(** C5. The query built for the search is the original query between
    parentheses, then " AND (", the clauses of the companies joined by
    " OR ", then ") NOT (", the academic exclusions joined by " OR ", and
    ")"; every clause of both kinds ends with the tag [[ad]]; so the query
    contains "AND (", "[ad]" and "NOT (". *)
Theorem build_company_filtered_query_shape (query : string) :
  let enhanced_query := _build_company_filtered_query query in
  enhanced_query =
    "(" +:+ query +:+ ")" +:+ " AND (" +:+
    PyStr.join " OR " company_affiliation_parts +:+ ") NOT (" +:+
    PyStr.join " OR " academic_exclusions +:+ ")" /\
  (exists bodies, bodies <> [] /\
     company_affiliation_parts = (fun body => body +:+ "[ad]") <$> bodies) /\
  (exists bodies, bodies <> [] /\
     academic_exclusions = (fun body => body +:+ "[ad]") <$> bodies) /\
  PyStr.contains "AND (" enhanced_query = true /\
  PyStr.contains "[ad]" enhanced_query = true /\
  PyStr.contains "NOT (" enhanced_query = true.
Proof.
  cbv zeta.
  assert (E : _build_company_filtered_query query =
    "(" +:+ query +:+ ")" +:+ " AND (" +:+
    PyStr.join " OR " company_affiliation_parts +:+ ") NOT (" +:+
    PyStr.join " OR " academic_exclusions +:+ ")").
  { unfold _build_company_filtered_query, company_filter, academic_filter.
    rewrite !sapp_assoc. reflexivity. }
  split; [exact E|].
  split; [exists ((quoted <$> major_companies) ++ company_terms); by split|].
  split; [exists (quoted <$> ["university"; "college"; "institute"; "hospital";
                              "medical center"; "department"; "school"]); by split|].
  rewrite E. split_and!; apply contains_true.
  - exists ("(" +:+ query +:+ ") "). eexists. rewrite !sapp_assoc. reflexivity.
  - exists ("(" +:+ query +:+ ") AND (" +:+ quoted "pfizer"). eexists.
    rewrite !sapp_assoc. reflexivity.
  - exists ("(" +:+ query +:+ ") AND (" +:+
            PyStr.join " OR " company_affiliation_parts +:+ ") "). eexists.
    rewrite !sapp_assoc. reflexivity.
Qed.

(** ** The remote operations *)

Section EffectFacts.
Context (self : PubMedSearcher).

Lemma strs_of_strings (l : list string) : Py.strs (PyStr <$> l) = Ok l.
Proof.
  induction l as [|x l IH]; [done|].
  rewrite fmap_cons. cbn [Py.strs]. by rewrite IH.
Qed.

Lemma join_of_ids sep (ids : list string) :
  Py.join sep (Py.of_ids ids) = Ok (PyStr.join sep ids).
Proof. unfold Py.join, Py.of_ids. by rewrite strs_of_strings. Qed.

Lemma make_request_run url p tr :
  _make_request self url p tr =
    (match get (session self) (tr ++ [Sleep (rate_limit self)]) url p with
     | inl e => Raise e
     | inr response =>
         match raise_for_status response with
         | Ok _ => Ok response
         | Raise e => Raise e
         end
     end,
     tr ++ [Sleep (rate_limit self); Get url p]).
Proof.
  unfold _make_request, mbind, M_bind, emit, session_get, lift, mret, M_ret.
  rewrite <- app_assoc. simpl.
  destruct (get _ _ _ _) as [e|response]; [done|].
  by destruct (raise_for_status response) as [[]|e].
Qed.

Lemma raise_for_status_error response :
  (400 <= status_code response < 600)%Z ->
  exists msg, raise_for_status response = Raise (Exn HTTPError msg).
Proof.
  intros H. unfold raise_for_status. rewrite bool_decide_eq_true_2 by done. eauto.
Qed.

Lemma raise_for_status_fine response :
  ~ (400 <= status_code response < 600)%Z -> raise_for_status response = Ok ().
Proof.
  intros H. unfold raise_for_status. by rewrite bool_decide_eq_false_2.
Qed.

(** A failed request makes [_make_request] raise a [RequestException]. *)
Lemma make_request_failure url p tr :
  Spec.transport_failure
    (get (session self) (tr ++ [Sleep (rate_limit self)]) url p) ->
  exists e, is_RequestException e = true /\
    _make_request self url p tr =
      (Raise e, tr ++ [Sleep (rate_limit self); Get url p]).
Proof.
  intros H. rewrite make_request_run.
  inversion H as [e He E|response Hs E]; subst.
  - by exists e.
  - destruct (raise_for_status_error response Hs) as [msg ->].
    by exists (Exn HTTPError msg).
Qed.

Lemma is_RequestException_Exception e :
  is_RequestException e = true -> is_Exception e = true.
Proof. by destruct e as [[] msg]. Qed.

Lemma adds_nothing {A} P (m : M A) :
  (forall tr, (m tr).2 = tr) -> adds P m.
Proof. intros H tr. exists []. by rewrite app_nil_r, H. Qed.

Lemma adds_ret {A} P (a : A) : adds P (mret a).
Proof. by apply adds_nothing. Qed.

Lemma adds_raise {A} P e : adds P (raise e : M A).
Proof. by apply adds_nothing. Qed.

Lemma adds_lift {A} P (r : result A) : adds P (lift r).
Proof. by apply adds_nothing. Qed.

Lemma adds_emit (P : event -> Prop) ev : P ev -> adds P (emit ev).
Proof. intros H tr. exists [ev]. split; [done|]. by constructor. Qed.

Lemma adds_bind {A B} P (m : M A) (f : A -> M B) :
  adds P m -> (forall a, adds P (f a)) -> adds P (m ≫= f).
Proof.
  intros Hm Hf tr. unfold mbind, M_bind.
  destruct (Hm tr) as (l1 & E1 & H1).
  destruct (m tr) as [[a|e] tr1]; simpl in *; subst.
  - destruct (Hf a (tr ++ l1)) as (l2 & -> & H2). exists (l1 ++ l2).
    split; [by rewrite app_assoc|]. by apply Forall_app.
  - by exists l1.
Qed.

Lemma adds_try {A} P (body : M A) handler :
  adds P body -> (forall e h, handler e = Some h -> adds P h) ->
  adds P (try_except body handler).
Proof.
  intros Hb Hh tr. unfold try_except.
  destruct (Hb tr) as (l1 & E1 & H1).
  destruct (body tr) as [[a|e] tr1]; simpl in *; subst.
  - by exists l1.
  - destruct (handler e) as [h|] eqn:E; [|by exists l1].
    destruct (Hh e h E (tr ++ l1)) as (l2 & -> & H2). exists (l1 ++ l2).
    split; [by rewrite app_assoc|]. by apply Forall_app.
Qed.

Lemma adds_make_request (P : event -> Prop) url p :
  P (Sleep (rate_limit self)) -> P (Get url p) ->
  adds P (_make_request self url p).
Proof.
  intros H1 H2 tr. rewrite make_request_run. eexists. split; [done|].
  by repeat constructor.
Qed.

Lemma adds_fetch_handler P e h : fetch_handler e = Some h -> adds P h.
Proof.
  unfold fetch_handler.
  destruct (is_RequestException e); [|done]. intros [= <-]. apply adds_raise.
Qed.

Lemma adds_search_handler P e h : search_handler e = Some h -> adds P h.
Proof.
  unfold search_handler.
  destruct (is_RequestException e); [intros [= <-]; apply adds_raise|].
  destruct (is_Exception e); [intros [= <-]; apply adds_raise|done].
Qed.

(** Fetching the details makes no request to the search endpoint. *)
Lemma adds_fetch pmids : adds not_search (fetch_paper_details self pmids).
Proof.
  unfold fetch_paper_details. destruct (negb _); [apply adds_ret|].
  apply adds_bind; [apply adds_lift|]. intros ids.
  apply adds_try; [|apply adds_fetch_handler].
  apply adds_bind; [by apply adds_make_request|]. intros response.
  apply adds_bind; [by apply adds_emit|]. intros _. apply adds_ret.
Qed.

End EffectFacts.

Section SearchPapersFacts.
Context (self : PubMedSearcher).

Lemma try_bind_trace {A B} P (m : M A) (f : A -> M B) handler events tr :
  (m tr).2 = tr ++ events ->
  (forall a, adds P (f a)) ->
  (forall e h, handler e = Some h -> adds P h) ->
  exists later, (try_except (m ≫= f) handler tr).2 = tr ++ events ++ later /\
                Forall P later.
Proof.
  intros Hm Hf Hh. unfold try_except, mbind, M_bind.
  destruct (m tr) as [[a|e] tr1]; simpl in Hm; subst tr1.
  - destruct (Hf a (tr ++ events)) as (l1 & E1 & H1).
    destruct (f a (tr ++ events)) as [[b|e] tr2]; simpl in E1; subst tr2.
    + exists l1. by rewrite app_assoc.
    + destruct (handler e) as [h|] eqn:E.
      * destruct (Hh e h E ((tr ++ events) ++ l1)) as (l2 & -> & H2).
        exists (l1 ++ l2). split; [by rewrite !app_assoc|]. by apply Forall_app.
      * exists l1. by rewrite app_assoc.
  - destruct (handler e) as [h|] eqn:E.
    + destruct (Hh e h E (tr ++ events)) as (l2 & -> & H2). exists l2.
      by rewrite app_assoc.
    + exists []. by rewrite app_nil_r.
Qed.

(** Every search starts with the delay and the search request, and makes
    no other request to the search endpoint. *)
Lemma search_papers_trace query max_results (filter_companies : bool) tr :
  exists later,
    (search_papers self query max_results filter_companies tr).2 =
      tr ++ [Sleep (rate_limit self);
             Get SEARCH_URL
               (search_params
                  (if filter_companies
                   then _build_company_filtered_query query else query)
                  max_results)] ++ later /\
    Forall not_search later.
Proof.
  unfold search_papers, search_try. cbv zeta. apply try_bind_trace.
  - by rewrite make_request_run.
  - intros response.
    apply adds_bind; [apply adds_lift|]. intros data.
    apply adds_bind; [apply adds_lift|]. intros found.
    destruct (negb found); [apply adds_raise|].
    apply adds_bind; [apply adds_lift|]. intros esearchresult.
    apply adds_bind; [apply adds_lift|]. intros pmids.
    apply adds_bind; [apply adds_lift|]. intros _.
    destruct (negb (Py.truthy pmids)); [apply adds_ret|].
    apply adds_bind; [apply adds_fetch|]. intros paper_details. apply adds_ret.
  - apply adds_search_handler.
Qed.

(** Whatever the body of the [try] does, the two handlers of
    [search_papers] let through a result, the uniform error, or an
    exception that does not derive from [Exception]. *)
Lemma search_handlers_catch (body : M (list PubMedPaper)) tr :
  match (try_except body search_handler tr).1 with
  | Ok _ => True
  | Raise e => class_of e = PubMedAPIError \/
               (is_Exception e = false /\ (body tr).1 = Raise e)
  end.
Proof.
  unfold try_except. destruct (body tr) as [[papers|e] tr1]; [done|].
  unfold search_handler.
  destruct (is_RequestException e); [by left|].
  destruct (is_Exception e) eqn:E; [by left|]. by right.
Qed.

(** The search when the request fails, and when the response lacks the
    expected field. *)
Lemma search_papers_failure query max_results (filter_companies : bool) tr :
  let p := search_params
             (if filter_companies
              then _build_company_filtered_query query else query)
             max_results in
  let outcome := get (session self) (tr ++ [Sleep (rate_limit self)]) SEARCH_URL p in
  (Spec.transport_failure outcome ->
   exists e, is_RequestException e = true /\
     search_papers self query max_results filter_companies tr =
       (Raise (Exn PubMedAPIError ("Failed to search PubMed: " +:+ str e)),
        tr ++ [Sleep (rate_limit self); Get SEARCH_URL p])) /\
  (Spec.missing_field outcome ->
   search_papers self query max_results filter_companies tr =
     (Raise (Exn PubMedAPIError
               ("Unexpected error during PubMed search: " +:+
                "Invalid response format from PubMed search")),
      tr ++ [Sleep (rate_limit self); Get SEARCH_URL p])).
Proof.
  cbv zeta. split.
  - intros (e & He & E)%make_request_failure. exists e. split; [done|].
    unfold search_papers, search_try, try_except, mbind, M_bind. cbv zeta. rewrite E.
    unfold search_handler. by rewrite He.
  - intros H. unfold search_papers, search_try, try_except, mbind, M_bind. cbv zeta.
    rewrite make_request_run.
    inversion H as [response d Hs Hj Hl E]. rewrite <- E in *.
    rewrite (raise_for_status_fine response Hs). unfold lift. rewrite Hj. simpl.
    by rewrite Hl.
Qed.

(** The fetch when the request fails, and when it succeeds. *)
Lemma fetch_paper_details_run pmids ids tr :
  Py.truthy pmids = true -> Py.join "," pmids = Ok ids ->
  let p := fetch_params ids in
  let outcome := get (session self) (tr ++ [Sleep (rate_limit self)]) FETCH_URL p in
  (Spec.transport_failure outcome ->
   exists e, is_RequestException e = true /\
     fetch_paper_details self pmids tr =
       (Raise (Exn PubMedAPIError ("Failed to fetch paper details: " +:+ str e)),
        tr ++ [Sleep (rate_limit self); Get FETCH_URL p])) /\
  (forall response, outcome = inr response ->
     ~ (400 <= status_code response < 600)%Z ->
     fetch_paper_details self pmids tr =
       (Ok (_parse_xml_response (text response)),
        tr ++ [Sleep (rate_limit self); Get FETCH_URL p; ParseXml (text response)])).
Proof.
  intros Ht Hj. cbv zeta.
  unfold fetch_paper_details. rewrite Ht.
  unfold mbind at 1. unfold M_bind, lift. rewrite Hj.
  change (negb true) with false. cbv beta iota. split.
  - intros (e & He & E)%make_request_failure. exists e. split; [done|].
    unfold try_except, mbind, M_bind. rewrite E.
    unfold fetch_handler. by rewrite He.
  - intros response E Hs. unfold try_except, mbind, M_bind.
    rewrite make_request_run, E, (raise_for_status_fine response Hs).
    unfold emit, mret, M_ret. by rewrite <- app_assoc.
Qed.

End SearchPapersFacts.

(** C8. Fetching the details of no identifier returns no record and has
    no effect: no delay and no request; whereas fetching the details of
    at least one identifier starts with the delay and the request for the
    identifiers joined by commas. *)
Theorem fetch_paper_details_no_ids (self : PubMedSearcher) (tr : trace) :
  fetch_paper_details self (Py.of_ids []) tr = (Ok [], tr) /\
  forall id ids,
    exists later,
      (fetch_paper_details self (Py.of_ids (id :: ids)) tr).2 =
        tr ++ [Sleep (rate_limit self);
               Get FETCH_URL (fetch_params (PyStr.join "," (id :: ids)))] ++ later.
Proof.
  split; [reflexivity|]. intros id ids.
  unfold fetch_paper_details. change (negb _) with false. cbv iota.
  unfold mbind at 1. unfold M_bind, lift. rewrite join_of_ids.
  destruct (try_bind_trace (fun _ => True)
              (_make_request self FETCH_URL
                 (fetch_params (PyStr.join "," (id :: ids))))
              (fun response =>
                 emit (ParseXml (text response));;
                 mret (_parse_xml_response (text response)))
              fetch_handler
              [Sleep (rate_limit self);
               Get FETCH_URL (fetch_params (PyStr.join "," (id :: ids)))] tr)
    as (later & E & _).
  - by rewrite make_request_run.
  - intros response. apply adds_bind; [by apply adds_emit|]. intros _.
    apply adds_ret.
  - apply adds_fetch_handler.
  - by exists later.
Qed.

(** C6. Without pre-filtering, the request sent to the search endpoint
    carries the original query as its term, and it is the only request
    sent to that endpoint. *)
Theorem search_papers_unfiltered_term (self : PubMedSearcher) (query : string)
    (max_results : Z) (tr : trace) :
  exists p later,
    (search_papers self query max_results false tr).2 =
      tr ++ [Sleep (rate_limit self); Get SEARCH_URL p] ++ later /\
    (list_to_map p : gmap string string) !! "term" = Some query /\
    Forall not_search later.
Proof.
  destruct (search_papers_trace self query max_results false tr) as (later & E & H).
  exists (search_params query max_results), later. split; [exact E|]. split; [|exact H].
  unfold search_params. simpl. rewrite lookup_insert_ne by done.
  apply lookup_insert_eq.
Qed.

(** C3, as stated, fails: the fetch has no check of the shape of what it
    receives. A body that is not even markup is handed to the parser and
    the empty list of records is returned, without any error. *)
Lemma fetch_paper_details_unchecked_shape :
  let self := Examples.searcher (Examples.answers 200 "{}" (inr (PyDict []))) in
  (fetch_paper_details self (Py.of_ids ["12345"]) []).1 = Ok [] /\
  ~ exists msg,
      (fetch_paper_details self (Py.of_ids ["12345"]) []).1 =
        Raise (Exn PubMedAPIError msg).
Proof. cbv zeta. split; [reflexivity|]. intros [msg H]. discriminate H. Qed.

(** C3, amended. The search raises the uniform error, right after its
    request, when the request fails (the session raises an exception
    that derives from [Exception], or the status is one from 400 to 599)
    and when the decoded response has no ["esearchresult"] field; the
    trace then ends with the request, so the parser has not been reached.
    The fetch raises the uniform error, right after its request, when
    the request fails with a [RequestException] or with a status from
    400 to 599; it hands any body received with another status to the
    parser and returns its records. *)
Theorem remote_operations_uniform_error (self : PubMedSearcher) (tr : trace) :
  let tr1 := tr ++ [Sleep (rate_limit self)] in
  (forall query max_results (filter_companies : bool),
     let p := search_params
                (if filter_companies
                 then _build_company_filtered_query query else query)
                max_results in
     Spec.search_failure (get (session self) tr1 SEARCH_URL p) \/
     Spec.missing_field (get (session self) tr1 SEARCH_URL p) ->
     exists msg,
       search_papers self query max_results filter_companies tr =
         (Raise (Exn PubMedAPIError msg),
          tr ++ [Sleep (rate_limit self); Get SEARCH_URL p])) /\
  (forall pmids ids,
     Py.truthy pmids = true -> Py.join "," pmids = Ok ids ->
     let p := fetch_params ids in
     (Spec.transport_failure (get (session self) tr1 FETCH_URL p) ->
      exists msg,
        fetch_paper_details self pmids tr =
          (Raise (Exn PubMedAPIError msg),
           tr ++ [Sleep (rate_limit self); Get FETCH_URL p])) /\
     (forall response,
        get (session self) tr1 FETCH_URL p = inr response ->
        ~ (400 <= status_code response < 600)%Z ->
        fetch_paper_details self pmids tr =
          (Ok (_parse_xml_response (text response)),
           tr ++ [Sleep (rate_limit self); Get FETCH_URL p;
                  ParseXml (text response)]))).
Proof.
  cbv zeta. split.
  - intros query max_results filter_companies [H|H].
    + inversion H as [e He E|response Hs E].
      * unfold search_papers, search_try, try_except, mbind, M_bind. cbv zeta.
        rewrite make_request_run, <- E. unfold search_handler. rewrite He.
        destruct (is_RequestException e); by eexists.
      * destruct (proj1 (search_papers_failure self query max_results
                           filter_companies tr)) as (e & _ & ->); [|by eexists].
        rewrite <- E. by apply Spec.error_status.
    + apply (search_papers_failure self query max_results filter_companies tr)
        in H as ->. by eexists.
  - intros pmids ids Ht Hj.
    destruct (fetch_paper_details_run self pmids ids tr Ht Hj) as [Hfail Hok].
    split; [|exact Hok].
    intros (e & _ & ->)%Hfail. by eexists.
Qed.

(** C3, amended: the search with a session that fails as the tests
    simulate it, and without a network; the fetch with a service that
    answers with status 503, and with status 200. *)
Lemma remote_operations_uniform_error_witness :
  (exists msg,
     search_papers (Examples.searcher MoreExamples.failing) "test query" 200 true [] =
       (Raise (Exn PubMedAPIError msg),
        [Sleep (34 # 100);
         Get SEARCH_URL
           (search_params (_build_company_filtered_query "test query") 200)])) /\
  (exists msg,
     search_papers (Examples.searcher Examples.offline) "cancer therapy" 200 true [] =
       (Raise (Exn PubMedAPIError msg),
        [Sleep (34 # 100);
         Get SEARCH_URL
           (search_params (_build_company_filtered_query "cancer therapy") 200)])) /\
  (exists msg,
     fetch_paper_details
       (Examples.searcher (Examples.answers 503 "" (inl (Exn ValueError ""))))
       (Py.of_ids ["12345"]) [] =
       (Raise (Exn PubMedAPIError msg),
        [Sleep (34 # 100); Get FETCH_URL (fetch_params "12345")])) /\
  fetch_paper_details
    (Examples.searcher (Examples.service ["12345"] Examples.one_record))
    (Py.of_ids ["12345"]) [] =
    (Ok (_parse_xml_response Examples.one_record),
     [Sleep (34 # 100); Get FETCH_URL (fetch_params "12345");
      ParseXml Examples.one_record]).
Proof.
  split; [|split; [|split]].
  - apply (proj1 (remote_operations_uniform_error
                    (Examples.searcher MoreExamples.failing) [])
             "test query" 200%Z true).
    left. apply Spec.request_raises. reflexivity.
  - apply (proj1 (remote_operations_uniform_error
                    (Examples.searcher Examples.offline) [])
             "cancer therapy" 200%Z true).
    left. apply Spec.request_raises. reflexivity.
  - apply (proj1 (proj2 (remote_operations_uniform_error
                           (Examples.searcher
                              (Examples.answers 503 "" (inl (Exn ValueError ""))))
                           [])
                    (Py.of_ids ["12345"]) "12345" eq_refl eq_refl)).
    apply Spec.error_status. simpl. lia.
  - apply (proj2 (proj2 (remote_operations_uniform_error
                           (Examples.searcher
                              (Examples.service ["12345"] Examples.one_record))
                           [])
                    (Py.of_ids ["12345"]) "12345" eq_refl eq_refl)
             {| status_code := 200; text := Examples.one_record;
                json := inl (Exn ValueError "not JSON") |}).
    + reflexivity.
    + simpl. lia.
Defined.

(** C9, as stated, fails: an interruption of the request by the user is
    not an [Exception] and goes through both handlers. *)
Lemma search_papers_lets_interrupt_through :
  (search_papers (Examples.searcher Examples.interrupted)
     "cancer therapy" 200 true []).1 =
    Raise (Exn KeyboardInterrupt "").
Proof. reflexivity. Qed.

(** C9, amended. An exception that derives from [Exception] and is
    raised under the [try] of the search comes out as the uniform error;
    an exception that does not derive from [Exception] and is raised
    there, as one raised by the request is, comes out unchanged; so what
    the search raises is the uniform error or does not derive from
    [Exception]; and the uniform error that the search raises itself for
    a missing ["esearchresult"] field is caught and raised again, under
    the message of the second handler. *)
Theorem search_papers_uniform_error (self : PubMedSearcher) (query : string)
    (max_results : Z) (filter_companies : bool) (tr : trace) :
  let enhanced_query :=
    if filter_companies then _build_company_filtered_query query else query in
  let p := search_params enhanced_query max_results in
  (forall e,
     (search_try self enhanced_query max_results tr).1 = Raise e ->
     is_Exception e = true ->
     exists msg,
       (search_papers self query max_results filter_companies tr).1 =
         Raise (Exn PubMedAPIError (msg +:+ str e)) /\
       (msg = "Failed to search PubMed: " \/
        msg = "Unexpected error during PubMed search: ")) /\
  (forall e tr',
     search_try self enhanced_query max_results tr = (Raise e, tr') ->
     is_Exception e = false ->
     search_papers self query max_results filter_companies tr = (Raise e, tr')) /\
  (forall e,
     get (session self) (tr ++ [Sleep (rate_limit self)]) SEARCH_URL p = inl e ->
     is_Exception e = false ->
     search_papers self query max_results filter_companies tr =
       (Raise e, tr ++ [Sleep (rate_limit self); Get SEARCH_URL p])) /\
  (forall e,
     (search_papers self query max_results filter_companies tr).1 = Raise e ->
     class_of e = PubMedAPIError \/ is_Exception e = false) /\
  (Spec.missing_field
     (get (session self) (tr ++ [Sleep (rate_limit self)]) SEARCH_URL p) ->
   (search_try self enhanced_query max_results tr).1 =
     Raise (Exn PubMedAPIError "Invalid response format from PubMed search") /\
   (search_papers self query max_results filter_companies tr).1 =
     Raise (Exn PubMedAPIError
              ("Unexpected error during PubMed search: " +:+
               "Invalid response format from PubMed search"))).
Proof.
  cbv zeta.
  assert (Hout : forall e tr',
            search_try self
              (if filter_companies
               then _build_company_filtered_query query else query)
              max_results tr = (Raise e, tr') ->
            is_Exception e = false ->
            search_papers self query max_results filter_companies tr =
              (Raise e, tr')).
  { intros e tr' He Hx. unfold search_papers, try_except. cbv zeta. rewrite He.
    unfold search_handler. rewrite Hx.
    destruct (is_RequestException e) eqn:Hr; [|done].
    apply is_RequestException_Exception in Hr. congruence. }
  split; [|split; [exact Hout|split; [|split]]].
  - intros e He Hx. unfold search_papers, try_except. cbv zeta.
    destruct (search_try _ _ _ _) as [r tr1]. simpl in He. subst r.
    unfold search_handler. rewrite Hx.
    destruct (is_RequestException e); eexists; (split; [reflexivity|]); auto.
  - intros e He Hx. apply Hout; [|exact Hx].
    unfold search_try, mbind, M_bind. by rewrite make_request_run, He.
  - intros e He.
    pose proof (search_handlers_catch
                  (search_try self
                     (if filter_companies
                      then _build_company_filtered_query query else query)
                     max_results) tr) as H.
    unfold search_papers in He. cbv zeta in He. rewrite He in H. tauto.
  - intros H. split.
    + unfold search_try, mbind, M_bind. rewrite make_request_run.
      inversion H as [response d Hs Hj Hl E]. rewrite <- E in *.
      rewrite (raise_for_status_fine response Hs). unfold lift. rewrite Hj.
      simpl. by rewrite Hl.
    + apply (search_papers_failure self query max_results filter_companies tr)
        in H. by rewrite H.
Qed.

(** C9, amended, without a network, with a request that the user
    interrupts, and with a service whose answer to the search has no
    ["esearchresult"] field. *)
Lemma search_papers_uniform_error_witness :
  let offline := Examples.searcher Examples.offline in
  let interrupted := Examples.searcher Examples.interrupted in
  let odd := Examples.searcher
               (Examples.answers 200 "{}" (inr (PyDict [("error", PyStr "x")]))) in
  (search_papers offline "cancer therapy" 200 false []).1 =
    Raise (Exn PubMedAPIError ("Failed to search PubMed: " +:+ "connection refused")) /\
  class_of (Exn PubMedAPIError
              ("Failed to search PubMed: " +:+ "connection refused")) = PubMedAPIError /\
  search_papers interrupted "cancer therapy" 200 false [] =
    (Raise (Exn KeyboardInterrupt ""),
     [Sleep (34 # 100); Get SEARCH_URL (search_params "cancer therapy" 200)]) /\
  (search_papers odd "cancer therapy" 200 false []).1 =
    Raise (Exn PubMedAPIError
             ("Unexpected error during PubMed search: " +:+
              "Invalid response format from PubMed search")).
Proof.
  cbv zeta. split; [reflexivity|]. split; [|split].
  - destruct (proj1 (proj2 (proj2 (proj2 (search_papers_uniform_error
                              (Examples.searcher Examples.offline)
                              "cancer therapy" 200 false []))))
                _ eq_refl) as [H|H]; [exact H|discriminate H].
  - exact (proj1 (proj2 (proj2 (search_papers_uniform_error
                                  (Examples.searcher Examples.interrupted)
                                  "cancer therapy" 200 false [])))
             (Exn KeyboardInterrupt "") eq_refl eq_refl).
  - apply (proj2 (proj2 (proj2 (proj2 (search_papers_uniform_error
                           (Examples.searcher
                              (Examples.answers 200 "{}"
                                 (inr (PyDict [("error", PyStr "x")]))))
                           "cancer therapy" 200 false []))))).
    apply (Spec.no_esearchresult _ [("error", PyStr "x")]); [simpl; lia|done..].
Defined.

(** * Further properties *)

(** ** What the groups of a match hold *)

Section CaptureFacts.
Context {A : Type}.
Implicit Types (s : string) (r : Re.regex) (g : Re.groups).

Lemma consumed_app pre rest : Re.consumed (pre +:+ rest) rest = pre.
Proof.
  unfold Re.consumed. rewrite slength_app, Nat.add_sub. apply substring_prefix.
Qed.

(** When the matcher succeeds, the text read and the groups handed to
    [k] are related by [captures]. *)
Lemma run_captures r : forall s g (k : string -> Re.groups -> option A) x,
  Re.run r s g k = Some x ->
  exists pre rest g', s = pre +:+ rest /\ captures r pre g g' /\ k rest g' = Some x.
Proof.
  induction r as [p|cs lo hi greedy|r1 IH1 r2 IH2|i r IH|r IH]; intros s g k x; simpl.
  - destruct (PyStr.strip_prefix p s) as [s'|] eqn:E; [|done].
    intros Hk. exists p, s', g. split_and!; [by apply strip_prefix_Some|constructor|done].
  - intros H.
    assert (Hr : rep_read cs lo hi s (fun s' => k s' g) x).
    { destruct greedy; [by apply rep_greedy_sound|by apply rep_lazy_sound]. }
    destruct Hr as (pre & rest & -> & Hall & [Hlo Hup] & Hk).
    exists pre, rest, g. split_and!; [done|by constructor|done].
  - intros (p1 & rest1 & g1 & -> & Hl1 & H2)%IH1.
    apply IH2 in H2 as (p2 & rest & g2 & -> & Hl2 & Hk).
    exists (p1 +:+ p2), rest, g2. rewrite sapp_assoc.
    split_and!; [done|by econstructor|done].
  - intros (pre & rest & g' & -> & Hl & Hk)%IH.
    rewrite consumed_app in Hk.
    eexists pre, rest, _. split_and!; [done|by constructor|exact Hk].
  - destruct (Re.run r s g k) as [y|] eqn:E.
    + intros [= ->]. apply IH in E as (pre & rest & g' & -> & Hl & Hk).
      exists pre, rest, g'. split_and!; [done|by constructor|done].
    + intros Hk. exists "", s, g. split_and!; [done|constructor|done].
Qed.

End CaptureFacts.

Section CaptureInversion.
Implicit Types (s : string) (r : Re.regex) (g : Re.groups).

Lemma match_at_captures r s rest g :
  Re.match_at r s = Some (rest, g) ->
  exists m, s = m +:+ rest /\ captures r m ∅ g.
Proof.
  intros (m & rest' & g' & -> & Hl & [= -> ->])%run_captures. by exists m.
Qed.

Lemma captures_lit_inv p s g g' :
  captures (Re.Lit p) s g g' -> s = p /\ g' = g.
Proof. by inversion 1. Qed.

Lemma captures_rep_inv cs lo hi greedy s g g' :
  captures (Re.Rep cs lo hi greedy) s g g' ->
  g' = g /\ PyStr.all (Re.charset_mem cs) s = true /\ lo <= String.length s /\
  forall h, hi = Some h -> String.length s <= h.
Proof. by inversion 1. Qed.

Lemma captures_cat_inv r1 r2 s g g' :
  captures (Re.Cat r1 r2) s g g' ->
  exists s1 s2 g1, s = s1 +:+ s2 /\ captures r1 s1 g g1 /\ captures r2 s2 g1 g'.
Proof. inversion 1; subst. by eexists _, _, _. Qed.

Lemma captures_group_inv i r s g g' :
  captures (Re.Group i r) s g g' ->
  exists g1, captures r s g g1 /\ g' = <[i := s]> g1.
Proof. inversion 1; subst. by eexists. Qed.

(** A pattern leaves alone the groups that are not its own. *)
Lemma captures_other r s g g' i :
  captures r s g g' -> i ∉ group_ids r -> g' !! i = g !! i.
Proof.
  induction 1 as [| |r1 r2 s1 s2 g g1 g2 _ IH1 _ IH2|j r s g g' _ IH| |r s g g' _ IH];
    simpl; intros Hi; try done.
  - rewrite IH2, IH1; [done|..]; intros ?; apply Hi, elem_of_app; auto.
  - apply not_elem_of_cons in Hi as [Hne Hi]. unfold Re.groups in *.
    rewrite lookup_insert_ne by done. by apply IH.
  - by apply IH.
Qed.

(** What [re.search] returns is the groups of a match somewhere. *)
Lemma search_match_at r s g :
  Re.search r s = Some g ->
  exists pre tail rest, s = pre +:+ tail /\ Re.match_at r tail = Some (rest, g).
Proof.
  induction s as [|c s IH]; rewrite search_unfold;
    destruct (Re.match_at r _) as [[rest g0]|] eqn:E; try done.
  - intros [= ->]. by exists "", "", rest.
  - intros [= ->]. by exists "", (String c s), rest.
  - intros (pre & tail & rest & -> & H)%IH. by exists (String c pre), tail, rest.
Qed.

(** Every match that [re.findall] goes through is a match somewhere. *)
Lemma finditer_match_at r s : forall skip g,
  g ∈ Re.finditer r s skip ->
  exists pre tail rest, s = pre +:+ tail /\ Re.match_at r tail = Some (rest, g).
Proof.
  induction s as [|c s IH]; intros skip g.
  - destruct skip; simpl; [|by intros ?%elem_of_nil].
    destruct (Re.match_at r "") as [[rest g0]|] eqn:E; [|by intros ?%elem_of_nil].
    intros [->|?%elem_of_nil]%elem_of_cons; [|done]. by exists "", "", rest.
  - destruct skip as [|n]; simpl.
    + destruct (Re.match_at r (String c s)) as [[rest g0]|] eqn:E.
      * intros [->|H]%elem_of_cons; [by exists "", (String c s), rest|].
        apply IH in H as (pre & tail & rest' & -> & H).
        by exists (String c pre), tail, rest'.
      * intros (pre & tail & rest' & -> & H)%IH.
        by exists (String c pre), tail, rest'.
    + intros (pre & tail & rest' & -> & H)%IH.
      by exists (String c pre), tail, rest'.
Qed.

Lemma findall_captures r s x :
  x ∈ Re.findall r s ->
  exists pre m rest g,
    s = pre +:+ m +:+ rest /\ captures r m ∅ g /\ x = default "" (g !! 1).
Proof.
  unfold Re.findall. intros (g & -> & H)%list_elem_of_fmap.
  apply finditer_match_at in H as (pre & tail & rest & -> & H).
  apply match_at_captures in H as (m & -> & Hc).
  by exists pre, m, rest, g.
Qed.

(** The group of an identifier tag holds one digit or more. *)
Lemma pmid_pattern_captures m g :
  captures pmid_pattern m ∅ g ->
  exists digits, g !! 1 = Some digits /\ PyStr.decimal digits = true.
Proof.
  unfold pmid_pattern, Re.star, Re.plus. intros H.
  apply captures_cat_inv in H as (s1 & t1 & g1 & -> & H1 & H).
  apply captures_lit_inv in H1 as [-> ->].
  apply captures_cat_inv in H as (s2 & t2 & g2 & -> & H2 & H).
  apply captures_rep_inv in H2 as (-> & _).
  apply captures_cat_inv in H as (s3 & t3 & g3 & -> & H3 & H).
  apply captures_lit_inv in H3 as [-> ->].
  apply captures_cat_inv in H as (s4 & t4 & g4 & -> & H4 & H).
  apply captures_lit_inv in H as [-> ->].
  apply captures_group_inv in H4 as (g5 & H4 & ->).
  apply captures_rep_inv in H4 as (-> & Hall & Hlo & _).
  exists s4. unfold Re.groups. rewrite lookup_insert_eq. split; [done|].
  unfold PyStr.decimal.
  change (PyStr.all PyStr.digit s4) with (PyStr.all (Re.charset_mem Re.Digit) s4).
  rewrite Hall. destruct s4; [simpl in Hlo; lia|done].
Qed.

(** The first group of a date holds four digits. *)
Lemma date_pattern_captures m g :
  captures date_pattern m ∅ g ->
  exists year, g !! 1 = Some year /\ String.length year = 4 /\
               PyStr.all PyStr.digit year = true.
Proof.
  unfold date_pattern, Re.exactly. intros H.
  apply captures_cat_inv in H as (s1 & t1 & g1 & -> & H1 & H).
  apply captures_lit_inv in H1 as [-> ->].
  apply captures_cat_inv in H as (s2 & t2 & g2 & -> & H2 & H).
  apply captures_rep_inv in H2 as (-> & _).
  apply captures_cat_inv in H as (s3 & t3 & g3 & -> & H3 & H).
  apply captures_lit_inv in H3 as [-> ->].
  apply captures_cat_inv in H as (s4 & t4 & g4 & -> & H4 & H).
  apply captures_group_inv in H4 as (g5 & H4 & ->).
  apply captures_rep_inv in H4 as (-> & Hall & Hlo & Hup).
  exists s4. split_and!.
  - rewrite (captures_other _ _ _ _ 1 H).
    + unfold Re.groups. apply lookup_insert_eq.
    + simpl. rewrite !elem_of_cons, elem_of_nil. intros [?|[?|[]]]; lia.
  - specialize (Hup 4 eq_refl). lia.
  - exact Hall.
Qed.

(** The group of an e-mail is the whole match, of the expected shape. *)
Lemma email_pattern_captures m g :
  captures email_pattern m ∅ g -> g !! 1 = Some m /\ email_shaped m.
Proof.
  unfold email_pattern, Re.plus, Re.at_least. intros H.
  apply captures_group_inv in H as (g0 & H & ->).
  split; [unfold Re.groups; apply lookup_insert_eq|].
  apply captures_cat_inv in H as (s1 & t1 & g1 & -> & H1 & H).
  apply captures_rep_inv in H1 as (-> & Hall1 & Hlo1 & _).
  apply captures_cat_inv in H as (s2 & t2 & g2 & -> & H2 & H).
  apply captures_lit_inv in H2 as [-> ->].
  apply captures_cat_inv in H as (s3 & t3 & g3 & -> & H3 & H).
  apply captures_rep_inv in H3 as (-> & Hall3 & Hlo3 & _).
  apply captures_cat_inv in H as (s4 & t4 & g4 & -> & H4 & H).
  apply captures_lit_inv in H4 as [-> ->].
  apply captures_rep_inv in H as (-> & Hall5 & Hlo5 & _).
  exists s1, s3, t4. split_and!; try done.
  - intros ->. simpl in Hlo1. lia.
  - intros ->. simpl in Hlo3. lia.
Qed.

End CaptureInversion.

(** ** What the parser puts in a record *)

Section RecordFacts.

Lemma parse_xml_response_lookup xml_content i paper :
  _parse_xml_response xml_content !! i = Some paper ->
  exists article,
    drop 1 (Re.split article_start xml_content) !! i = Some article /\
    i < length (Re.findall pmid_pattern xml_content) /\
    paper = parse_article (Re.findall pmid_pattern xml_content)
              (Re.findall title_pattern xml_content) i article.
Proof.
  rewrite parse_xml_response_spec. cbv zeta. rewrite list_lookup_imap.
  destruct (take _ _ !! i) as [article|] eqn:E; [|done]. intros [= <-].
  apply lookup_take_Some in E as [E Hi]. by exists article.
Qed.

Lemma free_of_not_occurs r piece tail :
  (forall m, Re.lang r m -> m <> "") ->
  Re.free_of r piece tail -> ~ Re.occurs r piece.
Proof.
  intros Hne Hfree (pre & t & -> & m & post & -> & Hl).
  apply (Hfree pre (m +:+ post)); [done| |].
  - intros [E _]%sapp_eq_nil. by apply (Hne m).
  - exists m, (post +:+ tail). by rewrite sapp_assoc.
Qed.

Lemma split_on_pieces r s pieces :
  (forall m, Re.lang r m -> m <> "") ->
  Re.split_on r s pieces -> forall piece, piece ∈ pieces -> ~ Re.occurs r piece.
Proof.
  intros Hne. induction 1 as [s Hfree|piece0 m rest pieces Hfree Hl _ IH]; intros piece.
  - intros ->%list_elem_of_singleton. by apply (free_of_not_occurs r _ "").
  - intros [->|H]%elem_of_cons; [|by apply IH].
    by apply (free_of_not_occurs r _ (m +:+ rest)).
Qed.

Lemma author_of_block_trimmed block a :
  Spec.author_of_block block = Some a ->
  exists n f, Raw.name a = Some n /\ Raw.affiliation a = Some f /\
              trimmed n /\ trimmed f.
Proof.
  unfold Spec.author_of_block.
  destruct (Re.search last_name_pattern block) as [lm|]; [|done].
  destruct (Re.search fore_name_pattern block) as [fm|]; [|done]. simpl.
  intros [= <-]. eexists _, _. split_and!; [done|done|apply strip_trimmed|].
  destruct (Re.search affiliation_pattern block); simpl;
    [apply strip_trimmed|apply trimmed_empty].
Qed.

End RecordFacts.

(** X1. The identifier of every record returned by the parser is a
    non-empty string of decimal digits (the characters that [\d]
    matches), and it is the identifier found at the same position in the
    whole document. *)
Theorem parse_xml_response_pmid_digits (xml_content : string) (i : nat)
    (paper : Raw.paper) :
  _parse_xml_response xml_content !! i = Some paper ->
  exists id,
    Raw.pmid paper = Some id /\
    Re.findall pmid_pattern xml_content !! i = Some id /\
    id <> "" /\ PyStr.all (Re.charset_mem Re.Digit) id = true.
Proof.
  intros (article & _ & Hi & ->)%parse_xml_response_lookup.
  destruct (lookup_lt_is_Some_2 _ _ Hi) as [id Hid].
  exists id. simpl. rewrite Hid. split_and!; [done..| |].
  - apply list_elem_of_lookup_2, findall_captures in Hid
      as (pre & m & rest & g & _ & Hc & ->).
    apply pmid_pattern_captures in Hc as (digits & -> & Hd). simpl.
    by destruct digits.
  - apply list_elem_of_lookup_2, findall_captures in Hid
      as (pre & m & rest & g & _ & Hc & ->).
    apply pmid_pattern_captures in Hc as (digits & -> & Hd). simpl.
    unfold PyStr.decimal in Hd. by apply andb_prop in Hd as [_ Hd].
Qed.

(** X1 at the record of the test scenario. *)
Lemma parse_xml_response_pmid_digits_witness :
  exists paper,
    _parse_xml_response Examples.one_record !! 0 = Some paper /\
    Raw.pmid paper = Some "12345" /\
    PyStr.all (Re.charset_mem Re.Digit) "12345" = true.
Proof.
  destruct (_parse_xml_response Examples.one_record !! 0) as [paper|] eqn:E;
    [|by vm_compute in E].
  destruct (parse_xml_response_pmid_digits Examples.one_record 0 paper E)
    as (id & Hp & Hf & _ & Hd).
  vm_compute in Hf. injection Hf as <-.
  by exists paper.
Defined.

(** X2. No segment that the parser reads contains a record-start marker:
    the pieces of the split are free of markers. *)
Theorem parse_xml_response_segments_free (xml_content : string) (i : nat)
    (article : string) :
  Re.split article_start xml_content !! i = Some article ->
  ~ Re.occurs article_start article /\
  Re.search article_start article = None.
Proof.
  intros H%list_elem_of_lookup_2.
  assert (Hn : ~ Re.occurs article_start article).
  { eapply split_on_pieces; [apply article_start_not_empty| |exact H].
    apply split_spec, article_start_not_empty. }
  split; [exact Hn|]. by apply search_None.
Qed.

(** X2 at a document with two markers. *)
Lemma parse_xml_response_segments_free_witness :
  Re.split article_start "a<PubmedArticle>b<PubmedArticle x>c" !! 1 = Some "b" /\
  ~ Re.occurs article_start "b".
Proof.
  assert (H : Re.split article_start "a<PubmedArticle>b<PubmedArticle x>c" !! 1
              = Some "b") by reflexivity.
  split; [exact H|].
  exact (proj1 (parse_xml_response_segments_free _ 1 "b" H)).
Defined.

(** X3. The publication date of a segment, once formatted, is
    "Date not available" when the segment has no date block with a
    four-digit year, and otherwise ends with that year, which is the
    first group of the date pattern. *)
Theorem parsed_date_shows_year (article : string) :
  (Re.search date_pattern article = None ->
   _format_publication_date (parse_pub_date article) = "Date not available") /\
  (forall date_match,
     Re.search date_pattern article = Some date_match ->
     exists year before,
       Re.group date_match 1 = Some year /\
       String.length year = 4 /\ PyStr.all PyStr.digit year = true /\
       _format_publication_date (parse_pub_date article) = before +:+ year).
Proof.
  unfold parse_pub_date. split; [by intros ->|].
  intros g Hg. rewrite Hg.
  pose proof Hg as (pre & tail & rest & _ & Hm)%search_match_at.
  apply match_at_captures in Hm as (m & _ & Hc).
  apply date_pattern_captures in Hc as (year & Hy & Hlen & Hd).
  unfold Re.group, or_empty. rewrite Hy. simpl default.
  unfold _format_publication_date.
  destruct (decide _) as [E|_]; [by apply insert_non_empty in E|].
  rewrite lookup_insert_eq. simpl default.
  destruct year as [|c year]; [done|]. simpl negb. cbv iota.
  rewrite lookup_insert_ne, lookup_insert_eq by done.
  rewrite !lookup_insert_ne, lookup_insert_eq by done.
  rewrite date_text_spec.
  exists (String c year). unfold Spec.date_text.
  destruct (if PyStr.isdigit _ then _ else _) as [|c1 mo] eqn:Em.
  - by exists "".
  - destruct (default "" (g !! 3)) as [|c2 dy].
    + eexists. split_and!; [done..|]. by rewrite <- sapp_assoc.
    + eexists. split_and!; [done..|]. by rewrite <- !sapp_assoc.
Qed.

(** X3 at the date of the test scenario. *)
Lemma parsed_date_shows_year_witness :
  exists date_match year,
    Re.search date_pattern Examples.one_record = Some date_match /\
    Re.group date_match 1 = Some year /\ String.length year = 4 /\
    _format_publication_date (parse_pub_date Examples.one_record) = "Jan 15 2023".
Proof.
  destruct (Re.search date_pattern Examples.one_record) as [g|] eqn:E;
    [|by vm_compute in E].
  destruct (proj2 (parsed_date_shows_year Examples.one_record) g E)
    as (year & before & Hy & Hlen & _ & _).
  exists g, year. split_and!; [done..|]. reflexivity.
Defined.

(** X4. The e-mail selected for a record built by the parser is
    "Email Unable to Retrieve" when no e-mail shaped text occurs in the
    segment, and otherwise is an e-mail shaped text (local part, [@],
    domain, dot, at least two letters) that occurs in the segment. *)
Theorem corresponding_email_shaped (pmids titles : list string) (i : nat)
    (article : string) :
  let email := _extract_corresponding_email (parse_article pmids titles i article) in
  (~ Re.occurs email_pattern article -> email = "Email Unable to Retrieve") /\
  (Re.occurs email_pattern article ->
   email_shaped email /\ PyStr.contains email article = true).
Proof.
  cbv zeta. unfold _extract_corresponding_email. simpl. split.
  - by intros ->%findall_nil.
  - intros Ho. destruct (Re.findall email_pattern article) as [|x l] eqn:E.
    { by apply findall_nil in E. }
    assert (Hx : x ∈ Re.findall email_pattern article) by (rewrite E; left).
    apply findall_captures in Hx as (pre & m & rest & g & -> & Hc & ->).
    apply email_pattern_captures in Hc as [-> Hs]. simpl. split; [done|].
    apply contains_true. by exists pre, rest.
Qed.

(** X4 at the segment of the test scenario. *)
Lemma corresponding_email_shaped_witness :
  Re.occurs email_pattern Examples.one_record /\
  email_shaped
    (_extract_corresponding_email (parse_article [] [] 0 Examples.one_record)) /\
  _extract_corresponding_email (parse_article [] [] 0 Examples.one_record) =
    "test@pfizer.com".
Proof.
  assert (H : Re.occurs email_pattern Examples.one_record).
  { apply search_Some. vm_compute. by eexists. }
  split; [exact H|]. split; [|reflexivity].
  exact (proj1 (proj2 (corresponding_email_shaped [] [] 0 Examples.one_record) H)).
Defined.

(** X5. Every author that the parser returns for a segment has a name
    and an affiliation, both without white space at either end. *)
Theorem parse_authors_trimmed (article : string) (a : Raw.author) :
  a ∈ parse_authors article ->
  exists n f,
    Raw.name a = Some n /\ Raw.affiliation a = Some f /\ trimmed n /\ trimmed f.
Proof.
  unfold parse_authors. cbv zeta. rewrite foldl_author_step. simpl.
  intros (block & _ & H)%list_elem_of_omap. by apply author_of_block_trimmed in H.
Qed.

(** X5 at a block whose fields are surrounded by blanks and no-break
    spaces. *)
Lemma parse_authors_trimmed_witness :
  let article :=
    "<Author><LastName>Doe </LastName><ForeName>" +:+ MoreExamples.nbsp +:+
    "John</ForeName><AffiliationInfo><Affiliation> Pfizer Inc. " +:+
    MoreExamples.nbsp +:+ "</Affiliation></AffiliationInfo></Author>" in
  Raw.Author (Some "John Doe") (Some "Pfizer Inc.") ∈ parse_authors article /\
  trimmed "John Doe" /\ trimmed "Pfizer Inc.".
Proof.
  cbv zeta.
  set (article :=
    "<Author><LastName>Doe </LastName><ForeName>" +:+ MoreExamples.nbsp +:+
    "John</ForeName><AffiliationInfo><Affiliation> Pfizer Inc. " +:+
    MoreExamples.nbsp +:+ "</Affiliation></AffiliationInfo></Author>").
  assert (H : Raw.Author (Some "John Doe") (Some "Pfizer Inc.") ∈ parse_authors article).
  { replace (parse_authors article)
      with [Raw.Author (Some "John Doe") (Some "Pfizer Inc.")] by reflexivity.
    left. }
  split; [exact H|].
  destruct (parse_authors_trimmed article _ H) as (n & f & [= <-] & [= <-] & Hn & Hf).
  by split.
Defined.

(** ** More on the date normaliser *)

Section CaseFacts.

Lemma to_title_lower c : PyStr.to_title (PyStr.to_lower c) = PyStr.to_title c.
Proof. by destruct c as [[] [] [] [] [] [] [] []]. Qed.

Lemma digit_lower c : PyStr.digit_like (PyStr.to_lower c) = PyStr.digit_like c.
Proof. by destruct c as [[] [] [] [] [] [] [] []]. Qed.

Lemma lower_digit c : PyStr.digit_like (PyStr.to_lower c) = true -> PyStr.to_lower c = c.
Proof. by destruct c as [[] [] [] [] [] [] [] []]. Qed.

Lemma smap_eq_inv f c s d t :
  PyStr.smap f (String c s) = PyStr.smap f (String d t) ->
  f c = f d /\ PyStr.smap f s = PyStr.smap f t.
Proof. simpl. by intros [= -> ->]. Qed.

Lemma smap_lower_shape m1 : forall m2,
  PyStr.smap PyStr.to_lower m1 = PyStr.smap PyStr.to_lower m2 ->
  (m1 = "" <-> m2 = "").
Proof. by destruct m1; intros [|]. Qed.

Lemma all_digit_lower m1 : forall m2,
  PyStr.smap PyStr.to_lower m1 = PyStr.smap PyStr.to_lower m2 ->
  PyStr.all PyStr.digit_like m1 = PyStr.all PyStr.digit_like m2.
Proof.
  induction m1 as [|c m1 IH]; intros [|d m2] H; try done.
  apply smap_eq_inv in H as [Hc H]. simpl.
  rewrite (IH _ H), <- (digit_lower c), <- (digit_lower d). by rewrite Hc.
Qed.

Lemma all_digit_lower_eq m1 : forall m2,
  PyStr.smap PyStr.to_lower m1 = PyStr.smap PyStr.to_lower m2 ->
  PyStr.all PyStr.digit_like m1 = true -> m1 = m2.
Proof.
  induction m1 as [|c m1 IH]; intros [|d m2] H Hd; try done.
  apply smap_eq_inv in H as [Hc H]. simpl in Hd.
  apply andb_prop in Hd as [Hdc Hd]. f_equal; [|by apply IH].
  assert (Hdd : PyStr.digit_like d = true).
  { by rewrite <- digit_lower, <- Hc, digit_lower. }
  rewrite <- (lower_digit c), <- (lower_digit d), Hc; [done|..];
    by rewrite digit_lower.
Qed.

Lemma smap_substring f n : forall s,
  PyStr.smap f (String.substring 0 n s) = String.substring 0 n (PyStr.smap f s).
Proof.
  induction n as [|n IH]; intros [|c s]; simpl; try done. by rewrite IH.
Qed.

Lemma capitalize_lower n m1 m2 :
  PyStr.smap PyStr.to_lower m1 = PyStr.smap PyStr.to_lower m2 ->
  PyStr.capitalize (PyStr.slice_to (S n) m1) =
  PyStr.capitalize (PyStr.slice_to (S n) m2).
Proof.
  destruct m1 as [|c m1], m2 as [|d m2]; try done.
  intros [Hc H]%smap_eq_inv. unfold PyStr.slice_to. simpl.
  rewrite !smap_substring, H. f_equal.
  by rewrite <- (to_title_lower c), <- (to_title_lower d), Hc.
Qed.

(** The month that is printed depends on the month up to case only. *)
Lemma shown_month_lower m1 m2 :
  PyStr.smap PyStr.to_lower m1 = PyStr.smap PyStr.to_lower m2 ->
  (if PyStr.isdigit m1 then default m1 (month_names !! m1)
   else if PyStr.truthy m1 then PyStr.capitalize (PyStr.slice_to 3 m1) else m1) =
  (if PyStr.isdigit m2 then default m2 (month_names !! m2)
   else if PyStr.truthy m2 then PyStr.capitalize (PyStr.slice_to 3 m2) else m2).
Proof.
  intros H. unfold PyStr.isdigit.
  destruct (PyStr.all PyStr.digit_like m1) eqn:Hd.
  - by rewrite <- (all_digit_lower_eq m1 m2 H Hd), Hd.
  - rewrite <- (all_digit_lower m1 m2 H), Hd, !andb_false_r.
    rewrite (capitalize_lower 2 m1 m2 H).
    destruct m1, m2; try done.
Qed.

Lemma date_text_not_empty month day year :
  year <> "" -> Spec.date_text month day year <> "".
Proof.
  intros Hy. destruct month as [|c m]; [done|]. destruct day; simpl; done.
Qed.

End CaseFacts.

(** X6. For months written with the characters of this development
    (code points below 256), the formatted date does not depend on the
    case of the letters of the month: two months with the same
    lower-case form give the same date. *)
Theorem format_publication_date_month_case (d : gmap string string)
    (month1 month2 : string) :
  PyStr.smap PyStr.to_lower month1 = PyStr.smap PyStr.to_lower month2 ->
  _format_publication_date (Raw.DateDict (<["month" := month1]> d)) =
  _format_publication_date (Raw.DateDict (<["month" := month2]> d)).
Proof.
  intros H. unfold _format_publication_date.
  destruct (decide (<["month" := month1]> d = ∅)) as [E|_];
    [by apply insert_non_empty in E|].
  destruct (decide (<["month" := month2]> d = ∅)) as [E|_];
    [by apply insert_non_empty in E|].
  rewrite !lookup_insert_eq, !(lookup_insert_ne _ "month") by done.
  simpl default. by rewrite (shown_month_lower month1 month2 H).
Qed.

(** X6 at "JANUARY" and "january", and at a month of three accented
    letters (201, 212, 201) and its lower-case form (233, 244, 233). *)
Lemma format_publication_date_month_case_witness :
  let d : gmap string string := <["year" := "2023"]> (<["day" := "15"]> ∅) in
  let upper := String (ascii_of_N 201) (String (ascii_of_N 212) (String (ascii_of_N 201) "")) in
  let lower := String (ascii_of_N 233) (String (ascii_of_N 244) (String (ascii_of_N 233) "")) in
  PyStr.smap PyStr.to_lower "JANUARY" = PyStr.smap PyStr.to_lower "january" /\
  _format_publication_date (Raw.DateDict (<["month" := "JANUARY"]> d)) = "Jan 15 2023" /\
  _format_publication_date (Raw.DateDict (<["month" := "january"]> d)) = "Jan 15 2023" /\
  PyStr.smap PyStr.to_lower upper = PyStr.smap PyStr.to_lower lower /\
  _format_publication_date (Raw.DateDict (<["month" := upper]> d)) =
  _format_publication_date (Raw.DateDict (<["month" := lower]> d)).
Proof.
  cbv zeta.
  assert (H : PyStr.smap PyStr.to_lower "JANUARY" = PyStr.smap PyStr.to_lower "january")
    by reflexivity.
  split; [exact H|].
  rewrite <- (format_publication_date_month_case
                (<["year" := "2023"]> (<["day" := "15"]> ∅)) _ _ H).
  split; [reflexivity|]. split; [reflexivity|].
  assert (H' : PyStr.smap PyStr.to_lower
                 (String (ascii_of_N 201) (String (ascii_of_N 212) (String (ascii_of_N 201) ""))) =
               PyStr.smap PyStr.to_lower
                 (String (ascii_of_N 233) (String (ascii_of_N 244) (String (ascii_of_N 233) ""))))
    by reflexivity.
  split; [exact H'|].
  exact (format_publication_date_month_case _ _ _ H').
Defined.

(** X7. The formatted date is never the empty string: it is
    "Date not available" or it ends with the non-empty year. *)
Theorem format_publication_date_not_empty (pub_date : Raw.date) :
  _format_publication_date pub_date <> "" /\
  (_format_publication_date pub_date = "Date not available" \/
   exists d year before,
     pub_date = Raw.DateDict d /\ d !! "year" = Some year /\ year <> "" /\
     _format_publication_date pub_date = before +:+ year).
Proof.
  destruct pub_date as [|d]; [by split; [|left]|].
  unfold _format_publication_date.
  destruct (decide (d = ∅)); [by split; [|left]|].
  destruct (d !! "year") as [year|] eqn:Ey; [|by split; [|left]]. simpl default.
  destruct year as [|c year]; [by split; [|left]|]. simpl negb. cbv iota.
  rewrite date_text_spec. split; [by apply date_text_not_empty|].
  right. exists d, (String c year). unfold Spec.date_text.
  destruct (if PyStr.isdigit _ then _ else _) as [|c1 mo].
  - by exists "".
  - destruct (default "" (d !! "day")) as [|c2 dy]; eexists;
      (split_and!; [done..|]); by rewrite <- ?sapp_assoc.
Qed.

(** ** Record assembly *)

Section AssemblyFacts.

Lemma fmap_filter_truthy {B} (f : B -> string) (l : list B) :
  f <$> filter (fun a => PyStr.truthy (f a) = true) l =
  filter (fun x => x <> "") (f <$> l).
Proof.
  induction l as [|a l IH]; [done|]. rewrite fmap_cons.
  destruct (f a) as [|c s] eqn:E.
  - rewrite filter_cons_False by (rewrite E; done).
    by rewrite filter_cons_False by (intros H; by apply H).
  - rewrite filter_cons_True by (rewrite E; done).
    rewrite filter_cons_True by done. rewrite fmap_cons, E. by f_equal.
Qed.

End AssemblyFacts.

(** X8. A record never lists an empty author name or an empty
    affiliation: the names are the non-empty names of the authors, in
    their order and with their repetitions, and the affiliations are the
    set of the non-empty affiliations of the authors. *)
Theorem make_paper_no_empty_entry (paper_data : Raw.paper) :
  let authors := default [] (Raw.authors paper_data) in
  let paper := make_paper paper_data in
  non_academic_authors paper =
    filter (fun x => x <> "") ((fun a => default "" (Raw.name a)) <$> authors) /\
  ("" ∉ non_academic_authors paper) /\
  ("" ∉ company_affiliations paper) /\
  forall x, x ∈ company_affiliations paper <->
            x <> "" /\ exists a, a ∈ authors /\ default "" (Raw.affiliation a) = x.
Proof.
  cbv zeta. unfold make_paper. simpl.
  rewrite (fmap_filter_truthy (fun a => default "" (Raw.name a))).
  rewrite (fmap_filter_truthy (fun a => default "" (Raw.affiliation a))).
  assert (Hx : forall x,
    x ∈ (list_to_set (filter (fun x => x <> "")
           ((fun a => default "" (Raw.affiliation a)) <$>
              default [] (Raw.authors paper_data))) : gset string) <->
    x <> "" /\ exists a, a ∈ default [] (Raw.authors paper_data) /\
                         default "" (Raw.affiliation a) = x).
  { intros x. rewrite elem_of_list_to_set, list_elem_of_filter, list_elem_of_fmap.
    split.
    - intros (Hne & a & -> & Ha). split; [done|by exists a].
    - intros (Hne & a & Ha & <-). split; [done|by exists a]. }
  split_and!; [done| | |exact Hx].
  - rewrite list_elem_of_filter. by intros [H _].
  - rewrite Hx. by intros [H _].
Qed.

(** ** More on the query builder *)

Section QueryFacts.

Lemma sapp_inj_r (t : string) : forall s1 s2 : string,
  s1 +:+ t = s2 +:+ t -> s1 = s2.
Proof.
  induction s1 as [|c s1 IH]; intros [|d s2] H; try done.
  - apply (f_equal String.length) in H.
    rewrite sapp_nil_l, slength_app in H. simpl in H. lia.
  - apply (f_equal String.length) in H.
    rewrite sapp_nil_l, slength_app in H. simpl in H. lia.
  - rewrite !sapp_cons in H. injection H as -> H. f_equal. by apply IH.
Qed.

End QueryFacts.

(** X9. With pre-filtering, the request sent to the search endpoint
    carries the built query as its term, and it is the only request sent
    to that endpoint; two different queries never give the same term. *)
Theorem search_papers_filtered_term (self : PubMedSearcher) (query : string)
    (max_results : Z) (tr : trace) :
  (exists p later,
     (search_papers self query max_results true tr).2 =
       tr ++ [Sleep (rate_limit self); Get SEARCH_URL p] ++ later /\
     (list_to_map p : gmap string string) !! "term" =
       Some (_build_company_filtered_query query) /\
     Forall not_search later) /\
  (forall other,
     _build_company_filtered_query query = _build_company_filtered_query other ->
     query = other).
Proof.
  split.
  - destruct (search_papers_trace self query max_results true tr) as (later & E & H).
    exists (search_params (_build_company_filtered_query query) max_results), later.
    split; [exact E|]. split; [|exact H].
    unfold search_params. simpl. rewrite lookup_insert_ne by done.
    apply lookup_insert_eq.
  - intros other H. unfold _build_company_filtered_query in H.
    apply (inj (String.app "(")) in H. by apply sapp_inj_r in H.
Qed.

(** X9 at two queries. *)
Lemma search_papers_filtered_term_witness :
  _build_company_filtered_query "cancer" = _build_company_filtered_query "cancer" /\
  "cancer" = "cancer" /\
  _build_company_filtered_query "cancer" <> _build_company_filtered_query "diabetes".
Proof.
  split; [reflexivity|]. split.
  - exact (proj2 (search_papers_filtered_term
                    (Examples.searcher Examples.offline) "cancer" 200 [])
             "cancer" eq_refl).
  - intros H.
    discriminate (proj2 (search_papers_filtered_term
                           (Examples.searcher Examples.offline) "cancer" 200 [])
                    "diabetes" H).
Defined.

(** ** More on the remote operations *)

Section RunFacts.
Context (self : PubMedSearcher).

Lemma bind_ok {A B} (m : M A) (f : A -> M B) tr a tr' :
  m tr = (Ok a, tr') -> (m ≫= f) tr = f a tr'.
Proof. intros H. unfold mbind, M_bind. by rewrite H. Qed.

Lemma bind_raise {A B} (m : M A) (f : A -> M B) tr e tr' :
  m tr = (Raise e, tr') -> (m ≫= f) tr = (Raise e, tr').
Proof. intros H. unfold mbind, M_bind. by rewrite H. Qed.

Lemma lift_bind {A B} (r : result A) (f : A -> M B) tr :
  (lift r ≫= f) tr = match r with Ok a => f a tr | Raise e => (Raise e, tr) end.
Proof. by destruct r. Qed.

(** The handlers only raise: they add no event. *)
Lemma try_search_trace (body : M (list PubMedPaper)) tr :
  (try_except body search_handler tr).2 = (body tr).2.
Proof.
  unfold try_except. destruct (body tr) as [[a|e] tr1]; [done|].
  unfold search_handler.
  destruct (is_RequestException e); [done|]. by destruct (is_Exception e).
Qed.

Lemma try_fetch_trace (body : M (list Raw.paper)) tr :
  (try_except body fetch_handler tr).2 = (body tr).2.
Proof.
  unfold try_except. destruct (body tr) as [[a|e] tr1]; [done|].
  unfold fetch_handler. by destruct (is_RequestException e).
Qed.

Lemma make_request_cases url p tr :
  exists r, _make_request self url p tr =
              (r, tr ++ [Sleep (rate_limit self); Get url p]).
Proof. rewrite make_request_run. by eexists. Qed.

Lemma fetch_events_nil rate : fetch_events rate [].
Proof. by left. Qed.

(** What fetching the details adds to the trace. *)
Lemma fetch_paper_details_events pmids tr :
  exists later,
    (fetch_paper_details self pmids tr).2 = tr ++ later /\
    fetch_events (rate_limit self) later.
Proof.
  unfold fetch_paper_details.
  destruct (negb (Py.truthy pmids)).
  { exists []. rewrite app_nil_r. split; [done|apply fetch_events_nil]. }
  rewrite lift_bind. destruct (Py.join "," pmids) as [ids|e].
  2:{ exists []. rewrite app_nil_r. split; [done|apply fetch_events_nil]. }
  rewrite try_fetch_trace.
  destruct (make_request_cases FETCH_URL (fetch_params ids) tr) as [[response|e] E].
  - rewrite (bind_ok _ _ _ _ _ E). eexists. split.
    + unfold mbind, M_bind, emit, mret, M_ret. simpl. by rewrite <- app_assoc.
    + right. right. by eexists _, _.
  - rewrite (bind_raise _ _ _ _ _ E). eexists. split; [done|].
    right. left. by eexists.
Qed.

(** What the block under [try] of the search adds to the trace. *)
Lemma search_try_events enhanced_query max_results tr :
  exists later,
    (search_try self enhanced_query max_results tr).2 =
      tr ++ [Sleep (rate_limit self);
             Get SEARCH_URL (search_params enhanced_query max_results)] ++ later /\
    fetch_events (rate_limit self) later.
Proof.
  assert (Hnone : forall tr1 : trace,
            exists later, tr1 = tr1 ++ later /\ fetch_events (rate_limit self) later).
  { intros tr1. exists []. rewrite app_nil_r. split; [done|apply fetch_events_nil]. }
  unfold search_try.
  destruct (make_request_cases SEARCH_URL
              (search_params enhanced_query max_results) tr) as [[response|e] E].
  2:{ rewrite (bind_raise _ _ _ _ _ E). exists []. split; [done|apply fetch_events_nil]. }
  rewrite (bind_ok _ _ _ _ _ E).
  set (tr1 := tr ++ [Sleep (rate_limit self);
                     Get SEARCH_URL (search_params enhanced_query max_results)]).
  assert (Hstop : exists later,
            tr1 = tr ++ [Sleep (rate_limit self);
                         Get SEARCH_URL (search_params enhanced_query max_results)]
                     ++ later /\ fetch_events (rate_limit self) later).
  { exists []. split; [done|apply fetch_events_nil]. }
  rewrite lift_bind. destruct (json response) as [e|data]; [exact Hstop|].
  rewrite lift_bind. destruct (Py.contains "esearchresult" data) as [found|e];
    [|exact Hstop].
  destruct found;
    [change (negb true) with false|change (negb false) with true];
    cbv iota; [|exact Hstop].
  rewrite lift_bind. destruct (Py.getitem data "esearchresult") as [esr|e];
    [|exact Hstop].
  rewrite lift_bind. destruct (Py.get esr "idlist" (PyList [])) as [pmids|e];
    [|exact Hstop].
  rewrite lift_bind. destruct (Py.len pmids) as [n|e]; [|exact Hstop].
  destruct (negb (Py.truthy pmids)); [exact Hstop|].
  destruct (fetch_paper_details_events pmids tr1) as (later & E2 & Hl).
  destruct (fetch_paper_details self pmids tr1) as [[details|e] tr2] eqn:E3;
    simpl in E2; subst tr2.
  - rewrite (bind_ok _ _ _ _ _ E3). exists later. split; [|done].
    unfold tr1. by rewrite <- app_assoc.
  - rewrite (bind_raise _ _ _ _ _ E3). exists later. split; [|done].
    unfold tr1. by rewrite <- app_assoc.
Qed.

(** The block under [try] once the search has answered with an object
    that has an ["esearchresult"] object. *)
Lemma search_try_answered enhanced_query max_results tr response d r :
  get (session self) (tr ++ [Sleep (rate_limit self)]) SEARCH_URL
    (search_params enhanced_query max_results) = inr response ->
  ~ (400 <= status_code response < 600)%Z ->
  json response = inr (PyDict d) ->
  Py.lookup "esearchresult" d = Some (PyDict r) ->
  let tr1 := tr ++ [Sleep (rate_limit self);
                    Get SEARCH_URL (search_params enhanced_query max_results)] in
  let pmids := default (PyList []) (Py.lookup "idlist" r) in
  search_try self enhanced_query max_results tr =
    match Py.len pmids with
    | Raise e => (Raise e, tr1)
    | Ok _ =>
        if negb (Py.truthy pmids) then (Ok [], tr1)
        else (fetch_paper_details self pmids ≫=
                fun paper_details => mret (make_paper <$> paper_details)) tr1
    end.
Proof.
  intros Hg Hs Hj Hl. cbv zeta. unfold search_try.
  erewrite bind_ok
    by (rewrite make_request_run, Hg, (raise_for_status_fine response Hs); reflexivity).
  rewrite lift_bind, Hj, lift_bind. simpl Py.contains. rewrite Hl.
  rewrite bool_decide_eq_true_2 by (by eexists).
  change (negb true) with false. cbv beta iota.
  rewrite lift_bind. simpl Py.getitem. rewrite Hl. cbv beta iota.
  rewrite lift_bind. simpl Py.get. cbv beta iota. rewrite lift_bind.
  destruct (Py.len _); [|done]. by destruct (negb _).
Qed.

(** A list with an item that is not a string cannot be joined. *)
Lemma strs_not_str l v :
  v ∈ l -> (forall s, v <> PyStr s) ->
  exists msg, Py.strs l = Raise (Exn TypeError msg).
Proof.
  induction l as [|x l IH]; [by intros ?%elem_of_nil|].
  intros [E|Hv]%elem_of_cons Hn.
  - subst x. destruct v; try (by eexists). by destruct (Hn s).
  - destruct (IH Hv Hn) as [msg E].
    destruct x; try (by eexists). simpl. rewrite E. by eexists.
Qed.

End RunFacts.

(** X10. A search makes the search request and at most one fetch
    request, each right after a delay of [rate_limit]; the parser is
    called at most once, after the fetch request. Fetching the details
    makes at most one request, after the same delay. *)
Theorem remote_operations_paced (self : PubMedSearcher) (tr : trace) :
  (forall query max_results (filter_companies : bool),
     exists later,
       (search_papers self query max_results filter_companies tr).2 =
         tr ++ [Sleep (rate_limit self);
                Get SEARCH_URL
                  (search_params
                     (if filter_companies
                      then _build_company_filtered_query query else query)
                     max_results)] ++ later /\
       fetch_events (rate_limit self) later) /\
  (forall pmids,
     exists later,
       (fetch_paper_details self pmids tr).2 = tr ++ later /\
       fetch_events (rate_limit self) later).
Proof.
  split.
  - intros query max_results filter_companies. unfold search_papers. cbv zeta.
    rewrite try_search_trace. apply search_try_events.
  - intros pmids. apply fetch_paper_details_events.
Qed.

(** The search when the answer lists no identifier. *)
Lemma search_no_ids_run (self : PubMedSearcher) (query : string)
    (max_results : Z) (filter_companies : bool) (tr : trace)
    (response : Response) (d r : list (string * pyval)) :
  let p := search_params
             (if filter_companies
              then _build_company_filtered_query query else query)
             max_results in
  get (session self) (tr ++ [Sleep (rate_limit self)]) SEARCH_URL p = inr response ->
  ~ (400 <= status_code response < 600)%Z ->
  json response = inr (PyDict d) ->
  Py.lookup "esearchresult" d = Some (PyDict r) ->
  Py.lookup "idlist" r = None \/ Py.lookup "idlist" r = Some (PyList []) ->
  search_papers self query max_results filter_companies tr =
    (Ok [], tr ++ [Sleep (rate_limit self); Get SEARCH_URL p]).
Proof.
  cbv zeta. intros Hg Hs Hj Hl Hids. unfold search_papers, try_except. cbv zeta.
  rewrite (search_try_answered self _ _ _ _ _ _ Hg Hs Hj Hl). cbv zeta.
  by destruct Hids as [-> | ->].
Qed.

(** X11. When the search answers with no identifier (an empty ["idlist"],
    or none at all under ["esearchresult"]), the result is the empty list
    and the search request is the only request: the details are not
    fetched. *)
Theorem search_papers_no_ids (self : PubMedSearcher) (query : string)
    (max_results : Z) (filter_companies : bool) (tr : trace)
    (response : Response) (d r : list (string * pyval)) :
  let p := search_params
             (if filter_companies
              then _build_company_filtered_query query else query)
             max_results in
  get (session self) (tr ++ [Sleep (rate_limit self)]) SEARCH_URL p = inr response ->
  ~ (400 <= status_code response < 600)%Z ->
  json response = inr (PyDict d) ->
  Py.lookup "esearchresult" d = Some (PyDict r) ->
  Py.lookup "idlist" r = None \/ Py.lookup "idlist" r = Some (PyList []) ->
  search_papers self query max_results filter_companies tr =
    (Ok [], tr ++ [Sleep (rate_limit self); Get SEARCH_URL p]).
Proof.
  exact (search_no_ids_run self query max_results filter_companies tr response d r).
Qed.

(** X11 at a service that lists no identifier. *)
Lemma search_papers_no_ids_witness :
  search_papers (Examples.searcher (Examples.service [] ""))
    "nonexistent query" 200 true [] =
    (Ok [], [Sleep (34 # 100);
             Get SEARCH_URL
               (search_params
                  (_build_company_filtered_query "nonexistent query") 200)]).
Proof.
  apply (search_papers_no_ids (Examples.searcher (Examples.service [] ""))
           "nonexistent query" 200 true []
           {| status_code := 200; text := "";
              json := inr (PyDict [("esearchresult",
                                    PyDict [("idlist", Py.of_ids [])])]) |}
           [("esearchresult", PyDict [("idlist", Py.of_ids [])])]
           [("idlist", Py.of_ids [])]);
    [reflexivity|simpl; lia|reflexivity|reflexivity|by right].
Defined.

(** X12. When the search answers with a non-empty list of identifiers
    and the fetch answers with a document, the records of the search are
    the records that the parser reads in that document, assembled one by
    one; the fetch request carries the identifiers joined by commas. *)
Theorem search_papers_success (self : PubMedSearcher) (query : string)
    (max_results : Z) (filter_companies : bool) (tr : trace)
    (response : Response) (d r : list (string * pyval))
    (id : string) (ids : list string) (fetched : Response) :
  let p := search_params
             (if filter_companies
              then _build_company_filtered_query query else query)
             max_results in
  let tr1 := tr ++ [Sleep (rate_limit self); Get SEARCH_URL p] in
  let p' := fetch_params (PyStr.join "," (id :: ids)) in
  get (session self) (tr ++ [Sleep (rate_limit self)]) SEARCH_URL p = inr response ->
  ~ (400 <= status_code response < 600)%Z ->
  json response = inr (PyDict d) ->
  Py.lookup "esearchresult" d = Some (PyDict r) ->
  Py.lookup "idlist" r = Some (Py.of_ids (id :: ids)) ->
  get (session self) (tr1 ++ [Sleep (rate_limit self)]) FETCH_URL p' = inr fetched ->
  ~ (400 <= status_code fetched < 600)%Z ->
  search_papers self query max_results filter_companies tr =
    (Ok (make_paper <$> _parse_xml_response (text fetched)),
     tr1 ++ [Sleep (rate_limit self); Get FETCH_URL p'; ParseXml (text fetched)]).
Proof.
  cbv zeta. intros Hg Hs Hj Hl Hids Hg' Hs'.
  unfold search_papers, try_except. cbv zeta.
  rewrite (search_try_answered self _ _ _ _ _ _ Hg Hs Hj Hl). cbv zeta.
  rewrite Hids. simpl default.
  change (Py.len _) with (Ok (A:=nat) (length (PyStr <$> id :: ids))).
  change (negb _) with false. cbv iota.
  erewrite bind_ok; [reflexivity|].
  apply (proj2 (fetch_paper_details_run self (Py.of_ids (id :: ids))
                  (PyStr.join "," (id :: ids)) _ eq_refl (join_of_ids _ _)));
    done.
Qed.

(** X12 at the service of the test scenario: one record with its six
    fields. *)
Lemma search_papers_success_witness :
  exists papers later,
    search_papers (Examples.searcher (Examples.service ["12345"] Examples.one_record))
      "cancer therapy" 200 false [] = (Ok papers, later) /\
    pubmed_id <$> papers = ["12345"] /\
    title <$> papers = ["Test Paper"] /\
    publication_date <$> papers = ["Jan 15 2023"] /\
    non_academic_authors <$> papers = [["John Doe"]] /\
    (elements ∘ company_affiliations) <$> papers = [["Pfizer Inc."]] /\
    corresponding_email <$> papers = ["test@pfizer.com"].
Proof.
  eexists _, _. split.
  - apply (search_papers_success
             (Examples.searcher (Examples.service ["12345"] Examples.one_record))
             "cancer therapy" 200 false []
             {| status_code := 200; text := "";
                json := inr (PyDict [("esearchresult",
                                      PyDict [("idlist", Py.of_ids ["12345"])])]) |}
             [("esearchresult", PyDict [("idlist", Py.of_ids ["12345"])])]
             [("idlist", Py.of_ids ["12345"])]
             "12345" []
             {| status_code := 200; text := Examples.one_record;
                json := inl (Exn ValueError "not JSON") |});
      [reflexivity|simpl; lia|reflexivity|reflexivity|reflexivity|reflexivity
      |simpl; lia].
  - by vm_compute.
Defined.

(** X13. Fetching the details of a list with an item that is not a
    string raises a [TypeError], not the uniform error, before any delay
    or request; when such a list comes from the answer of the search, the
    search raises the uniform error with that message and makes no fetch
    request. *)
Theorem fetch_paper_details_not_strings (self : PubMedSearcher) (tr : trace)
    (l : list pyval) (v : pyval) :
  v ∈ l -> (forall s, v <> PyStr s) ->
  exists msg,
    fetch_paper_details self (PyList l) tr = (Raise (Exn TypeError msg), tr) /\
    forall query max_results (filter_companies : bool) response d r,
      let p := search_params
                 (if filter_companies
                  then _build_company_filtered_query query else query)
                 max_results in
      get (session self) (tr ++ [Sleep (rate_limit self)]) SEARCH_URL p
        = inr response ->
      ~ (400 <= status_code response < 600)%Z ->
      json response = inr (PyDict d) ->
      Py.lookup "esearchresult" d = Some (PyDict r) ->
      Py.lookup "idlist" r = Some (PyList l) ->
      search_papers self query max_results filter_companies tr =
        (Raise (Exn PubMedAPIError
                  ("Unexpected error during PubMed search: " +:+ msg)),
         tr ++ [Sleep (rate_limit self); Get SEARCH_URL p]).
Proof.
  intros Hv Hn. destruct (strs_not_str l v Hv Hn) as [msg E]. exists msg.
  assert (Ht : Py.truthy (PyList l) = true).
  { destruct l; [by apply elem_of_nil in Hv|done]. }
  assert (Hf : forall tr0, fetch_paper_details self (PyList l) tr0
                           = (Raise (Exn TypeError msg), tr0)).
  { intros tr0. unfold fetch_paper_details. rewrite Ht.
    change (negb true) with false. cbv iota.
    rewrite lift_bind. unfold Py.join. by rewrite E. }
  split; [apply Hf|].
  intros query max_results filter_companies response d r. cbv zeta.
  intros Hg Hs Hj Hl Hids. unfold search_papers, try_except. cbv zeta.
  rewrite (search_try_answered self _ _ _ _ _ _ Hg Hs Hj Hl). cbv zeta.
  rewrite Hids. simpl default. simpl Py.len. cbv iota. rewrite Ht.
  change (negb true) with false. cbv iota.
  by rewrite (bind_raise _ _ _ _ _ (Hf _)).
Qed.

(** X13 at a list of numbers. *)
Lemma fetch_paper_details_not_strings_witness :
  let self := Examples.searcher (MoreExamples.listing (PyList [PyNum 12345])) in
  exists msg,
    fetch_paper_details self (PyList [PyNum 12345]) [] =
      (Raise (Exn TypeError msg), []) /\
    search_papers self "cancer therapy" 200 false [] =
      (Raise (Exn PubMedAPIError
                ("Unexpected error during PubMed search: " +:+ msg)),
       [Sleep (34 # 100); Get SEARCH_URL (search_params "cancer therapy" 200)]).
Proof.
  cbv zeta.
  assert (Hv : PyNum 12345 ∈ [PyNum 12345]) by left.
  assert (Hn : forall s, PyNum 12345 <> PyStr s) by done.
  destruct (fetch_paper_details_not_strings
              (Examples.searcher (MoreExamples.listing (PyList [PyNum 12345]))) []
              _ _ Hv Hn) as (msg & Hf & Hsearch).
  exists msg. split; [exact Hf|].
  apply (Hsearch "cancer therapy" 200%Z false
           {| status_code := 200; text := "";
              json := inr (PyDict [("esearchresult",
                                    PyDict [("idlist", PyList [PyNum 12345])])]) |}
           [("esearchresult", PyDict [("idlist", PyList [PyNum 12345])])]
           [("idlist", PyList [PyNum 12345])]);
    [reflexivity|simpl; lia|reflexivity|reflexivity|reflexivity].
Defined.

(** X14. An exception raised by the request that is not a
    [RequestException] leaves [fetch_paper_details] as it is, right after
    the request: only request exceptions become the uniform error
    there. *)
Theorem fetch_paper_details_lets_through (self : PubMedSearcher) (tr : trace)
    (pmids : pyval) (ids : string) (e : exn) :
  Py.truthy pmids = true -> Py.join "," pmids = Ok ids ->
  get (session self) (tr ++ [Sleep (rate_limit self)]) FETCH_URL (fetch_params ids)
    = inl e ->
  is_RequestException e = false ->
  fetch_paper_details self pmids tr =
    (Raise e, tr ++ [Sleep (rate_limit self); Get FETCH_URL (fetch_params ids)]).
Proof.
  intros Ht Hj Hg He. unfold fetch_paper_details. rewrite Ht.
  change (negb true) with false. cbv iota. rewrite lift_bind, Hj.
  unfold try_except.
  erewrite bind_raise by (rewrite make_request_run, Hg; reflexivity).
  unfold fetch_handler. by rewrite He.
Qed.

(** X14 at the simulated failure of the tests. *)
Lemma fetch_paper_details_lets_through_witness :
  fetch_paper_details (Examples.searcher MoreExamples.failing)
    (Py.of_ids ["12345"]) [] =
    (Raise (Exn Exception "API Error"),
     [Sleep (34 # 100); Get FETCH_URL (fetch_params "12345")]).
Proof.
  exact (fetch_paper_details_lets_through (Examples.searcher MoreExamples.failing) []
           (Py.of_ids ["12345"]) "12345" (Exn Exception "API Error")
           eq_refl eq_refl eq_refl eq_refl).
Defined.

(** ** Display of a list *)

Section DisplayFacts.

Lemma slice_to_length n s :
  String.length (PyStr.slice_to n s) = n `min` String.length s.
Proof.
  unfold PyStr.slice_to. revert s.
  induction n as [|n IH]; intros [|c s]; simpl; try done. by rewrite IH.
Qed.

Lemma slice_to_all n s : String.length s <= n -> PyStr.slice_to n s = s.
Proof.
  unfold PyStr.slice_to. revert s.
  induction n as [|n IH]; intros [|c s]; simpl; try done; try lia.
  intros H. rewrite IH; [done|lia].
Qed.

Lemma slice_to_prefix n s : exists rest, s = PyStr.slice_to n s +:+ rest.
Proof.
  unfold PyStr.slice_to. revert s.
  induction n as [|n IH]; intros [|c s]; simpl; try (by eexists).
  destruct (IH s) as [rest E]. exists rest. by rewrite sapp_cons, <- E.
Qed.

Lemma slice_to_int_length n s :
  (0 <= n)%Z ->
  String.length (slice_to_int n s) = Z.to_nat n `min` String.length s.
Proof.
  intros H. unfold slice_to_int. rewrite (proj2 (Z.leb_le 0 n) H).
  apply slice_to_length.
Qed.

End DisplayFacts.

(** X15. With a non-negative width: the display of no item is empty; a
    single item that fits in the width is displayed as it is; a longer
    single item is cut to the width and followed by "...", which makes
    width + 3 characters; with several items the display is the first
    item cut to half the width, then "...", then the number of the other
    items, whether the first item has been cut or not. *)
Theorem format_list_for_display_width (items : list string) (max_width : Z) :
  (0 <= max_width)%Z ->
  let shown := format_list_for_display items max_width in
  (items = [] -> shown = "") /\
  (forall item, items = [item] ->
     (len item <= max_width -> shown = item)%Z /\
     (max_width < len item ->
      shown = PyStr.slice_to (Z.to_nat max_width) item +:+ "..." /\
      len shown = max_width + 3)%Z) /\
  (forall first second others, items = first :: second :: others ->
     shown = PyStr.slice_to (Z.to_nat (max_width / 2)) first +:+ "..." +:+
             " (+" +:+ pretty (S (length others)) +:+ " more)" /\
     exists rest, first = PyStr.slice_to (Z.to_nat (max_width / 2)) first +:+ rest).
Proof.
  intros Hw. cbv zeta. split; [by intros ->|]. split.
  - intros item ->. unfold format_list_for_display. simpl length.
    change (Z.of_nat 1 =? 1)%Z with true. cbv iota. split.
    + intros H. by rewrite (proj2 (Z.ltb_ge _ _) H).
    + intros H. rewrite (proj2 (Z.ltb_lt _ _) H).
      unfold slice_to_int. rewrite (proj2 (Z.leb_le 0 max_width) Hw).
      split; [done|]. unfold len in *.
      rewrite slength_app, slice_to_length. simpl String.length. lia.
  - intros first second others ->. unfold format_list_for_display.
    assert (Hlen : (Z.of_nat (length (first :: second :: others)) =
                    Z.of_nat (S (length others)) + 1)%Z) by (simpl length; lia).
    rewrite (proj2 (Z.eqb_neq _ 1)) by lia.
    rewrite (proj2 (Z.ltb_lt 1 _)) by lia. cbv zeta.
    rewrite Hlen, Z.add_simpl_r.
    unfold slice_to_int.
    rewrite (proj2 (Z.leb_le 0 (max_width / 2))) by (apply Z.div_pos; lia).
    split; [by rewrite !sapp_assoc|]. apply slice_to_prefix.
Qed.

(** X15 at a single long item and at two items. *)
Lemma format_list_for_display_width_witness :
  format_list_for_display ["Pfizer Incorporated"] 10 = "Pfizer Inc..." /\
  format_list_for_display ["John Doe"; "Ann Poe"] 30 = "John Doe... (+1 more)".
Proof.
  split.
  - exact (proj1 (proj2 (proj1 (proj2 (format_list_for_display_width
             ["Pfizer Incorporated"] 10 ltac:(lia))) _ eq_refl) ltac:(unfold len; simpl; lia))).
  - exact (proj1 (proj2 (proj2 (format_list_for_display_width
             ["John Doe"; "Ann Poe"] 30 ltac:(lia))) _ _ _ eq_refl)).
Defined.

(** ** The entry point of the command line *)

Section MainFacts.
Context (net : Session) (term : Terminal).

Lemma requests_net_free (tail : list cli_event) :
  Forall not_net tail -> requests tail = [].
Proof.
  induction 1 as [|ev tail Hev _ IH]; [done|].
  destruct ev; try exact IH. destruct Hev.
Qed.

Lemma requests_net (events : list event) (tail : list cli_event) :
  Forall not_net tail ->
  requests ((Net <$> events) ++ tail) = requests_of events.
Proof.
  intros H. unfold requests. rewrite omap_app.
  fold (requests tail). rewrite (requests_net_free tail H), app_nil_r.
  unfold requests_of. induction events as [|ev events IH]; [done|].
  rewrite fmap_cons. destruct ev; simpl; try f_equal; exact IH.
Qed.

(** The events of a run: the first line, the events of the search, and
    then events that are not events of the searcher; an output function
    is called among them only with the records of the search. *)
Lemma main_log query output_file debug no_prefilter :
  query <> "" ->
  exists tail,
    (main net term (Some query) output_file debug no_prefilter false).2 =
      searching_line query no_prefilter ::
      (Net <$> (search_papers (default_searcher net) query 200
                  (negb no_prefilter) []).2) ++ tail /\
    Forall not_net tail /\
    Forall (fun ev =>
              is_output ev ->
              exists papers,
                (search_papers (default_searcher net) query 200
                   (negb no_prefilter) []).1 = Ok papers /\
                papers <> [] /\
                ev = (if PyStr.truthy (default "" output_file)
                      then SaveCsv papers (default "" output_file)
                      else DisplayTable papers)) tail.
Proof.
  intros Hq%truthy_true. unfold main, main_try. simpl default. rewrite Hq.
  simpl orb. cbv iota. cbv zeta.
  fold (default_searcher net).
  destruct (search_papers (default_searcher net) query 200 (negb no_prefilter) [])
    as [[papers|e] events]; simpl snd; simpl fst.
  - destruct papers as [|paper papers].
    + eexists. split; [reflexivity|]. split; repeat constructor. intros [].
    + destruct (PyStr.truthy (default "" output_file)).
      * destruct (save_papers_csv term _ _) as [[cls msg]|].
        -- destruct cls; simpl; try destruct debug; eexists;
             (split; [rewrite <- ?app_assoc; reflexivity|]);
             (split; repeat constructor);
             first [ by intros [] | by (intros _; eexists) ].
        -- eexists. split; [reflexivity|]. split; repeat constructor.
           intros _. by eexists.
      * destruct (display_papers_table term _) as [[cls msg]|].
        -- destruct cls; simpl; try destruct debug; eexists;
             (split; [rewrite <- ?app_assoc; reflexivity|]);
             (split; repeat constructor);
             first [ by intros [] | by (intros _; eexists) ].
        -- eexists. split; [reflexivity|]. split; repeat constructor.
           intros _. by eexists.
  - destruct e as [cls msg].
    destruct cls; simpl; try destruct debug;
      try (exists []; rewrite app_nil_r; split; [reflexivity|split; constructor]);
      eexists; (split; [reflexivity|]); (split; repeat constructor); by intros [].
Qed.

End MainFacts.




(** X18. With the help flag or without a query the program makes no
    request. Otherwise its first request is the search, for at most 200
    results, whose term is the query itself under [--no-prefilter] and the
    built query otherwise; at most one more request follows, to the fetch
    endpoint. *)
Theorem main_requests (net : Session) (term : Terminal)
    (query output_file : option string) (debug no_prefilter help : bool) :
  (help = true \/ default "" query = "" ->
   requests (main net term query output_file debug no_prefilter help).2 = []) /\
  (help = false -> default "" query <> "" ->
   exists p rest,
     requests (main net term query output_file debug no_prefilter help).2 =
       (SEARCH_URL, p) :: rest /\
     (list_to_map p : gmap string string) !! "term" =
       Some (if no_prefilter then default "" query
             else _build_company_filtered_query (default "" query)) /\
     (list_to_map p : gmap string string) !! "retmax" = Some "200" /\
     (rest = [] \/ exists p', rest = [(FETCH_URL, p')])).
Proof.
  split.
  - intros H. unfold main.
    assert (help || negb (PyStr.truthy (default "" query)) = true) as ->; [|done].
    destruct H as [-> | ->]; [done|]. by rewrite orb_true_r.
  - intros -> Hq.
    destruct query as [query|]; [|done]. simpl default in *.
    destruct (main_log net term query output_file debug no_prefilter Hq)
      as (tail & -> & Htail & _).
    change (requests (searching_line query no_prefilter :: ?l)) with (requests l).
    rewrite (requests_net _ _ Htail).
    destruct (search_try_events (default_searcher net)
                (if negb no_prefilter
                 then _build_company_filtered_query query else query) 200 [])
      as (later & E & Hl).
    unfold search_papers. cbv zeta. rewrite try_search_trace, E.
    eexists _, (requests_of later). split; [reflexivity|]. split_and!.
    + destruct no_prefilter; simpl; rewrite lookup_insert_ne by done;
        apply lookup_insert_eq.
    + unfold search_params. simpl. rewrite lookup_insert_ne by done.
      rewrite lookup_insert_ne by done. apply lookup_insert_eq.
    + destruct Hl as [->|[[p' ->]|(p' & x & ->)]]; [by left|right..];
        by exists p'.
Qed.

(** X18 at a run without query and at a run under [--no-prefilter]. *)
Lemma main_requests_witness :
  let term := {| get_help := "usage"; save_papers_csv := fun _ _ => None;
                 display_papers_table := fun _ => None |} in
  requests (main Examples.offline term None None false false false).2 = [] /\
  exists p rest,
    requests (main (Examples.service ["12345"] Examples.one_record) term
                (Some "cancer therapy") None false true false).2 =
      (SEARCH_URL, p) :: rest /\
    (list_to_map p : gmap string string) !! "term" = Some "cancer therapy".
Proof.
  cbv zeta. split.
  - apply (proj1 (main_requests Examples.offline _ None None false false false)).
    by right.
  - destruct (proj2 (main_requests (Examples.service ["12345"] Examples.one_record)
                       {| get_help := "usage"; save_papers_csv := fun _ _ => None;
                          display_papers_table := fun _ => None |}
                       (Some "cancer therapy") None false true false)
                eq_refl ltac:(done)) as (p & rest & E & Ht & _).
    by exists p, rest.
Defined.

(** X19. When the search answers with no identifier the program prints
    "No papers found for the given query." and returns: it fetches
    nothing and calls no output function. *)
Theorem main_no_results (net : Session) (term : Terminal) (query : string)
    (output_file : option string) (debug no_prefilter : bool)
    (response : Response) (d r : list (string * pyval)) :
  query <> "" ->
  let p := search_params
             (if negb no_prefilter
              then _build_company_filtered_query query else query) 200 in
  get net [Sleep (34 # 100)] SEARCH_URL p = inr response ->
  ~ (400 <= status_code response < 600)%Z ->
  json response = inr (PyDict d) ->
  Py.lookup "esearchresult" d = Some (PyDict r) ->
  Py.lookup "idlist" r = None \/ Py.lookup "idlist" r = Some (PyList []) ->
  main net term (Some query) output_file debug no_prefilter false =
    (Ok (),
     [searching_line query no_prefilter;
      Net (Sleep (34 # 100)); Net (Get SEARCH_URL p);
      Echo "No papers found for the given query." false]).
Proof.
  intros Hq%truthy_true. cbv zeta. intros Hg Hs Hj Hl Hids.
  unfold main, main_try. simpl default. rewrite Hq. simpl orb. cbv iota zeta.
  fold (default_searcher net).
  by rewrite (search_no_ids_run (default_searcher net) query 200
                (negb no_prefilter) [] response d r Hg Hs Hj Hl Hids).
Qed.

(** X19 at a service that lists no identifier. *)
Lemma main_no_results_witness :
  main (Examples.service [] "")
    {| get_help := "usage"; save_papers_csv := fun _ _ => None;
       display_papers_table := fun _ => None |}
    (Some "nonexistent query") (Some "out.csv") false false false =
    (Ok (),
     [searching_line "nonexistent query" false;
      Net (Sleep (34 # 100));
      Net (Get SEARCH_URL
             (search_params (_build_company_filtered_query "nonexistent query") 200));
      Echo "No papers found for the given query." false]).
Proof.
  apply (main_no_results (Examples.service [] "") _ "nonexistent query"
           (Some "out.csv") false false
           {| status_code := 200; text := "";
              json := inr (PyDict [("esearchresult",
                                    PyDict [("idlist", Py.of_ids [])])]) |}
           [("esearchresult", PyDict [("idlist", Py.of_ids [])])]
           [("idlist", Py.of_ids [])]);
    [done|reflexivity|simpl; lia|reflexivity|reflexivity|by right].
Defined.

(** X20. An output function is called only with the non-empty list of
    records that the search has returned: [save_papers_csv] with the file
    name when a non-empty one is given, [display_papers_table]
    otherwise. *)
Theorem main_output (net : Session) (term : Terminal)
    (query output_file : option string) (debug no_prefilter help : bool)
    (ev : cli_event) :
  ev ∈ (main net term query output_file debug no_prefilter help).2 ->
  is_output ev ->
  exists papers events,
    help = false /\
    search_papers (default_searcher net) (default "" query) 200
      (negb no_prefilter) [] = (Ok papers, events) /\
    papers <> [] /\
    ev = (if PyStr.truthy (default "" output_file)
          then SaveCsv papers (default "" output_file)
          else DisplayTable papers).
Proof.
  destruct help.
  { unfold main. simpl orb. cbv iota. by intros ->%list_elem_of_singleton. }
  destruct (default "" query) as [|c q] eqn:Eq.
  { unfold main. rewrite Eq. simpl. by intros ->%list_elem_of_singleton. }
  destruct query as [query|]; [|done]. simpl in Eq. subst query.
  destruct (main_log net term (String c q) output_file debug no_prefilter)
    as (tail & -> & _ & Hout); [done|].
  rewrite elem_of_cons, elem_of_app, list_elem_of_fmap.
  intros [->|[(x & -> & _)|Hin]] Ho; [destruct Ho..|].
  rewrite Forall_forall in Hout.
  destruct (Hout ev Hin Ho) as (papers & E & Hne & ->).
  exists papers, (search_papers (default_searcher net) (String c q) 200
                    (negb no_prefilter) []).2.
  split_and!; [done| |done..].
  rewrite <- E. apply surjective_pairing.
Qed.

(** X20 at the service of the test scenario, with and without a file
    name. *)
Lemma main_output_witness :
  let term := {| get_help := "usage"; save_papers_csv := fun _ _ => None;
                 display_papers_table := fun _ => None |} in
  let net := Examples.service ["12345"] Examples.one_record in
  exists ev,
    ev ∈ (main net term (Some "cancer therapy") (Some "out.csv")
            false false false).2 /\
    is_output ev /\
    exists papers events,
      false = false /\
      search_papers (default_searcher net) "cancer therapy" 200 true [] =
        (Ok papers, events) /\
      papers <> [] /\
      ev = SaveCsv papers "out.csv".
Proof.
  cbv zeta.
  set (term := {| get_help := "usage"; save_papers_csv := fun _ _ => None;
                  display_papers_table := fun _ => None |}).
  set (net := Examples.service ["12345"] Examples.one_record).
  destruct (search_papers (default_searcher net) "cancer therapy" 200 true [])
    as [[papers|e] events] eqn:E; [|by vm_compute in E].
  destruct papers as [|paper papers]; [by vm_compute in E|].
  assert (Hin : SaveCsv (paper :: papers) "out.csv" ∈
            (main net term (Some "cancer therapy") (Some "out.csv")
               false false false).2).
  { unfold main, main_try. simpl orb. cbv iota zeta.
    fold (default_searcher net). simpl default. simpl negb. rewrite E.
    simpl. apply elem_of_cons. right. apply elem_of_app. right.
    apply list_elem_of_singleton. reflexivity. }
  exists (SaveCsv (paper :: papers) "out.csv"). split; [exact Hin|].
  split; [exact I|].
  destruct (main_output net term _ _ _ _ _ _ Hin I)
    as (papers' & events' & _ & E' & Hne & Hev).
  exists papers', events'. split; [reflexivity|]. split; [|split; [exact Hne|exact Hev]].
  rewrite <- E. exact E'.
Defined.


(** X21. A search returns normally only from a well-shaped answer: the
    search request has been answered, with a status outside 400 to 599,
    by a JSON object whose ["esearchresult"] is itself an object. *)
Theorem search_papers_returns (self : PubMedSearcher) (query : string)
    (max_results : Z) (filter_companies : bool) (tr tr' : trace)
    (papers : list PubMedPaper) :
  search_papers self query max_results filter_companies tr = (Ok papers, tr') ->
  exists response d r,
    get (session self) (tr ++ [Sleep (rate_limit self)]) SEARCH_URL
      (search_params
         (if filter_companies
          then _build_company_filtered_query query else query)
         max_results) = inr response /\
    ~ (400 <= status_code response < 600)%Z /\
    json response = inr (PyDict d) /\
    Py.lookup "esearchresult" d = Some (PyDict r).
Proof.
  unfold search_papers. cbv zeta.
  set (enhanced := if filter_companies
                   then _build_company_filtered_query query else query).
  unfold try_except.
  destruct (search_try self enhanced max_results tr) as [[a|e] tr1] eqn:E.
  2:{ unfold search_handler.
      destruct (is_RequestException e); [discriminate|].
      destruct (is_Exception e); discriminate. }
  intros _. unfold search_try in E.
  destruct (_make_request self SEARCH_URL (search_params enhanced max_results) tr)
    as [[response|e] tr2] eqn:Em.
  2:{ by rewrite (bind_raise _ _ _ _ _ Em) in E. }
  rewrite (bind_ok _ _ _ _ _ Em) in E.
  rewrite make_request_run in Em.
  destruct (get (session self) _ _ _) as [e|response'] eqn:Hg; [done|].
  unfold raise_for_status in Em.
  destruct (bool_decide (400 ≤ status_code response' < 600)%Z) eqn:Hs; [done|].
  apply bool_decide_eq_false in Hs.
  injection Em as -> <-.
  rewrite lift_bind in E.
  destruct (json response) as [e|data] eqn:Hj; [done|].
  rewrite lift_bind in E.
  destruct data as [|b|q|s|l|d]; simpl Py.contains in E; try done.
  - destruct (PyStr.contains "esearchresult" s); [|done].
    change (negb true) with false in E. cbv beta iota in E.
    by rewrite lift_bind in E.
  - destruct (existsb (Py.is_str "esearchresult") l); [|done].
    change (negb true) with false in E. cbv beta iota in E.
    by rewrite lift_bind in E.
  - destruct (Py.lookup "esearchresult" d) as [v|] eqn:Hl.
    2:{ rewrite bool_decide_eq_false_2 in E by (by intros [? ?]). done. }
    rewrite bool_decide_eq_true_2 in E by (by eexists).
    change (negb true) with false in E. cbv beta iota in E.
    rewrite lift_bind in E. simpl Py.getitem in E. rewrite Hl in E.
    cbv beta iota in E. rewrite lift_bind in E.
    destruct v as [|b|q|s|l|r]; try done.
    by exists response, d, r.
Qed.

(** X21 at a service that lists no identifier. *)
Lemma search_papers_returns_witness :
  exists response d r,
    get (Examples.service [] "") [Sleep (34 # 100)] SEARCH_URL
      (search_params (_build_company_filtered_query "nonexistent query") 200) =
      inr response /\
    ~ (400 <= status_code response < 600)%Z /\
    json response = inr (PyDict d) /\
    Py.lookup "esearchresult" d = Some (PyDict r).
Proof.
  apply (search_papers_returns (Examples.searcher (Examples.service [] ""))
           "nonexistent query" 200 true []
           [Sleep (34 # 100);
            Get SEARCH_URL
              (search_params
                 (_build_company_filtered_query "nonexistent query") 200)]
           []).
  reflexivity.
Defined.
